(** * TabToPDF: the tablature renderer of songsterr_downloader.py

    A shallow embedding of [TabToPDF] (src/songsterr_downloader.py, lines
    34-314) and the properties of its layout algorithm, followed by the two
    parts of [SongsterrDownloader] that work on values alone: the file names
    of [_sanitize_filename] (lines 416-420) and the PDF stage of [download]
    (lines 538-567).  The browser, the network and the parsing of pages and
    URLs are outside the embedding.

    Conventions of the embedding.
    - The parsed tab document is a [json] value, as [json.load] returns it;
      a Python [dict] is the list of its items in insertion order.
    - Python floats are exact rationals ([Q]): the arithmetic of the layout
      is exact, and the non-finite values that [json.load] accepts as [NaN]
      and [Infinity] are not document values here.  The conversions
      [float(s)] and [float(i)] of a string and of an [int] do round to the
      nearest double, and overflow as in Python.  Lengths are in points, as
      in reportlab.
    - A [str] is the list of its code points, each below 256.
    - A raised exception is the [Raise] result of the [result] monad; nothing
      in [convert] catches one.
    - The canvas is the list of the drawing calls made on it, in order.
    - Reading a track file is a function from its path to the document, or
      to nothing when [open] or [json.load] raises. *)

From Stdlib Require Import ZArith QArith Qround Qabs List String Ascii Bool Lia
  Lqa Sorted.
Import ListNotations.
Open Scope string_scope.
Open Scope list_scope.
Open Scope Z_scope.

(** ** Exceptions and the result monad *)

Inductive exn : Type :=
| TypeError
| ValueError
| AttributeError
| IndexError
| KeyError
| OverflowError
| ZeroDivisionError.

Inductive result (A : Type) : Type :=
| Ok (a : A)
| Raise (e : exn).
Arguments Ok {A} a.
Arguments Raise {A} e.

Definition bind {A B : Type} (m : result A) (k : A -> result B) : result B :=
  match m with
  | Ok a => k a
  | Raise e => Raise e
  end.

Declare Scope result_scope.
Delimit Scope result_scope with result.
Notation "x <- m ;; k" := (bind m (fun x => k))
  (at level 61, m at next level, right associativity) : result_scope.
Notation "' p <- m ;; k" := (bind m (fun p => k))
  (at level 61, p pattern, m at next level, right associativity) : result_scope.
Open Scope result_scope.

Fixpoint mapM {A B : Type} (f : A -> result B) (l : list A) : result (list B) :=
  match l with
  | [] => Ok []
  | a :: r => b <- f a ;; bs <- mapM f r ;; Ok (b :: bs)
  end.

(** ** JSON values *)

#[warnings="-register-all"]
Inductive json : Type :=
| JNull
| JBool (b : bool)
| JInt (z : Z)
| JFloat (q : Q)
| JStr (s : string)
| JList (l : list json)
| JObj (items : list (string * json)).

Definition num (z : Z) : Q := inject_Z z.

(** The numeric value of an [int], [float] or [bool]. *)
Definition as_number (v : json) : option Q :=
  match v with
  | JInt z => Some (num z)
  | JFloat q => Some q
  | JBool b => Some (if b then 1%Q else 0%Q)
  | _ => None
  end.

(** Python truthiness: [if v:]. *)
Definition truthy (v : json) : bool :=
  match v with
  | JNull => false
  | JBool b => b
  | JInt z => negb (z =? 0)
  | JFloat q => negb (Qeq_bool q 0)
  | JStr s => negb (String.eqb s "")
  | JList l => match l with [] => false | _ => true end
  | JObj items => match items with [] => false | _ => true end
  end.

Fixpoint lookup (k : string) (items : list (string * json)) : option json :=
  match items with
  | [] => None
  | (k', v) :: r => if String.eqb k k' then Some v else lookup k r
  end.

(** [d.get(k, default)]; only a dict has [get]. *)
Definition get (d : json) (k : string) (default : json) : result json :=
  match d with
  | JObj items =>
      match lookup k items with
      | Some v => Ok v
      | None => Ok default
      end
  | _ => Raise AttributeError
  end.

Fixpoint chars (s : string) : list json :=
  match s with
  | EmptyString => []
  | String c r => JStr (String c EmptyString) :: chars r
  end.

(** [for x in v]: the items of a list, the characters of a string, the keys
    of a dict. *)
Definition py_iter (v : json) : result (list json) :=
  match v with
  | JList l => Ok l
  | JStr s => Ok (chars s)
  | JObj items => Ok (map (fun kv => JStr (fst kv)) items)
  | _ => Raise TypeError
  end.

(** [len(v)]. *)
Definition py_len (v : json) : result Z :=
  match v with
  | JList l => Ok (Z.of_nat (List.length l))
  | JStr s => Ok (Z.of_nat (String.length s))
  | JObj items => Ok (Z.of_nat (List.length items))
  | _ => Raise TypeError
  end.

(** [v[i]] for a literal index [i >= 0]. *)
Definition py_index (v : json) (i : nat) : result json :=
  match v with
  | JList l =>
      match nth_error l i with
      | Some x => Ok x
      | None => Raise IndexError
      end
  | JStr s =>
      match nth_error (chars s) i with
      | Some x => Ok x
      | None => Raise IndexError
      end
  | JObj _ => Raise KeyError
  | _ => Raise TypeError
  end.

(** [a / b]: true division of numbers. *)
Definition py_div (a b : json) : result Q :=
  match as_number a, as_number b with
  | Some x, Some y =>
      if Qeq_bool y 0 then Raise ZeroDivisionError else Ok (x / y)%Q
  | _, _ => Raise TypeError
  end.

(** [v <= n] and [v >= n] against an [int]: other operand kinds do not order
    with an [int]. *)
Definition py_le_int (v : json) (n : Z) : result bool :=
  match as_number v with
  | Some q => Ok (Qle_bool q (num n))
  | None => Raise TypeError
  end.

Definition py_ge_int (v : json) (n : Z) : result bool :=
  match as_number v with
  | Some q => Ok (Qle_bool (num n) q)
  | None => Raise TypeError
  end.

(** [a == b]: numbers by value, lists item by item, dicts key by key. *)
Fixpoint py_eq (a b : json) : bool :=
  match a, b with
  | JNull, JNull => true
  | JStr s, JStr t => String.eqb s t
  | JList l1, JList l2 =>
      (fix items (l1 l2 : list json) : bool :=
         match l1, l2 with
         | [], [] => true
         | x :: r1, y :: r2 => py_eq x y && items r1 r2
         | _, _ => false
         end) l1 l2
  | JObj d1, JObj d2 =>
      (List.length d1 =? List.length d2)%nat &&
      (fix keys (d : list (string * json)) : bool :=
         match d with
         | [] => true
         | (k, v) :: r =>
             (fix find (d' : list (string * json)) : bool :=
                match d' with
                | [] => false
                | (k', v') :: r' =>
                    if String.eqb k k' then py_eq v v' else find r'
                end) d2 && keys r
         end) d1
  | _, _ =>
      match as_number a, as_number b with
      | Some x, Some y => Qeq_bool x y
      | _, _ => false
      end
  end.

(** ** [float(v)] and [int(float(v))] *)

Inductive pyfloat : Type :=
| Finite (q : Q)
| Infinite
| NotANumber.

Definition digit_of (c : ascii) : option Z :=
  let n := nat_of_ascii c in
  if ((48 <=? n) && (n <=? 57))%nat then Some (Z.of_nat (n - 48)) else None.

(** The white space [float] drops around a literal: the space, the control
    characters 9 to 13, the next-line character 133 and the no-break space
    160. *)
Definition is_space (c : ascii) : bool :=
  let n := nat_of_ascii c in
  ((n =? 32) || ((9 <=? n) && (n <=? 13)) || (n =? 133) || (n =? 160))%nat.

Definition lower_ascii (c : ascii) : ascii :=
  let n := nat_of_ascii c in
  if ((65 <=? n) && (n <=? 90))%nat then ascii_of_nat (n + 32) else c.

(** [s.lower()], on the ASCII letters. *)
Fixpoint lower (s : string) : string :=
  match s with
  | EmptyString => EmptyString
  | String c r => String (lower_ascii c) (lower r)
  end.

(** [sub in s]. *)
Fixpoint contains (sub s : string) : bool :=
  String.prefix sub s ||
  match s with
  | EmptyString => false
  | String _ r => contains sub r
  end.

Fixpoint lstrip (s : list ascii) : list ascii :=
  match s with
  | c :: r => if is_space c then lstrip r else s
  | [] => []
  end.

Definition strip (s : list ascii) : list ascii :=
  rev (lstrip (rev (lstrip s))).

(** The digits after the first one of a digit part: each is a digit, or an
    underscore followed by a digit.  Returns the value, the number of digits
    and the rest of the input. *)
Fixpoint digits_tail (acc : Z) (cnt : nat) (s : list ascii)
  : Z * nat * list ascii :=
  match s with
  | [] => (acc, cnt, [])
  | c :: r =>
      match digit_of c with
      | Some d => digits_tail (10 * acc + d) (S cnt) r
      | None =>
          if Ascii.eqb c "_"
          then match r with
               | c' :: r' =>
                   match digit_of c' with
                   | Some d => digits_tail (10 * acc + d) (S cnt) r'
                   | None => (acc, cnt, s)
                   end
               | [] => (acc, cnt, s)
               end
          else (acc, cnt, s)
      end
  end.

Definition digitpart (s : list ascii) : option (Z * nat * list ascii) :=
  match s with
  | c :: r =>
      match digit_of c with
      | Some d => Some (digits_tail d 1 r)
      | None => None
      end
  | [] => None
  end.

Definition sign_of (s : list ascii) : bool * list ascii :=
  match s with
  | c :: r =>
      if Ascii.eqb c "-" then (true, r)
      else if Ascii.eqb c "+" then (false, r)
      else (false, s)
  | [] => (false, [])
  end.

Definition pow10 (e : Z) : Q :=
  if e <? 0 then (1 # Z.to_pos (10 ^ (- e)))%Q else num (10 ^ e).

(** The optional exponent; it must end the literal. *)
Definition exponent (s : list ascii) : option Z :=
  match s with
  | [] => Some 0
  | c :: r =>
      if Ascii.eqb (lower_ascii c) "e"
      then let '(neg, r1) := sign_of r in
           match digitpart r1 with
           | Some (e, _, []) => Some (if neg then - e else e)
           | _ => None
           end
      else None
  end.

(** The unsigned decimal literal of Python's [float]: digits, an optional
    fraction, an optional exponent; or a fraction alone. *)
Definition unsigned_float (s : list ascii) : option Q :=
  match digitpart s with
  | Some (i, _, r) =>
      match r with
      | c :: r1 =>
          if Ascii.eqb c "."
          then match digitpart r1 with
               | Some (f, k, r2) =>
                   match exponent r2 with
                   | Some e =>
                       Some ((num i + num f * pow10 (- Z.of_nat k)) * pow10 e)%Q
                   | None => None
                   end
               | None =>
                   match exponent r1 with
                   | Some e => Some (num i * pow10 e)%Q
                   | None => None
                   end
               end
          else match exponent r with
               | Some e => Some (num i * pow10 e)%Q
               | None => None
               end
      | [] => Some (num i)
      end
  | None =>
      match s with
      | c :: r1 =>
          if Ascii.eqb c "."
          then match digitpart r1 with
               | Some (f, k, r2) =>
                   match exponent r2 with
                   | Some e => Some (num f * pow10 (- Z.of_nat k) * pow10 e)%Q
                   | None => None
                   end
               | None => None
               end
          else None
      | [] => None
      end
  end.

(** [2^e] for an integer [e]. *)
Definition pow2 (e : Z) : Q :=
  if e <? 0 then (1 # Z.to_pos (2 ^ (- e)))%Q else num (2 ^ e).

(** The exponent [e] with [2^e <= a < 2^(e+1)], for a positive [a]. *)
Definition binary_exponent (a : Q) : Z :=
  let e := Z.log2 (Qnum a) - Z.log2 (Zpos (Qden a)) in
  if Qle_bool (pow2 e) a then e else e - 1.

(** The integer nearest to [s], the even one of two equally near. *)
Definition round_half_even (s : Q) : Z :=
  let f := Qfloor s in
  match Qcompare (s - num f) (1 # 2) with
  | Lt => f
  | Gt => f + 1
  | Eq => if Z.even f then f else f + 1
  end.

(** The double nearest to [q], as the conversions to [float] round (IEEE
    754 binary64, to nearest, ties to even): 53 bits of precision, the
    exponents from -1022 on, and infinite from [2^1024] on. *)
Definition round_double (q : Q) : pyfloat :=
  if Qeq_bool q 0 then Finite 0
  else
    let a := Qabs q in
    let p := Z.max (binary_exponent a) (-1022) - 52 in
    let v := (num (round_half_even (a / pow2 p)) * pow2 p)%Q in
    if Qle_bool (pow2 1024) v then Infinite
    else Finite (if Qle_bool 0 q then v else - v)%Q.

(** [float(s)] for a string: surrounding whitespace is dropped, then a sign
    and a decimal literal, [inf], [infinity] or [nan] in any letter case.
    The value of the literal is rounded to the nearest double. *)
Definition float_of_string (s : string) : result pyfloat :=
  let '(neg, body) := sign_of (strip (list_ascii_of_string s)) in
  let word := lower (string_of_list_ascii body) in
  if String.eqb word "inf" || String.eqb word "infinity" then Ok Infinite
  else if String.eqb word "nan" then Ok NotANumber
  else match unsigned_float body with
       | Some q => Ok (round_double (if neg then - q else q)%Q)
       | None => Raise ValueError
       end.

(** [float(v)]: an [int] is rounded to the nearest double, and one too
    large for a double raises; a [float] is returned as it is. *)
Definition py_float (v : json) : result pyfloat :=
  match v with
  | JInt z =>
      match round_double (num z) with
      | Infinite => Raise OverflowError
      | x => Ok x
      end
  | JFloat q => Ok (Finite q)
  | JBool b => Ok (Finite (if b then 1 else 0)%Q)
  | JStr s => float_of_string s
  | _ => Raise TypeError
  end.

(** [int(x)] of a float truncates toward zero. *)
Definition py_int (x : pyfloat) : result Z :=
  match x with
  | Finite q => Ok (Z.quot (Qnum q) (Zpos (Qden q)))
  | Infinite => Raise OverflowError
  | NotANumber => Raise ValueError
  end.

(** [int(float(v))], lines 156 and 288. *)
Definition int_float (v : json) : result Z :=
  x <- py_float v ;; py_int x.

(** ** The canvas *)

Inductive color : Type := black | gray | white.

(** Text handed to the canvas: literal pieces and [str(v)] of document
    values, which are kept as the values; a document string handed over as
    it is (the instrument label, line 175) is the [Str] of its value. *)
Inductive piece : Type :=
| Lit (s : string)
| Str (v : json).

Definition text : Type := list piece.

Inductive op : Type :=
| SetFont (name : string) (size : Q)
| SetFillColor (c : color)
| SetStrokeColor (c : color)
| SetLineWidth (w : Q)
| Line (x1 y1 x2 y2 : Q)
| DrawString (x y : Q) (t : text)
| DrawRightString (x y : Q) (t : text)
| DrawCentredString (x y : Q) (t : text)
| PatchRect (t : text) (x y : Q)
    (** [rect(x - w/2 - 1, y - 3, w + 2, 7, fill=1, stroke=0)] where [w] is
        [stringWidth(t, "Courier-Bold", 9)], lines 293 and 295 *)
| ShowPage.

(** The pages a canvas holds when it is saved: [showPage] ends a page, and
    [save] ends the last one when something was drawn on it. *)
Fixpoint pages_from (cur : list op) (ops : list op) : list (list op) :=
  match ops with
  | [] => match cur with [] => [] | _ => [rev cur] end
  | ShowPage :: r => rev cur :: pages_from [] r
  | o :: r => pages_from (o :: cur) r
  end.

Definition pages (canvas : list op) : list (list op) := pages_from [] canvas.

(** ** Layout constants, lines 52-62 *)

Local Open Scope Q_scope.

(** reportlab.lib.units: [inch = 72.0] and [mm = inch / 25.4]. *)
Definition mm : Q := 360 # 127.

(** reportlab.lib.pagesizes: [A4 = (210*mm, 297*mm)]. *)
Definition page_width : Q := 210 * mm.
Definition page_height : Q := 297 * mm.

Definition margin : Q := 15 * mm.
Definition string_spacing : Q := 3.2 * mm.
Definition measures_per_line : Z := 4.
Definition line_spacing : Q := 18 * mm.

Definition MIDI_TO_NOTE : list (Z * string) :=
  [ (28, "E"); (33, "A"); (38, "D"); (43, "G"); (48, "C");
    (40, "E"); (45, "A"); (50, "D"); (55, "G"); (59, "B"); (64, "e");
    (36, "C"); (41, "F"); (46, "B") ]%Z.

(** [MIDI_TO_NOTE.get(m, '?')]: a number finds its key by value, a list or a
    dict cannot be hashed. *)
Definition midi_note (m : json) : result string :=
  match m with
  | JList _ | JObj _ => Raise TypeError
  | _ =>
      match as_number m with
      | Some q =>
          match find (fun kv => Qeq_bool q (num (fst kv))) MIDI_TO_NOTE with
          | Some kv => Ok (snd kv)
          | None => Ok "?"%string
          end
      | None => Ok "?"%string
      end
  end.

Definition Qltb (a b : Q) : bool := negb (Qle_bool b a).

(** An [int] operand where Python asks for one ([range], a slice bound). *)
Definition as_int (v : json) : result Z :=
  match v with
  | JInt z => Ok z
  | JBool b => Ok (if b then 1 else 0)%Z
  | _ => Raise TypeError
  end.

(** [range(n)] as the list of its values. *)
Definition range (n : Z) : list Z := map Z.of_nat (seq 0 (Z.to_nat n)).

(** ** Helper methods *)

(** Lines 64-69. *)
Fixpoint first_content (i : nat) (ms : list json) : result nat :=
  match ms with
  | [] => Ok 0%nat
  | measure :: r =>
      rest <- get measure "rest" (JBool false) ;;
      if negb (truthy rest) then Ok (Nat.max 0 i) else first_content (S i) r
  end.

Definition _find_first_content_measure (measures : json) : result nat :=
  ms <- py_iter measures ;; first_content 0 ms.

(** Lines 75-79: the loop over the tempo changes. *)
Fixpoint tempo_loop (current_bpm : json) (tcs : list json) (measure_idx : Z)
  : result json :=
  match tcs with
  | [] => Ok current_bpm
  | tc :: r =>
      m <- get tc "measure" (JInt 0) ;;
      le <- py_le_int m measure_idx ;;
      if le
      then bpm <- get tc "bpm" (JInt 120) ;; tempo_loop bpm r measure_idx
      else Ok current_bpm
  end.

(** Lines 71-80. *)
Definition _get_tempo_at_measure (automations : json) (measure_idx : Z)
  : result json :=
  tempo_changes <- get automations "tempo" (JList []) ;;
  tcs <- py_iter tempo_changes ;;
  tempo_loop (JInt 120) tcs measure_idx.

(** Lines 82-101. *)
Definition _draw_rhythm_stem (x y : Q) (duration_type : json)
  : result (list op) :=
  let stem_y := y - 3 * mm in
  let stem_height := 4 * mm in
  let stem := [SetLineWidth 0.8; Line x stem_y x (stem_y - stem_height)] in
  ge8 <- py_ge_int duration_type 8 ;;
  if ge8 then
    let flag_y := stem_y - stem_height in
    if py_eq duration_type (JInt 8) then
      Ok (stem ++ [Line x flag_y (x + 2 * mm) (flag_y + 1.5 * mm)])
    else if py_eq duration_type (JInt 16) then
      Ok (stem ++ [Line x flag_y (x + 2 * mm) (flag_y + 1.5 * mm);
                   Line x (flag_y + 1.2 * mm) (x + 2 * mm) (flag_y + 2.7 * mm)])
    else
      ge32 <- py_ge_int duration_type 32 ;;
      if ge32 then
        Ok (stem ++ [Line x flag_y (x + 2 * mm) (flag_y + 1.5 * mm);
                     Line x (flag_y + 1 * mm) (x + 2 * mm) (flag_y + 2.5 * mm);
                     Line x (flag_y + 2 * mm) (x + 2 * mm) (flag_y + 3.5 * mm)])
      else Ok stem
  else Ok stem.

(** Lines 103-114; [top_num, bottom_num = signature] takes exactly two
    items. *)
Definition _draw_time_signature (x y : Q) (signature : json) (num_strings : Q)
  : result (list op) :=
  if negb (truthy signature) then Ok []
  else
    items <- py_iter signature ;;
    match items with
    | [top_num; bottom_num] =>
        let center_y := y - (num_strings - 1) * string_spacing / 2 in
        Ok [SetFont "Helvetica-Bold" 10;
            DrawCentredString x (center_y + 2 * mm) [Str top_num];
            DrawCentredString x (center_y - 4 * mm) [Str bottom_num]]
    | _ => Raise ValueError
    end.

(** Lines 116-120. *)
Definition _draw_tempo_marking (x y : Q) (bpm : json) : list op :=
  [SetFont "Helvetica" 8; DrawString x (y + 4 * mm) [Lit "♩= "; Str bpm]].

(** ** [convert]: normalization, lines 131-159 *)

Fixpoint foldM {A B : Type} (f : A -> B -> result A) (l : list B) (a : A)
  : result A :=
  match l with
  | [] => Ok a
  | b :: r => a' <- f a b ;; foldM f r a'
  end.

(** [v.lower()]: only a string has it. *)
Definition py_lower (v : json) : result string :=
  match v with
  | JStr s => Ok (lower s)
  | _ => Raise AttributeError
  end.

(** [for measure in measures[:30]]: the items of the slice. *)
Definition py_slice30 (v : json) : result (list json) :=
  match v with
  | JList l => Ok (firstn 30 l)
  | JStr s => Ok (firstn 30 (chars s))
  | _ => Raise TypeError
  end.

(** [l[:n]] for an [int] bound. *)
Definition slice_to {A : Type} (l : list A) (n : Z) : list A :=
  if (n <? 0)%Z then firstn (Z.to_nat (Z.of_nat (List.length l) + n)) l
  else firstn (Z.to_nat n) l.

(** [track_info.get(k, default) if track_info else other]. *)
Definition track_get (track_info : json) (k : string) (default other : json)
  : result json :=
  if truthy track_info then get track_info k default else Ok other.

(** Lines 137-139. *)
Definition declared_strings (data track_info : json) : result json :=
  num_strings <- get data "strings" (JInt 6) ;;
  if truthy track_info then
    t <- get track_info "tuning" JNull ;;
    if truthy t then n <- py_len t ;; Ok (JInt n) else Ok num_strings
  else Ok num_strings.

(** Lines 143-147. *)
Definition detect_drums (data track_info : json) : result bool :=
  is_drums <-
    (if truthy track_info then
       i <- get track_info "instrument" (JStr "") ;;
       s <- py_lower i ;; Ok (contains "drum" s)
     else Ok false) ;;
  if negb is_drums then
    i <- get data "instrument" JNull ;;
    if truthy i then
      i' <- get data "instrument" (JStr "") ;;
      s <- py_lower i' ;; Ok (contains "drum" s)
    else Ok is_drums
  else Ok is_drums.

(** Lines 150-156: the scan of the first 30 measures. *)
Definition scan_note (max_string : Z) (note : json) : result Z :=
  s <- get note "string" (JInt 0) ;;
  i <- int_float s ;;
  Ok (Z.max max_string (i + 1)).

Definition scan_beat (max_string : Z) (beat : json) : result Z :=
  notes <- get beat "notes" (JList []) ;;
  l <- py_iter notes ;;
  foldM scan_note l max_string.

Definition scan_voice (max_string : Z) (voice : json) : result Z :=
  beats <- get voice "beats" (JList []) ;;
  l <- py_iter beats ;;
  foldM scan_beat l max_string.

Definition scan_measure (max_string : Z) (measure : json) : result Z :=
  voices <- get measure "voices" (JList []) ;;
  l <- py_iter voices ;;
  foldM scan_voice l max_string.

Definition scan_strings (measures : json) : result Z :=
  ms <- py_slice30 measures ;;
  foldM scan_measure ms 0%Z.

(** Lines 137-157: the string count the layout uses. *)
Definition resolve_strings (measures : json) (is_drums : bool)
  (declared : json) : result json :=
  if is_drums then
    max_string <- scan_strings measures ;;
    Ok (JInt (Z.max max_string 5))
  else Ok declared.

(** ** [convert]: the page header, lines 164-182 *)

(** The text of [drawString]: the canvas takes a [str]; of anything else it
    calls [decode], which no document value has. *)
Definition canvas_text (v : json) : result json :=
  match v with
  | JStr _ => Ok v
  | _ => Raise AttributeError
  end.

Definition header (data track_info tuning : json) (is_drums : bool)
  : result (list op) :=
  let y := page_height - margin in
  artist <- track_get track_info "artist" (JStr "") (JStr "") ;;
  title <- track_get track_info "title" (JStr "") (JStr "") ;;
  let ops1 :=
    SetFont "Helvetica-Bold" 16 ::
    (if truthy artist && truthy title
     then [DrawString margin y [Str artist; Lit " - "; Str title]]
     else []) in
  let y := y - 7 * mm in
  data_instrument <- get data "instrument" (JStr "") ;;
  instrument <- track_get track_info "instrument" (JStr "") data_instrument ;;
  label <- canvas_text instrument ;;
  let ops2 := [SetFont "Helvetica" 11; DrawString margin y [Str label]] in
  let y := y - 5 * mm in
  ops3 <-
    (if truthy tuning && negb is_drums then
       items <- py_iter tuning ;;
       names <- mapM midi_note (rev items) ;;
       Ok [SetFont "Helvetica" 9;
           DrawString margin y
             [Lit ("Tuning: " ++ String.concat " " names)%string]]
     else Ok []) ;;
  Ok (ops1 ++ ops2 ++ ops3).

(** The cursor below the header, line 182. *)
Definition header_bottom : Q := page_height - margin - 7 * mm - 5 * mm - 8 * mm.

(** ** [convert]: the measure loop, lines 186-311 *)

Definition usable_width : Q := page_width - 2 * margin - 15 * mm.
Definition measure_width : Q := usable_width / num measures_per_line.
Definition tab_x_start : Q := margin + 15 * mm.

Record env : Type := mkEnv {
  automations : json;
  tuning : json;
  is_drums : bool;
  num_strings : json;
  strings_q : Q;          (** the numeric value of [num_strings] *)
  start_measure : nat
}.

(** Line 193. *)
Definition line_height (e : env) : Q :=
  strings_q e * string_spacing + line_spacing.

Record state : Type := mkState {
  current_x : Q;
  current_y : Q;
  measure_count : Z;
  current_signature : json;
  last_shown_tempo : json;
  is_first_line : bool
}.

(** Lines 202-211: the line and page breaks. *)
Definition next_line (lh : Q) (st : state) : state * list op :=
  if (measure_count st >=? measures_per_line)%Z then
    let y := current_y st - lh in
    if Qltb y (margin + lh) then
      (mkState tab_x_start (page_height - margin - 10 * mm) 0
               (current_signature st) (last_shown_tempo st) true,
       [ShowPage])
    else
      (mkState tab_x_start y 0
               (current_signature st) (last_shown_tempo st) false,
       [])
  else (st, []).

(** Lines 213-215: the signature in effect from this measure on. *)
Definition carry_signature (measure current : json) : result json :=
  measure_signature <- get measure "signature" current ;;
  Ok (if truthy measure_signature then measure_signature else current).

Definition drum_labels : list string :=
  ["HH"; "SD"; "BD"; "T1"; "T2"; "CR"; "RD"; "CH"]%string.

Definition standard_labels : list string :=
  ["e"; "B"; "G"; "D"; "A"; "E"]%string.

Definition label_at (y : Q) (i : Z) (t : text) : op :=
  DrawRightString (tab_x_start - 3 * mm) (y - num i * string_spacing - 2) t.

(** [enumerate(l)]. *)
Definition enumerate {A : Type} (l : list A) : list (Z * A) :=
  combine (map Z.of_nat (seq 0 (List.length l))) l.

(** Lines 220-231: the string labels of a line. *)
Definition draw_labels (e : env) (y : Q) : result (list op) :=
  if is_drums e then
    n <- as_int (num_strings e) ;;
    Ok (map (fun i =>
               label_at y i
                 (match nth_error drum_labels (Z.to_nat i) with
                  | Some l => [Lit l]
                  | None => [Str (JInt (i + 1))]
                  end))
            (range n))
  else if truthy (tuning e) then
    items <- py_iter (tuning e) ;;
    names <- mapM midi_note items ;;
    Ok (map (fun il => label_at y (fst il) [Lit (snd il)]) (enumerate names))
  else
    n <- as_int (num_strings e) ;;
    Ok (map (fun il => label_at y (fst il) [Lit (snd il)])
            (enumerate (slice_to standard_labels n))).

(** Lines 233-234. *)
Definition draw_signature (e : env) (st : state) (measure_idx : nat)
  : result (list op) :=
  if truthy (current_signature st)
     && (is_first_line st || (measure_idx =? start_measure e)%nat)
  then _draw_time_signature (tab_x_start - 10 * mm) (current_y st)
         (current_signature st) (strings_q e)
  else Ok [].

(** Lines 236-239: the marking and the value shown last. *)
Definition draw_tempo (e : env) (st : state) (measure_idx : nat)
  : result (list op * json) :=
  current_tempo <- _get_tempo_at_measure (automations e) (Z.of_nat measure_idx) ;;
  if negb (py_eq current_tempo (last_shown_tempo st))
  then Ok (_draw_tempo_marking (current_x st) (current_y st) current_tempo,
           current_tempo)
  else Ok ([], last_shown_tempo st).

(** What one turn of the loop draws, by the block that draws it. *)
Record drawing : Type := mkDrawing {
  page_break : list op;                  (** lines 208-209 *)
  labels : list op;                      (** lines 218-231 *)
  signature : list op;                   (** lines 233-234 *)
  tempo : list op;                       (** lines 236-239 *)
  frame : list op;                       (** lines 241-257 *)
  content : list (list op * list op)     (** lines 259-308: the notes and
                                             the stem of each beat *)
}.

(** The calls on the canvas, in the order they are made. *)
Definition flatten (d : drawing) : list op :=
  page_break d ++ labels d ++ signature d ++ tempo d ++ frame d
    ++ List.concat (map (fun b => fst b ++ snd b) (content d)).

(** Lines 217-239: what is drawn before the first measure of a line: the
    labels, the time signature, the tempo marking, and the tempo shown
    last. *)
Definition line_start (e : env) (st : state) (measure_idx : nat)
  : result (list op * list op * list op * json) :=
  if (measure_count st =? 0)%Z then
    strings <- draw_labels e (current_y st) ;;
    sig <- draw_signature e st measure_idx ;;
    ' (mark, shown) <- draw_tempo e st measure_idx ;;
    Ok ([SetFont "Helvetica-Bold" 8; SetFillColor black] ++ strings,
        sig, mark, shown)
  else Ok ([], [], [], last_shown_tempo st).

(** Lines 241-257: the string rulings, the bar lines and the measure number;
    [n] is the string count as the [int] that [range] takes. *)
Definition draw_frame (n : Z) (st : state) (measure_idx : nat) : list op :=
  let x := current_x st in
  let y := current_y st in
  let bottom_y := y - (num n - 1) * string_spacing in
  [SetStrokeColor gray; SetLineWidth 0.5]
    ++ map (fun i =>
              let line_y := y - num i * string_spacing in
              Line x line_y (x + measure_width) line_y)
           (range n)
    ++ [SetStrokeColor black; SetLineWidth 1;
        Line x y x bottom_y;
        Line (x + measure_width) y (x + measure_width) bottom_y;
        SetFont "Helvetica" 7; SetFillColor gray;
        DrawString (x + 1 * mm) (y + 3 * mm)
          [Str (JInt (Z.of_nat measure_idx + 1))];
        SetFillColor black].

Definition default_duration : json := JList [JInt 1; JInt 4].

(** [duration[0] / duration[1]] of a beat, lines 263 and 271-272. *)
Definition beat_fraction (beat : json) : result Q :=
  duration <- get beat "duration" default_duration ;;
  n <- py_index duration 0 ;;
  d <- py_index duration 1 ;;
  py_div n d.

Definition Qsum (l : list Q) : Q := fold_left Qplus l 0.

(** Lines 263-265. *)
Definition total_duration (beats : list json) : result Q :=
  fractions <- mapM beat_fraction beats ;;
  let total := Qsum fractions in
  Ok (if Qeq_bool total 0 then 1 else total).

Definition usable_measure_width : Q := measure_width - 6 * mm.

(** Lines 272-273. *)
Definition beat_width (total : Q) (beat : json) : result Q :=
  fraction <- beat_fraction beat ;;
  let duration_ratio := fraction / total in
  Ok (usable_measure_width * duration_ratio).

(** Lines 281-299: one note; the result tells whether [has_notes] is set. *)
Definition draw_note (n : Z) (y note_x : Q) (note : json)
  : result (bool * list op) :=
  rest <- get note "rest" JNull ;;
  if truthy rest then Ok (false, [])
  else
    fret <- get note "fret" JNull ;;
    string <- get note "string" (JInt 0) ;;
    match fret with
    | JNull => Ok (false, [])
    | _ =>
        string_idx <- int_float string ;;
        if (string_idx <? n)%Z then
          let note_y := y - num string_idx * string_spacing in
          Ok (true,
              [SetFillColor white;
               PatchRect [Str fret] note_x note_y;
               SetFillColor black;
               SetFont "Courier-Bold" 9;
               DrawCentredString note_x (note_y - 2.5) [Str fret]])
        else Ok (true, [])
    end.

(** Lines 278-299: the notes of a beat. *)
Fixpoint draw_notes (n : Z) (y note_x : Q) (notes : list json)
  : result (bool * list op) :=
  match notes with
  | [] => Ok (false, [])
  | note :: r =>
      ' (h, ops) <- draw_note n y note_x note ;;
      ' (h', ops') <- draw_notes n y note_x r ;;
      Ok (h || h', ops ++ ops')
  end.

(** Lines 271-308: one beat at [beat_x]; returns the notes drawn, the stem
    drawn and the width the beat takes. *)
Definition draw_beat (n : Z) (y total beat_x : Q) (beat : json)
  : result (list op * list op * Q) :=
  w <- beat_width total beat ;;
  let note_x := beat_x + w * 0.3 in
  notes <- get beat "notes" (JList []) ;;
  l <- py_iter notes ;;
  ' (has_notes, ops) <- draw_notes n y note_x l ;;
  stem <-
    (if has_notes : bool then
       duration_type <- get beat "type" (JInt 4) ;;
       let rhythm_y := y - (num n - 1) * string_spacing in
       _draw_rhythm_stem note_x rhythm_y duration_type
     else Ok []) ;;
  Ok (ops, stem, w).

(** Lines 270-308: the loop over the beats. *)
Fixpoint draw_beats (n : Z) (y total beat_x : Q) (beats : list json)
  : result (list (list op * list op)) :=
  match beats with
  | [] => Ok []
  | beat :: r =>
      ' (ops, stem, w) <- draw_beat n y total beat_x beat ;;
      rest <- draw_beats n y total (beat_x + w) r ;;
      Ok ((ops, stem) :: rest)
  end.

(** Lines 259-308: the content of a measure, from its first voice. *)
Definition draw_content (n : Z) (st : state) (measure : json)
  : result (list (list op * list op)) :=
  voices <- get measure "voices" (JList []) ;;
  if truthy voices then
    voice <- py_index voices 0 ;;
    beats <- get voice "beats" (JList []) ;;
    if truthy beats then
      l <- py_iter beats ;;
      total <- total_duration l ;;
      draw_beats n (current_y st) total (current_x st + 3 * mm) l
    else Ok []
  else Ok [].

(** A measure as the loop draws it: the state it is drawn in (the cursor,
    its place in the line, the signature in effect, the tempo shown before
    it) and the drawing. *)
Record rendered : Type := mkRendered {
  at_state : state;
  drawn : drawing
}.

(** Lines 200-311: one turn of the loop; returns the measure as drawn and
    the state the next turn starts in. *)
Definition render_measure (e : env) (st : state) (measure_idx : nat)
  (measure : json) : result (rendered * state) :=
  let '(st1, break) := next_line (line_height e) st in
  sig <- carry_signature measure (current_signature st1) ;;
  let st2 := mkState (current_x st1) (current_y st1) (measure_count st1)
                     sig (last_shown_tempo st1) (is_first_line st1) in
  ' (strings, time, mark, shown) <- line_start e st2 measure_idx ;;
  n <- as_int (num_strings e) ;;
  beats <- draw_content n st2 measure ;;
  Ok (mkRendered st2
        (mkDrawing break strings time mark (draw_frame n st2 measure_idx)
                   beats),
      mkState (current_x st2 + measure_width) (current_y st2)
              (measure_count st2 + 1) sig shown (is_first_line st2)).

(** Lines 199-311: the loop from [measure_idx] over the measures left. *)
Fixpoint render_from (e : env) (st : state) (measure_idx : nat)
  (measures : list json) : result (list rendered) :=
  match measures with
  | [] => Ok []
  | measure :: r =>
      ' (m, st') <- render_measure e st measure_idx measure ;;
      rest <- render_from e st' (S measure_idx) r ;;
      Ok (m :: rest)
  end.

(** Lines 190-197. *)
Definition initial_state : state :=
  mkState tab_x_start header_bottom 0 JNull JNull true.

(** Lines 135-193: the values the loop reads and the header drawn on the
    way. *)
Definition prepare (data track_info measures : json)
  : result (env * list op) :=
  automations <- get data "automations" (JObj []) ;;
  declared <- declared_strings data track_info ;;
  default_tuning <- track_get track_info "tuning" JNull JNull ;;
  tuning <- get data "tuning" default_tuning ;;
  is_drums <- detect_drums data track_info ;;
  num_strings <- resolve_strings measures is_drums declared ;;
  start_measure <- _find_first_content_measure measures ;;
  head <- header data track_info tuning is_drums ;;
  initial_bpm <- _get_tempo_at_measure automations (Z.of_nat start_measure) ;;
  match as_number num_strings with
  | Some q =>
      Ok (mkEnv automations tuning is_drums num_strings q start_measure, head)
  | None => Raise TypeError
  end.

(** Lines 135-311 for a non-empty [measures]: the header and the measures
    as drawn, from the first content measure on. *)
Definition render (data track_info measures : json)
  : result (list op * list rendered) :=
  ' (e, head) <- prepare data track_info measures ;;
  ms <- py_iter measures ;;
  walked <- render_from e initial_state (start_measure e)
              (skipn (start_measure e) ms) ;;
  Ok (head, walked).

(** What [convert] leaves behind when it returns. *)
Inductive outcome : Type :=
| ReturnedNone                      (** line 133: nothing was opened *)
| Saved (canvas : list op).         (** line 313: the canvas is saved *)

(** Lines 122-314, from the parsed document on. *)
Definition convert (data track_info : json) : result outcome :=
  measures <- get data "measures" (JList []) ;;
  if negb (truthy measures) then Ok ReturnedNone
  else
    ' (head, walked) <- render data track_info measures ;;
    Ok (Saved (head ++ List.concat (map (fun m => flatten (drawn m)) walked))).

(** The pages of the artifact [convert] writes. *)
Definition pages_of (o : outcome) : list (list op) :=
  match o with
  | ReturnedNone => []
  | Saved canvas => pages canvas
  end.

(** ** Definitions the statements use *)

(** A tempo breakpoint whose measure index is a number above [idx]. *)
Definition breakpoint_after (idx : Z) (tc : json) : Prop :=
  exists m q,
    get tc "measure" (JInt 0) = Ok m /\ as_number m = Some q /\ num idx < q.

(** The widths lines 263-273 allocate to the beats of a first voice. *)
Definition beat_widths (beats : list json) : result (list Q) :=
  total <- total_duration beats ;;
  mapM (beat_width total) beats.

(** A measure of one beat of duration 0/4, and one of four quarter beats. *)
Definition zero_beats : list json :=
  [JObj [("duration", JList [JInt 0; JInt 4])]].

Definition quarter_beats : list json :=
  let b := JObj [("duration", JList [JInt 1; JInt 4])] in [b; b; b; b].

(** The spec's words for percussion mode: the instrument label of the track
    info or of the document contains "drum", whatever the letter case. *)
Definition field (v : json) (k : string) : option json :=
  match v with
  | JObj items => lookup k items
  | _ => None
  end.

Definition mentions_drum (label : option json) : bool :=
  match label with
  | Some (JStr s) => contains "drum" (lower s)
  | _ => false
  end.

Definition percussion_mode (data track_info : json) : bool :=
  mentions_drum (field track_info "instrument")
  || mentions_drum (field data "instrument").

(** The string indices as the scan of lines 150-156 reads them, note by
    note. *)
Definition note_string (note : json) : result Z :=
  s <- get note "string" (JInt 0) ;; int_float s.

Definition beat_strings (beat : json) : result (list Z) :=
  notes <- get beat "notes" (JList []) ;;
  l <- py_iter notes ;;
  mapM note_string l.

Definition voice_strings (voice : json) : result (list Z) :=
  beats <- get voice "beats" (JList []) ;;
  l <- py_iter beats ;;
  ls <- mapM beat_strings l ;;
  Ok (List.concat ls).

Definition measure_strings (measure : json) : result (list Z) :=
  voices <- get measure "voices" (JList []) ;;
  l <- py_iter voices ;;
  ls <- mapM voice_strings l ;;
  Ok (List.concat ls).

Definition scanned_strings (measures : json) : result (list Z) :=
  ms <- py_slice30 measures ;;
  ls <- mapM measure_strings ms ;;
  Ok (List.concat ls).

(** The running maximum of line 156. *)
Definition bump (acc i : Z) : Z := Z.max acc (i + 1).

(** A note that is not a rest and has a fret value: the notes for which
    line 287 sets [has_notes]. *)
Definition is_none (v : json) : bool :=
  match v with
  | JNull => true
  | _ => false
  end.

Definition sounding (note : json) : bool :=
  match get note "rest" JNull, get note "fret" JNull with
  | Ok rest, Ok fret => negb (truthy rest) && negb (is_none fret)
  | _, _ => false
  end.

(** A flag of a stem at [x]: a stroke that rises 1.5 mm over 2 mm. *)
Definition diagonal (x : Q) (o : op) : Prop :=
  match o with
  | Line x1 y1 x2 y2 => x1 == x /\ x2 == x + 2 * mm /\ y2 == y1 + 1.5 * mm
  | _ => False
  end.

(** Each stroke starts above the one before it. *)
Fixpoint ascending (strokes : list op) : Prop :=
  match strokes with
  | Line _ a _ _ :: r =>
      match r with
      | Line _ b _ _ :: _ => a < b /\ ascending r
      | [] => True
      | _ => False
      end
  | [] => True
  | _ => False
  end.

(** One measure of one quarter beat with one note on string index 7, in a
    document of six strings. *)
Definition high_string_measures : json :=
  JList [JObj [("voices",
    JList [JObj [("beats",
      JList [JObj [("duration", JList [JInt 1; JInt 4]); ("type", JInt 4);
                   ("notes",
                    JList [JObj [("string", JInt 7); ("fret", JInt 3)]])]])]])]]%Z.

Definition high_string_document : json :=
  JObj [("strings", JInt 6); ("measures", high_string_measures)].

(** The beats of the first voice of a measure, and the notes of a beat, as
    lines 259-262 and 277 read them. *)
Definition first_voice_beats (measure : json) : result (list json) :=
  voices <- get measure "voices" (JList []) ;;
  voice <- py_index voices 0 ;;
  beats <- get voice "beats" (JList []) ;;
  py_iter beats.

Definition beat_notes (beat : json) : result (list json) :=
  notes <- get beat "notes" (JList []) ;;
  py_iter notes.

(** A note that is not a rest and has a fret value, and whose string index
    [int(float(...))] rejects. *)
Definition malformed_string (note : json) : Prop :=
  sounding note = true
  /\ exists s x, get note "string" (JInt 0) = Ok s /\ int_float s = Raise x.

Definition has_malformed_note (measure : json) : Prop :=
  exists beats beat notes note,
    first_voice_beats measure = Ok beats /\ In beat beats
    /\ beat_notes beat = Ok notes /\ In note notes
    /\ malformed_string note.

(** Drawing the content of the measure raises, whatever the state. *)
Definition content_raises (measure : json) : Prop :=
  forall n st, exists x, draw_content n st measure = Raise x.

(** The measure is not marked as a rest (line 67). *)
Definition not_rest (measure : json) : Prop :=
  exists r, get measure "rest" (JBool false) = Ok r /\ truthy r = false.

(** Two measures; the only note of the first has the string index "abc". *)
Definition bad_string_measures : json :=
  let beat note :=
    JObj [("duration", JList [JInt 1; JInt 4]); ("type", JInt 4);
          ("notes", JList [note])]%Z in
  let measure b := JObj [("voices", JList [JObj [("beats", JList [b])]])] in
  JList [measure (beat (JObj [("string", JStr "abc"); ("fret", JInt 3)]));
         measure (beat (JObj [("string", JInt 0); ("fret", JInt 3)]))]%Z.

Definition bad_string_document : json :=
  JObj [("measures", bad_string_measures)].

(** A tempo breakpoint of the automations, and the spec's words for the
    tempo in effect: the bpm of the last breakpoint at or before the
    measure, 120 when there is none. *)
Definition tempo_change (bp : Z * json) : json :=
  JObj [("measure", JInt (fst bp)); ("bpm", snd bp)].

Definition active_tempo (bps : list (Z * json)) (idx : Z) : json :=
  last (map snd (filter (fun bp => (fst bp <=? idx)%Z) bps)) (JInt 120).

(** Three measures of one quarter note each; the tempo changes from 120 to
    140 at the third. *)
Definition quarter_measure : json :=
  JObj [("voices", JList [JObj [("beats", JList
    [JObj [("duration", JList [JInt 1; JInt 4]); ("type", JInt 4);
           ("notes", JList [JObj [("string", JInt 0); ("fret", JInt 3)]])]])]])]%Z.

Definition mid_line_tempo : json :=
  JObj [("tempo", JList [tempo_change (0, JInt 120);
                         tempo_change (2, JInt 140)])]%Z.

Definition mid_line_measures : json :=
  JList [quarter_measure; quarter_measure; quarter_measure].

Definition mid_line_document : json :=
  JObj [("automations", mid_line_tempo); ("measures", mid_line_measures)].

(** Five measures, the first with the signature 4/4: the fifth starts the
    second line of the first page. *)
Definition signed_measure : json :=
  JObj [("signature", JList [JInt 4; JInt 4]);
        ("voices", JList [JObj [("beats", JList
          [JObj [("duration", JList [JInt 1; JInt 4]); ("type", JInt 4);
                 ("notes",
                  JList [JObj [("string", JInt 0); ("fret", JInt 3)]])]])]])]%Z.

Definition two_line_measures : json :=
  JList [signed_measure; quarter_measure; quarter_measure; quarter_measure;
         quarter_measure].

Definition two_line_document : json :=
  JObj [("measures", two_line_measures)].

(** The spec's words for the signature in effect: the most recent signature
    supplied, by the measure or an earlier one; a measure supplies none when
    the key is missing or null. *)
Definition supplied_signature (measure : json) : option json :=
  match field measure "signature" with
  | Some JNull | None => None
  | Some v => Some v
  end.

Fixpoint effective_signatures (current : json) (measures : list json)
  : list json :=
  match measures with
  | [] => []
  | m :: r =>
      let s := match supplied_signature m with
               | Some v => v
               | None => current
               end in
      s :: effective_signatures s r
  end.

(** A measure is a dict whose signature, when supplied, is a pair. *)
Definition signature_is_pair (measure : json) : Prop :=
  (exists items, measure = JObj items)
  /\ forall v, supplied_signature measure = Some v ->
               exists a b, v = JList [a; b].

(** Measures with the signatures 4/4, none, 3/4, none. *)
Definition carry_measures : list json :=
  [JObj [("signature", JList [JInt 4; JInt 4])];
   JObj [("signature", JNull)];
   JObj [("signature", JList [JInt 3; JInt 4])];
   JObj []]%Z.

(** A track that starts with a rest measure, which carries the signature
    4/4, before its first measure of notes. *)
Definition leading_rest_measures : json :=
  JList [JObj [("rest", JBool true);
               ("signature", JList [JInt 4; JInt 4])]%Z;
         quarter_measure].

Definition leading_rest_document : json :=
  JObj [("measures", leading_rest_measures)].

(** A run of canvas calls without [showPage]. *)
Definition no_show (ops : list op) : Prop :=
  Forall (fun o => o <> ShowPage) ops.

(** What a turn draws after the page break. *)
Definition body (d : drawing) : list op :=
  labels d ++ signature d ++ tempo d ++ frame d
    ++ List.concat (map (fun b => fst b ++ snd b) (content d)).

(** Nine measures of one quarter note each, with 24 strings declared: the
    line height is 94.8 mm, and two lines fit below the header. *)
Definition nine_measures : json :=
  JList [quarter_measure; quarter_measure; quarter_measure; quarter_measure;
         quarter_measure; quarter_measure; quarter_measure; quarter_measure;
         quarter_measure].

Definition nine_measure_document : json :=
  JObj [("strings", JInt 24); ("measures", nine_measures)].

(** How a measure drawn follows the one drawn before it, lines 202-211 and
    310-311: it is the next of the same line, or it starts a line below, or
    it starts a page. *)
Definition follows (lh : Q) (r r' : rendered) : Prop :=
  let s := at_state r in
  let s' := at_state r' in
  if (measure_count s + 1 >=? measures_per_line)%Z then
    measure_count s' = 0%Z /\ current_x s' = tab_x_start
    /\ if Qltb (current_y s - lh) (margin + lh)
       then page_break (drawn r') = [ShowPage]
            /\ current_y s' = page_height - margin - 10 * mm
       else page_break (drawn r') = []
            /\ current_y s' = current_y s - lh
  else
    measure_count s' = (measure_count s + 1)%Z
    /\ current_x s' = current_x s + measure_width
    /\ current_y s' = current_y s
    /\ page_break (drawn r') = [].

(** ** Definitions for further properties of the renderer *)

(** The measure is marked as a rest (line 67). *)
Definition is_rest (measure : json) : Prop :=
  exists r, get measure "rest" (JBool false) = Ok r /\ truthy r = true.

(** The number of flags lines 91-101 draw for a numeric duration class. *)
Definition flag_count (q : Q) : nat :=
  if Qeq_bool q 8 then 1
  else if Qeq_bool q 16 then 2
  else if Qle_bool 32 q then 3
  else 0.

(** The turn that drew the measure started a page. *)
Definition starts_page (r : rendered) : bool :=
  match page_break (drawn r) with
  | [] => false
  | _ => true
  end.

(** Where the cursor of a line may stand: a line that is the first of its
    page stands below the header or 10 mm below the top margin; a line below
    it leaves a line height above the bottom margin. *)
Definition line_in_place (lh : Q) (st : state) : Prop :=
  (is_first_line st = true ->
   current_y st = header_bottom
   \/ current_y st = page_height - margin - 10 * mm)
  /\ (is_first_line st = false -> margin + lh <= current_y st).

(** ** [SongsterrDownloader._sanitize_filename], lines 416-420 *)

(** A name is a [str] of code points below 256, one [ascii] each.  The
    classes of the patterns on these code points: [\w] is a letter, a digit
    or the underscore, with the letters and numerals of Latin-1; [\s] is the
    space, a control character 9 to 13, a separator 28 to 31, the next-line
    character 133 or the no-break space 160. *)
Definition in_range (lo hi n : nat) : bool := ((lo <=? n) && (n <=? hi))%nat.

Definition is_word (c : ascii) : bool :=
  let n := nat_of_ascii c in
  in_range 48 57 n || in_range 65 90 n || (n =? 95)%nat || in_range 97 122 n
  || (n =? 170)%nat || in_range 178 179 n || (n =? 181)%nat
  || in_range 185 186 n || in_range 188 190 n || in_range 192 214 n
  || in_range 216 246 n || in_range 248 255 n.

Definition is_blank (c : ascii) : bool :=
  let n := nat_of_ascii c in
  in_range 9 13 n || in_range 28 32 n || (n =? 133)%nat || (n =? 160)%nat.

(** The class [[-\s]] of line 419. *)
Definition is_separator (c : ascii) : bool :=
  (nat_of_ascii c =? 45)%nat || is_blank c.

(** [c.lower()] of a code point below 256. *)
Definition lower_char (c : ascii) : ascii :=
  let n := nat_of_ascii c in
  if in_range 65 90 n || in_range 192 214 n || in_range 216 222 n
  then ascii_of_nat (n + 32) else c.

(** Line 418: [re.sub(r'[^\w\s-]', '', name)]. *)
Definition remove_unsafe (s : list ascii) : list ascii :=
  filter (fun c => is_word c || is_separator c) s.

(** Line 419: [re.sub(r'[-\s]+', '_', safe)]; [in_run] tells that the
    character before was of the run being replaced. *)
Fixpoint join_runs (in_run : bool) (s : list ascii) : list ascii :=
  match s with
  | [] => []
  | c :: r =>
      if is_separator c then
        if in_run then join_runs true r else "_"%char :: join_runs true r
      else c :: join_runs false r
  end.

(** [s.strip(x)] for one character [x]. *)
Fixpoint lstrip_char (x : ascii) (s : list ascii) : list ascii :=
  match s with
  | c :: r => if Ascii.eqb c x then lstrip_char x r else s
  | [] => []
  end.

Definition strip_char (x : ascii) (s : list ascii) : list ascii :=
  rev (lstrip_char x (rev (lstrip_char x s))).

Definition sanitize_chars (s : list ascii) : list ascii :=
  map lower_char (strip_char "_"%char (join_runs false (remove_unsafe s))).

Definition _sanitize_filename (name : string) : string :=
  string_of_list_ascii (sanitize_chars (list_ascii_of_string name)).

(** A letter or a digit. *)
Definition is_alnum (c : ascii) : bool :=
  is_word c && negb (Ascii.eqb c "_"%char).

(** A lower-case ASCII letter, a digit or the underscore. *)
Definition is_safe (c : ascii) : bool :=
  let n := nat_of_ascii c in
  in_range 48 57 n || in_range 97 122 n || (n =? 95)%nat.

(** A name of ASCII characters only. *)
Definition ascii_name (name : string) : Prop :=
  Forall (fun c => (nat_of_ascii c <? 128)%nat = true)
         (list_ascii_of_string name).

(** ** [SongsterrDownloader.download]: the PDF stage, lines 539-567 *)

(** An entry of [result['files']], lines 506-512 and 530-534.  The track
    index is the number the URL ended in, or [None] when it ended in none;
    the entry of the metadata file has no such key, and [get] gives [None]
    for it too. *)
Record file_info : Type := mkFile {
  file_name : string;
  file_path : string;
  track_index : option nat
}.

(** [s.endswith(suffix)]. *)
Definition endswith (s suffix : string) : bool :=
  let n := String.length s in
  let k := String.length suffix in
  (k <=? n)%nat && String.eqb (substring (n - k) k s) suffix.

(** Line 541. *)
Definition json_files (files : list file_info) : list file_info :=
  filter (fun f => endswith (file_name f) ".json"
                   && negb (String.eqb (file_name f) "metadata.json"))
         files.

(** Lines 547-557: the track info handed to the converter. *)
Definition track_info_for (song_info tracks : json) (track_idx : option nat)
  : result json :=
  match track_idx with
  | None => Ok JNull
  | Some i =>
      n <- py_len tracks ;;
      if (Z.of_nat i <? n)%Z then
        track <- py_index tracks i ;;
        title <- get song_info "title" (JStr "") ;;
        artist <- get song_info "artist" (JStr "") ;;
        track_title <- get track "title" JNull ;;
        instrument <-
          (if truthy track_title then Ok track_title
           else get track "instrument" (JStr "")) ;;
        tuning <- get track "tuning" JNull ;;
        Ok (JObj [("title", title); ("artist", artist);
                  ("instrument", instrument); ("tuning", tuning)])
      else Ok JNull
  end.

(** [s.rsplit('.', 1)[0]], line 559: what stands before the last dot, or
    all of [s] when it has no dot. *)
Fixpoint before_last_dot (s : string) : option string :=
  match s with
  | EmptyString => None
  | String c r =>
      match before_last_dot r with
      | Some p => Some (String c p)
      | None => if Ascii.eqb c "."%char then Some EmptyString else None
      end
  end.

Definition pdf_path_of (path : string) : string :=
  (match before_last_dot path with
   | Some p => p
   | None => path
   end ++ ".pdf")%string.

(** One turn of the loop, lines 546-565: an exception is handed to [_log],
    anything else is counted, with the PDF written if one was. *)
Inductive pdf_attempt : Type :=
| Logged
| Counted (pdf : option (string * list op)).

(** [load] stands for lines 128-129, [open] and [json.load]: the document
    of the file at a path, or [None] when one of the two raises. *)
Definition try_pdf (load : string -> option json) (song_info tracks : json)
  (f : file_info) : pdf_attempt :=
  match track_info_for song_info tracks (track_index f) with
  | Raise _ => Logged
  | Ok track_info =>
      let pdf_path := pdf_path_of (file_path f) in
      match load (file_path f) with
      | None => Logged
      | Some data =>
          match convert data track_info with
          | Raise _ => Logged
          | Ok ReturnedNone => Counted None
          | Ok (Saved canvas) => Counted (Some (pdf_path, canvas))
          end
      end
  end.

(** The state of the stage: the count line 567 prints, the PDF files
    written, and the names of the files whose failure was logged. *)
Record batch : Type := mkBatch {
  pdf_count : nat;
  written : list (string * list op);
  logged : list string
}.

Definition pdf_step (load : string -> option json) (song_info tracks : json)
  (b : batch) (f : file_info) : batch :=
  match try_pdf load song_info tracks f with
  | Logged => mkBatch (pdf_count b) (written b) (logged b ++ [file_name f])
  | Counted None => mkBatch (S (pdf_count b)) (written b) (logged b)
  | Counted (Some pdf) =>
      mkBatch (S (pdf_count b)) (written b ++ [pdf]) (logged b)
  end.

(** Lines 539-565. *)
Definition pdf_stage (load : string -> option json) (song_info : json)
  (files : list file_info) : result batch :=
  tracks <- get song_info "tracks" (JList []) ;;
  Ok (fold_left (pdf_step load song_info tracks) (json_files files)
                (mkBatch 0 [] [])).

(** The file is counted although no PDF is written for it. *)
Definition counted_unwritten (load : string -> option json)
  (song_info tracks : json) (f : file_info) : bool :=
  match try_pdf load song_info tracks f with
  | Counted None => true
  | _ => false
  end.

(** A download of two tracks: the document of the second has no measures,
    and the file of a third cannot be read. *)
Definition two_track_song : json :=
  JObj [("title", JStr "Song"); ("artist", JStr "Band");
        ("tracks", JList [JObj [("title", JStr "Lead")];
                          JObj [("instrument", JStr "Bass")]])].

Definition two_track_files : list file_info :=
  [mkFile "00_lead.json" "out.d/00_lead.json" (Some 0%nat);
   mkFile "01_bass.json" "out.d/01_bass.json" (Some 1%nat);
   mkFile "unknown_2.json" "out.d/unknown_2.json" None;
   mkFile "metadata.json" "out.d/metadata.json" None].

Definition two_track_load (path : string) : option json :=
  if String.eqb path "out.d/00_lead.json" then Some nine_measure_document
  else if String.eqb path "out.d/01_bass.json" then Some (JObj [])
  else None.

(** Three measures of one quarter note each; the only tempo breakpoint
    stands at the fifth measure, beyond them. *)
Definition late_tempo_document : json :=
  JObj [("automations",
         JObj [("tempo", JList [tempo_change (4, JInt 140)])]);
        ("measures", mid_line_measures)]%Z.

(** ** The spec's words for the percussion scan *)

(** The list a dict holds under a key; none when the key is absent. *)
Definition children (v : json) (k : string) : list json :=
  match field v k with
  | Some (JList l) => l
  | _ => []
  end.

(** The notes of a measure: those of every beat of every voice. *)
Definition notes_in (measure : json) : list json :=
  flat_map (fun voice =>
              flat_map (fun beat => children beat "notes")
                       (children voice "beats"))
           (children measure "voices").

(** The string index a note refers to: 0 when it names none. *)
Definition string_index (note : json) : json :=
  match field note "string" with
  | Some v => v
  | None => JInt 0
  end.

(** The string indices referenced in the first 30 measures. *)
Definition referenced (measures : list json) : list json :=
  map string_index (flat_map notes_in (firstn 30 measures)).

(** A string of decimal digits read as a number. *)
Fixpoint digits_value (acc : Z) (s : list ascii) : option Z :=
  match s with
  | [] => Some acc
  | c :: r =>
      match digit_of c with
      | Some d => digits_value (10 * acc + d) r
      | None => None
      end
  end.

(** The integer a string index is coerced to: an integer is itself, a
    boolean is 0 or 1, a number with a fraction is cut toward zero, and a
    string of decimal digits is the number it writes.  Integers are taken
    below [2^53], where a double holds every one of them. *)
Definition coerced_index (v : json) : option Z :=
  match v with
  | JInt z => if (Z.abs z <? 2 ^ 53)%Z then Some z else None
  | JBool b => Some (if b then 1 else 0)%Z
  | JFloat q => Some (if Qle_bool 0 q then Qfloor q else Qceiling q)
  | JStr s =>
      match list_ascii_of_string s with
      | [] => None
      | l =>
          match digits_value 0 l with
          | Some z => if (z <? 2 ^ 53)%Z then Some z else None
          | None => None
          end
      end
  | _ => None
  end.

Fixpoint all_some {A : Type} (l : list (option A)) : option (list A) :=
  match l with
  | [] => Some []
  | Some a :: r =>
      match all_some r with
      | Some r' => Some (a :: r')
      | None => None
      end
  | None :: _ => None
  end.

(** The measures, voices, beats and notes are dicts, and what a dict holds
    under "voices", "beats" and "notes" is a list. *)
Definition is_dict (v : json) : bool :=
  match v with
  | JObj _ => true
  | _ => false
  end.

Definition list_or_absent (v : json) (k : string) : bool :=
  match field v k with
  | None => true
  | Some (JList _) => true
  | Some _ => false
  end.

Definition regular_beat (beat : json) : bool :=
  is_dict beat && list_or_absent beat "notes"
  && forallb is_dict (children beat "notes").

Definition regular_voice (voice : json) : bool :=
  is_dict voice && list_or_absent voice "beats"
  && forallb regular_beat (children voice "beats").

Definition regular_measure (measure : json) : bool :=
  is_dict measure && list_or_absent measure "voices"
  && forallb regular_voice (children measure "voices").

(** A drum track of 31 measures.  The notes of the first 30 use the string
    indices 2, 6.7, "4" and 0; the only note of the last measure is on
    string 11. *)
Definition long_drum_measures : list json :=
  let hit (s : json) := JObj [("string", s); ("fret", JInt 42)] in
  let measure notes :=
    JObj [("voices",
           JList [JObj [("beats",
             JList [JObj [("duration", JList [JInt 1; JInt 4]);
                          ("type", JInt 4);
                          ("notes", JList notes)]])]])] in
  (measure [hit (JInt 2); hit (JFloat 6.7); hit (JStr "4")]
     :: repeat (measure [hit (JInt 0)]) 29)
    ++ [measure [hit (JInt 11)]].

Definition long_drum_document : json :=
  JObj [("instrument", JStr "Drum Kit"); ("strings", JInt 6);
        ("measures", JList long_drum_measures)].

(** * Properties *)

(** ** Tactics *)

(** Inverts a successful [bind] in hypothesis [H]. *)
Ltac bind_ok H :=
  match type of H with
  | bind ?m _ = Ok _ =>
      let E := fresh "E" in
      destruct m eqn:E; cbn [bind] in *; [| discriminate H]
  end.

Tactic Notation "bind_inv" hyp(H) "as" ident(x) ident(E) :=
  match type of H with
  | bind ?m _ = Ok _ =>
      destruct m as [x |] eqn:E; cbn [bind] in *; [| discriminate H]
  end.

(** Solves [no_show] of a list written out. *)
Ltac no_show_list := repeat (constructor; try discriminate).

(** Reduces the line test of [follows] in [F] for a known place in the
    line. *)
Ltac line_test F :=
  match type of F with
  | context [(?a >=? measures_per_line)%Z] =>
      let b := eval vm_compute in (a >=? measures_per_line)%Z in
      change (a >=? measures_per_line)%Z with b in F
  end;
  cbv iota in F.

(** ** The empty document *)

(** C9: a document whose measures list is empty (or absent) makes [convert]
    return [None] at line 133, before the canvas exists: no exception, no
    artifact, no page. *)
Theorem convert_empty_measures (data track_info : json) :
  get data "measures" (JList []) = Ok (JList []) ->
  convert data track_info = Ok ReturnedNone /\ pages_of ReturnedNone = [].
Proof.
  intros H. unfold convert. rewrite H. simpl. split; reflexivity.
Qed.

Lemma convert_empty_measures_witness :
  convert (JObj [("measures", JList [])]) JNull = Ok ReturnedNone
  /\ pages_of ReturnedNone = [].
Proof.
  apply (convert_empty_measures (JObj [("measures", JList [])]) JNull).
  reflexivity.
Defined.

(** ** The tempo in effect *)

Lemma tempo_loop_after (bpm : json) (tcs : list json) (idx : Z) :
  Forall (breakpoint_after idx) tcs -> tempo_loop bpm tcs idx = Ok bpm.
Proof.
  intros H. destruct H as [| tc r (m & q & Hm & Hq & Hlt) _]; [reflexivity |].
  simpl. rewrite Hm. simpl. unfold py_le_int. rewrite Hq. simpl.
  destruct (Qle_bool q (num idx)) eqn:Hle; [| reflexivity].
  apply Qle_bool_iff in Hle. exfalso. apply (Qlt_not_le _ _ Hlt Hle).
Qed.

(** ** Beat widths *)

Lemma Qsum_acc (l : list Q) (a : Q) : fold_left Qplus l a == a + Qsum l.
Proof.
  unfold Qsum. revert a. induction l as [| x l IH]; intros a; simpl.
  - ring.
  - rewrite (IH (a + x)), (IH (0 + x)). ring.
Qed.

Lemma Qsum_cons (x : Q) (l : list Q) : Qsum (x :: l) == x + Qsum l.
Proof.
  unfold Qsum at 1. simpl. rewrite Qsum_acc. ring.
Qed.

Lemma Qsum_scaled (u t : Q) (l : list Q) :
  Qsum (map (fun f => u * (f / t)) l) == u * (Qsum l / t).
Proof.
  induction l as [| x l IH]; simpl.
  - unfold Qsum, Qdiv. simpl. ring.
  - rewrite !Qsum_cons, IH. unfold Qdiv. ring.
Qed.

Lemma beat_widths_of_fractions (total : Q) (beats : list json) (fs : list Q) :
  mapM beat_fraction beats = Ok fs ->
  mapM (beat_width total) beats
  = Ok (map (fun f => usable_measure_width * (f / total)) fs).
Proof.
  revert fs. induction beats as [| b r IH]; intros fs H; simpl in *.
  - injection H as <-. reflexivity.
  - unfold beat_width at 1.
    destruct (beat_fraction b) as [f |]; simpl in *; [| discriminate].
    destruct (mapM beat_fraction r) as [fr |]; simpl in *; [| discriminate].
    injection H as <-. rewrite (IH fr eq_refl). reflexivity.
Qed.

(** The width a beat takes in the loop of lines 270-308 is the one
    [beat_width] computes. *)
Lemma draw_beat_takes_width (n : Z) (y total beat_x w : Q) (beat : json)
  (ops stem : list op) :
  draw_beat n y total beat_x beat = Ok (ops, stem, w) ->
  beat_width total beat = Ok w.
Proof.
  unfold draw_beat. destruct (beat_width total beat) as [w' |]; simpl;
    [| discriminate].
  destruct (get beat "notes" (JList [])) as [notes |]; simpl; [| discriminate].
  destruct (py_iter notes) as [l |]; simpl; [| discriminate].
  destruct (draw_notes _ _ _ l) as [[h o] |]; simpl; [| discriminate].
  destruct h.
  - destruct (get beat "type" (JInt 4)) as [t |]; simpl; [| discriminate].
    destruct (_draw_rhythm_stem _ _ t); simpl; [| discriminate].
    intros H. injection H as _ _ <-. reflexivity.
  - simpl. intros H. injection H as _ _ <-. reflexivity.
Qed.

(** C1, as the code has it: when every beat of the voice has a duration of
    two numbers with a non-zero second one, the beat of fraction [f] gets
    the width [usable_measure_width * (f / total)], where [total] is the sum
    of the fractions, or 1 when that sum is zero.  The widths add up to
    [usable_measure_width], the measure width less 6 mm, when the sum of the
    fractions is not zero, and to zero when it is. *)
Theorem beat_widths_sum (beats : list json) (fs : list Q) :
  mapM beat_fraction beats = Ok fs ->
  let total := if Qeq_bool (Qsum fs) 0 then 1 else Qsum fs in
  let ws := map (fun f => usable_measure_width * (f / total)) fs in
  total_duration beats = Ok total
  /\ beat_widths beats = Ok ws
  /\ (~ Qsum fs == 0 -> Qsum ws == usable_measure_width)
  /\ (Qsum fs == 0 -> Qsum ws == 0).
Proof.
  intros H total ws.
  assert (Ht : total_duration beats = Ok total).
  { unfold total_duration. rewrite H. reflexivity. }
  split; [exact Ht |]. split.
  { unfold beat_widths. rewrite Ht. simpl.
    apply beat_widths_of_fractions, H. }
  unfold ws. split; intros Hs; rewrite Qsum_scaled; unfold total.
  - destruct (Qeq_bool (Qsum fs) 0) eqn:E.
    + apply Qeq_bool_iff in E. contradiction.
    + field. exact Hs.
  - destruct (Qeq_bool (Qsum fs) 0) eqn:E.
    + rewrite Hs. unfold Qdiv. ring.
    + apply Qeq_bool_neq in E. contradiction.
Qed.

Lemma beat_widths_sum_witness :
  let fs := [1 # 4; 1 # 4; 1 # 4; 1 # 4] in
  let total := if Qeq_bool (Qsum fs) 0 then 1 else Qsum fs in
  let ws := map (fun f => usable_measure_width * (f / total)) fs in
  total_duration quarter_beats = Ok total
  /\ beat_widths quarter_beats = Ok ws
  /\ (~ Qsum fs == 0 -> Qsum ws == usable_measure_width)
  /\ (Qsum fs == 0 -> Qsum ws == 0).
Proof.
  apply (beat_widths_sum quarter_beats [1 # 4; 1 # 4; 1 # 4; 1 # 4]).
  reflexivity.
Defined.

(** C1 as stated fails: the widths of a measure whose fractions sum to zero
    add up to zero, and the widths of four quarter beats add up to the
    measure width less 6 mm; neither sum is the measure width. *)
Lemma beat_widths_do_not_fill_measure :
  (exists ws, beat_widths zero_beats = Ok ws
              /\ Qsum ws == 0 /\ ~ Qsum ws == measure_width)
  /\ (exists ws, beat_widths quarter_beats = Ok ws
                 /\ Qsum ws == measure_width - 6 * mm
                 /\ ~ Qsum ws == measure_width).
Proof.
  split; eexists; (split; [vm_compute; reflexivity |]); split;
    try (vm_compute; reflexivity); vm_compute; discriminate.
Qed.

(** ** The string count in percussion mode *)

Lemma scan_notes_collect (l : list json) (idxs : list Z) (acc : Z) :
  mapM note_string l = Ok idxs ->
  foldM scan_note l acc = Ok (fold_left bump idxs acc).
Proof.
  revert idxs acc. induction l as [| note r IH]; intros idxs acc H; simpl in *.
  - injection H as <-. reflexivity.
  - bind_ok H. bind_ok H. injection H as <-.
    unfold scan_note. unfold note_string in E.
    destruct (get note "string" (JInt 0)) as [s |]; simpl in *; [| discriminate].
    rewrite E. simpl. apply IH. reflexivity.
Qed.

Lemma foldM_collect {B : Type} (f : Z -> B -> result Z)
  (g : B -> result (list Z)) :
  (forall acc b idxs, g b = Ok idxs -> f acc b = Ok (fold_left bump idxs acc)) ->
  forall (l : list B) (ls : list (list Z)) (acc : Z),
    mapM g l = Ok ls ->
    foldM f l acc = Ok (fold_left bump (List.concat ls) acc).
Proof.
  intros Hf l. induction l as [| b r IH]; intros ls acc H; simpl in *.
  - injection H as <-. reflexivity.
  - bind_ok H. bind_ok H. injection H as <-.
    rewrite (Hf acc b a E). simpl. rewrite fold_left_app. apply IH. reflexivity.
Qed.

Lemma scan_beat_collect (acc : Z) (beat : json) (idxs : list Z) :
  beat_strings beat = Ok idxs ->
  scan_beat acc beat = Ok (fold_left bump idxs acc).
Proof.
  unfold beat_strings, scan_beat. intros H. bind_ok H. bind_ok H.
  apply scan_notes_collect, H.
Qed.

Lemma scan_voice_collect (acc : Z) (voice : json) (idxs : list Z) :
  voice_strings voice = Ok idxs ->
  scan_voice acc voice = Ok (fold_left bump idxs acc).
Proof.
  unfold voice_strings, scan_voice. intros H. bind_ok H. bind_ok H. bind_ok H.
  injection H as <-. apply (foldM_collect scan_beat beat_strings); [| exact E1].
  intros; apply scan_beat_collect; assumption.
Qed.

Lemma scan_measure_collect (acc : Z) (measure : json) (idxs : list Z) :
  measure_strings measure = Ok idxs ->
  scan_measure acc measure = Ok (fold_left bump idxs acc).
Proof.
  unfold measure_strings, scan_measure. intros H. bind_ok H. bind_ok H.
  bind_ok H. injection H as <-.
  apply (foldM_collect scan_voice voice_strings); [| exact E1].
  intros; apply scan_voice_collect; assumption.
Qed.

Lemma scan_strings_collect (measures : json) (idxs : list Z) :
  scanned_strings measures = Ok idxs ->
  scan_strings measures = Ok (fold_left bump idxs 0%Z).
Proof.
  unfold scanned_strings, scan_strings. intros H. bind_ok H. bind_ok H.
  injection H as <-.
  apply (foldM_collect scan_measure measure_strings); [| exact E0].
  intros; apply scan_measure_collect; assumption.
Qed.

Lemma fold_bump_bounds (idxs : list Z) (acc : Z) :
  (acc <= fold_left bump idxs acc)%Z
  /\ (forall i, In i idxs -> (i + 1 <= fold_left bump idxs acc)%Z)
  /\ (fold_left bump idxs acc = acc
      \/ exists i, In i idxs /\ fold_left bump idxs acc = (i + 1)%Z).
Proof.
  revert acc. induction idxs as [| x r IH]; intros acc; simpl.
  - split; [lia |]. split; [intros i [] | left; reflexivity].
  - destruct (IH (bump acc x)) as (Hacc & Hall & Hin). unfold bump in *.
    split; [lia |]. split.
    + intros i [<- | Hi]; [lia | apply Hall, Hi].
    + destruct Hin as [Heq | (i & Hi & Heq)].
      * destruct (Z.max_spec acc (x + 1)) as [[_ Hm] | [_ Hm]].
        -- right. exists x. split; [left; reflexivity | lia].
        -- left. lia.
      * right. exists i. split; [right; exact Hi | exact Heq].
Qed.

Lemma fold_bump_max (idxs : list Z) (m : Z) :
  In m idxs -> (forall i, In i idxs -> (i <= m)%Z) ->
  Z.max (fold_left bump idxs 0%Z) 5 = Z.max (m + 1) 5.
Proof.
  intros Hm Hle. destruct (fold_bump_bounds idxs 0%Z) as (H0 & Hall & Hin).
  specialize (Hall m Hm).
  destruct Hin as [Heq | (i & Hi & Heq)]; [lia |].
  specialize (Hle i Hi). lia.
Qed.

(** When the drum test of lines 143-147 returns, it returns what the spec's
    words say. *)
Lemma detect_drums_percussion (data track_info : json) (b : bool) :
  detect_drums data track_info = Ok b -> b = percussion_mode data track_info.
Proof.
  unfold detect_drums, percussion_mode. intros H. bind_inv H as d1 E1.
  assert (Hd : d1 = mentions_drum (field track_info "instrument")).
  { destruct (truthy track_info) eqn:T.
    - bind_inv E1 as i Ei. bind_inv E1 as s Es. injection E1 as <-.
      destruct track_info; try discriminate. simpl in *.
      destruct (lookup "instrument" items) as [v |]; injection Ei as <-.
      + destruct v; try discriminate. simpl in *. injection Es as <-.
        reflexivity.
      + simpl in *. injection Es as <-. reflexivity.
    - injection E1 as <-.
      destruct track_info; simpl in *; try reflexivity.
      destruct items; [reflexivity | discriminate]. }
  subst d1. destruct (mentions_drum (field track_info "instrument")); simpl in *.
  - injection H as <-. reflexivity.
  - bind_inv H as i Ei. destruct data; try discriminate. simpl in *.
    destruct (lookup "instrument" items) as [v |]; injection Ei as <-.
    + destruct (truthy v) eqn:T.
      * simpl in H. destruct v; try discriminate. simpl in H.
        injection H as <-. reflexivity.
      * injection H as <-. destruct v; try reflexivity. simpl in *.
        destruct s; [reflexivity | discriminate].
    + simpl in H. injection H as <-. reflexivity.
Qed.

(** ** Rhythm stems *)

Lemma Qle_bool_num (a b : Z) : Qle_bool (num a) (num b) = (a <=? b)%Z.
Proof.
  unfold Qle_bool, num, inject_Z. simpl. rewrite !Z.mul_1_r. reflexivity.
Qed.

Lemma Qeq_bool_num (a b : Z) : Qeq_bool (num a) (num b) = (a =? b)%Z.
Proof.
  unfold Qeq_bool, num, inject_Z. simpl. rewrite !Z.mul_1_r. reflexivity.
Qed.

Lemma draw_note_sounding (n : Z) (y note_x : Q) (note : json) (h : bool)
  (ops : list op) :
  draw_note n y note_x note = Ok (h, ops) -> h = sounding note.
Proof.
  unfold draw_note, sounding. intros H. bind_inv H as rest Er.
  destruct (truthy rest) eqn:T.
  - injection H as <- _. destruct note; try discriminate. simpl.
    destruct (lookup "fret" items); reflexivity.
  - bind_inv H as fret Ef. bind_inv H as s Es. simpl.
    destruct fret; try (bind_inv H as i Ei;
      destruct (i <? n)%Z; injection H as <- _; reflexivity).
    injection H as <- _. reflexivity.
Qed.

Lemma draw_notes_sounding (n : Z) (y note_x : Q) (notes : list json)
  (h : bool) (ops : list op) :
  draw_notes n y note_x notes = Ok (h, ops) -> h = existsb sounding notes.
Proof.
  revert h ops. induction notes as [| note r IH]; intros h ops H; simpl in *.
  - injection H as <- _. reflexivity.
  - bind_inv H as p1 E1. destruct p1 as [h1 o1]. bind_inv H as p2 E2.
    destruct p2 as [h2 o2]. injection H as <- _.
    rewrite (draw_note_sounding _ _ _ _ _ _ E1), (IH _ _ eq_refl). reflexivity.
Qed.

(** The stem of lines 85-89 and the flags of lines 91-101, for an integer
    duration class. *)
Lemma rhythm_stem_flags (x y : Q) (z : Z) :
  exists flags,
    _draw_rhythm_stem x y (JInt z)
    = Ok ([SetLineWidth 0.8; Line x (y - 3 * mm) x (y - 3 * mm - 4 * mm)]
            ++ flags)
    /\ Forall (diagonal x) flags
    /\ ascending flags
    /\ ((z < 8)%Z -> List.length flags = 0%nat)
    /\ (z = 8%Z -> List.length flags = 1%nat)
    /\ (z = 16%Z -> List.length flags = 2%nat)
    /\ ((32 <= z)%Z -> List.length flags = 3%nat).
Proof.
  unfold _draw_rhythm_stem, py_ge_int, py_eq. simpl.
  rewrite !Qle_bool_num, !Qeq_bool_num.
  destruct (8 <=? z)%Z eqn:H8.
  2:{ exists []. apply Z.leb_gt in H8. simpl.
      repeat split; try constructor; intros; try reflexivity; lia. }
  apply Z.leb_le in H8. simpl.
  destruct (z =? 8)%Z eqn:E8.
  { apply Z.eqb_eq in E8. eexists. split; [reflexivity |].
    split; [| split; [| repeat split; intros; try reflexivity; lia]].
    - repeat constructor; try reflexivity.
    - simpl. exact I. }
  apply Z.eqb_neq in E8.
  destruct (z =? 16)%Z eqn:E16.
  { apply Z.eqb_eq in E16. eexists. split; [reflexivity |].
    split; [| split; [| repeat split; intros; try reflexivity; lia]].
    - repeat constructor; simpl; try reflexivity; unfold mm; ring.
    - simpl. split; [| exact I]. rewrite <- (Qplus_0_r (y - 3 * mm - 4 * mm)) at 1.
      apply Qplus_lt_r. reflexivity. }
  apply Z.eqb_neq in E16. simpl.
  destruct (32 <=? z)%Z eqn:H32.
  { apply Z.leb_le in H32. eexists. split; [reflexivity |].
    split; [| split; [| repeat split; intros; try reflexivity; lia]].
    - repeat constructor; simpl; try reflexivity; unfold mm; ring.
    - simpl. split; [| split; [| exact I]].
      + rewrite <- (Qplus_0_r (y - 3 * mm - 4 * mm)) at 1.
        apply Qplus_lt_r. reflexivity.
      + apply Qplus_lt_r. reflexivity. }
  apply Z.leb_gt in H32. exists []. simpl.
  repeat split; try constructor; intros; try reflexivity; lia.
Qed.

Lemma rhythm_stem_nonempty (x y : Q) (t : json) (s : list op) :
  _draw_rhythm_stem x y t = Ok s -> s <> [].
Proof.
  unfold _draw_rhythm_stem. intros H. bind_inv H as ge8 E8.
  destruct ge8; [| injection H as <-; discriminate].
  destruct (py_eq t (JInt 8)); [injection H as <-; discriminate |].
  destruct (py_eq t (JInt 16)); [injection H as <-; discriminate |].
  bind_inv H as ge32 E32.
  destruct ge32; injection H as <-; discriminate.
Qed.

(** C7, as the code has it: the stem of a beat is drawn exactly when the
    beat has a note that is not a rest and has a fret value, whether or not
    that note is drawn; it hangs 3 mm below the lowest string line, and for
    an integer duration class it has no flag below 8, one at 8, two at 16
    and three from 32 on, each a stroke rising 1.5 mm over 2 mm that starts
    above the one before. *)
Theorem stem_iff_sounding_note (n : Z) (y total beat_x w : Q)
  (beat notes : json) (l : list json) (ops stem : list op) :
  get beat "notes" (JList []) = Ok notes ->
  py_iter notes = Ok l ->
  draw_beat n y total beat_x beat = Ok (ops, stem, w) ->
  (stem <> [] <-> exists note, In note l /\ sounding note = true)
  /\ forall z : Z,
       get beat "type" (JInt 4) = Ok (JInt z) ->
       stem <> [] ->
       let note_x := beat_x + w * 0.3 in
       let low := y - (num n - 1) * string_spacing in
       exists flags,
         stem = [SetLineWidth 0.8;
                 Line note_x (low - 3 * mm) note_x (low - 3 * mm - 4 * mm)]
                  ++ flags
         /\ Forall (diagonal note_x) flags
         /\ ascending flags
         /\ ((z < 8)%Z -> List.length flags = 0%nat)
         /\ (z = 8%Z -> List.length flags = 1%nat)
         /\ (z = 16%Z -> List.length flags = 2%nat)
         /\ ((32 <= z)%Z -> List.length flags = 3%nat).
Proof.
  intros Hnotes Hiter H. unfold draw_beat in H.
  bind_inv H as w' Ew. rewrite Hnotes in H. cbn [bind] in H.
  rewrite Hiter in H. cbn [bind] in H.
  bind_inv H as p Ep. destruct p as [has o].
  apply draw_notes_sounding in Ep.
  destruct has.
  - destruct (get beat "type" (JInt 4)) as [t |] eqn:Et; cbn [bind] in H;
      [| discriminate H].
    bind_inv H as s Es. injection H as _ <- <-.
    split.
    + split.
      * intros _. symmetry in Ep. apply existsb_exists in Ep. exact Ep.
      * intros _. apply (rhythm_stem_nonempty _ _ _ _ Es).
    + intros z Hz _. injection Hz as ->.
      destruct (rhythm_stem_flags (beat_x + w' * 0.3)
                  (y - (num n - 1) * string_spacing) z)
        as (flags & Heq & Hrest).
      exists flags. split; [| exact Hrest].
      rewrite Es in Heq. injection Heq as ->. reflexivity.
  - cbn [bind] in H. injection H as _ <- _. split.
    + split; [intros Hne; contradiction |].
      intros Hex. apply existsb_exists in Hex. rewrite <- Ep in Hex.
      discriminate.
    + intros z _ Hne. contradiction.
Qed.

Lemma stem_iff_sounding_note_witness :
  let note := JObj [("string", JInt 7); ("fret", JInt 3)]%Z in
  let beat :=
    JObj [("duration", JList [JInt 1; JInt 4]); ("type", JInt 16);
          ("notes", JList [note])]%Z in
  exists ops stem w,
    draw_beat 6 0 1 0 beat = Ok (ops, stem, w)
    /\ (stem <> [] <-> exists n, In n [note] /\ sounding n = true)
    /\ forall z : Z,
         get beat "type" (JInt 4) = Ok (JInt z) ->
         stem <> [] ->
         let note_x := 0 + w * 0.3 in
         let low := 0 - (num 6 - 1) * string_spacing in
         exists flags,
           stem = [SetLineWidth 0.8;
                   Line note_x (low - 3 * mm) note_x (low - 3 * mm - 4 * mm)]
                    ++ flags
           /\ Forall (diagonal note_x) flags
           /\ ascending flags
           /\ ((z < 8)%Z -> List.length flags = 0%nat)
           /\ (z = 8%Z -> List.length flags = 1%nat)
           /\ (z = 16%Z -> List.length flags = 2%nat)
           /\ ((32 <= z)%Z -> List.length flags = 3%nat).
Proof.
  intros note beat. eexists. eexists. eexists.
  split; [vm_compute; reflexivity |].
  apply (stem_iff_sounding_note 6 0 1 0 _ beat (JList [note]) [note] []).
  - reflexivity.
  - reflexivity.
  - vm_compute. reflexivity.
Defined.

(** C7 as stated fails: with six strings, a beat whose only note is on
    string index 7 gets no note drawn, and its stem is drawn. *)
Lemma stem_without_drawn_note :
  exists head at_ d stem,
    render high_string_document JNull high_string_measures
    = Ok (head, [mkRendered at_ d])
    /\ content d = [([], stem)]
    /\ stem <> [].
Proof.
  eexists. eexists. eexists. eexists.
  split; [vm_compute; reflexivity |].
  split; [reflexivity | discriminate].
Qed.

(** ** Failures while drawing *)

Lemma draw_note_malformed (n : Z) (y note_x : Q) (note : json) :
  malformed_string note -> exists x, draw_note n y note_x note = Raise x.
Proof.
  intros (Hs & s & x & Hget & Hint). exists x.
  unfold sounding in Hs. unfold draw_note.
  destruct (get note "rest" JNull) as [rest |]; [| discriminate].
  destruct (get note "fret" JNull) as [fret |]; [| discriminate].
  apply andb_prop in Hs as [Hr Hf]. apply negb_true_iff in Hr.
  cbn [bind]. rewrite Hr, Hget. cbn [bind].
  destruct fret; try discriminate; rewrite Hint; reflexivity.
Qed.

Lemma draw_notes_raise (n : Z) (y note_x : Q) (notes : list json)
  (note : json) :
  In note notes ->
  (exists x, draw_note n y note_x note = Raise x) ->
  exists x, draw_notes n y note_x notes = Raise x.
Proof.
  intros Hin (x & Hx). induction notes as [| a r IH]; [destruct Hin |].
  simpl. destruct Hin as [-> | Hin].
  - exists x. rewrite Hx. reflexivity.
  - destruct (draw_note n y note_x a) as [[h o] | x']; cbn [bind].
    + destruct (IH Hin) as (x' & ->). exists x'. reflexivity.
    + exists x'. reflexivity.
Qed.

Lemma draw_beat_raise (n : Z) (y total beat_x : Q) (beat : json)
  (notes : list json) (note : json) :
  beat_notes beat = Ok notes -> In note notes -> malformed_string note ->
  exists x, draw_beat n y total beat_x beat = Raise x.
Proof.
  unfold beat_notes, draw_beat. intros Hn Hin Hbad.
  destruct (beat_width total beat) as [w | x]; cbn [bind];
    [| exists x; reflexivity].
  bind_inv Hn as v Ev. rewrite Hn. cbn [bind].
  destruct (draw_notes_raise n y (beat_x + w * 0.3) notes note Hin
              (draw_note_malformed _ _ _ _ Hbad)) as (x & ->).
  exists x. reflexivity.
Qed.

Lemma draw_beats_raise (n : Z) (y total : Q) (beats : list json)
  (beat : json) :
  In beat beats ->
  (forall beat_x, exists x, draw_beat n y total beat_x beat = Raise x) ->
  forall beat_x, exists x, draw_beats n y total beat_x beats = Raise x.
Proof.
  intros Hin Hbad. induction beats as [| b r IH]; [destruct Hin |].
  intros beat_x. simpl. destruct Hin as [-> | Hin].
  - destruct (Hbad beat_x) as (x & ->). exists x. reflexivity.
  - destruct (draw_beat n y total beat_x b) as [[[o s] w] | x]; cbn [bind].
    + destruct (IH Hin (beat_x + w)) as (x & ->). exists x. reflexivity.
    + exists x. reflexivity.
Qed.

Lemma py_iter_truthy (v : json) (l : list json) (a : json) :
  py_iter v = Ok l -> In a l -> truthy v = true.
Proof.
  destruct v; simpl; try discriminate; intros H Hin; injection H as <-.
  - destruct s; [destruct Hin | reflexivity].
  - destruct l0; [destruct Hin | reflexivity].
  - destruct items; [destruct Hin | reflexivity].
Qed.

Lemma py_index_truthy (v a : json) : py_index v 0 = Ok a -> truthy v = true.
Proof.
  destruct v; simpl; try discriminate.
  - destruct s; [discriminate | reflexivity].
  - destruct l; [discriminate | reflexivity].
Qed.

(** A malformed string index on a sounding note makes the content of its
    measure raise. *)
Lemma malformed_note_raises (measure : json) :
  has_malformed_note measure -> content_raises measure.
Proof.
  intros (beats & beat & notes & note & Hb & Hin & Hn & Hin' & Hbad) n st.
  unfold first_voice_beats in Hb. unfold draw_content.
  bind_inv Hb as voices Ev. bind_inv Hb as voice Ei. bind_inv Hb as bs Eb.
  rewrite (py_index_truthy _ _ Ei), (py_iter_truthy _ _ _ Hb Hin), Hb.
  cbn [bind].
  destruct (total_duration beats) as [total | x]; cbn [bind];
    [| exists x; reflexivity].
  apply (draw_beats_raise n (current_y st) total beats beat Hin).
  intros beat_x. apply (draw_beat_raise _ _ _ _ _ notes note Hn Hin' Hbad).
Qed.

Lemma render_measure_raise (e : env) (st : state) (idx : nat)
  (measure : json) :
  content_raises measure ->
  exists x, render_measure e st idx measure = Raise x.
Proof.
  intros Hbad. unfold render_measure.
  destruct (next_line (line_height e) st) as [st1 brk].
  destruct (carry_signature _ _) as [sig | x]; cbn [bind];
    [| exists x; reflexivity].
  destruct (line_start _ _ _) as [[[[a b] c] d] | x]; cbn [bind];
    [| exists x; reflexivity].
  destruct (as_int _) as [n | x]; cbn [bind]; [| exists x; reflexivity].
  match goal with
  | |- context [draw_content n ?s measure] =>
      destruct (Hbad n s) as (x & ->)
  end.
  exists x. reflexivity.
Qed.

Lemma render_from_raise (e : env) (measures : list json) (measure : json) :
  In measure measures -> content_raises measure ->
  forall st idx, exists x, render_from e st idx measures = Raise x.
Proof.
  intros Hin Hbad. induction measures as [| m r IH]; [destruct Hin |].
  intros st idx. simpl. destruct Hin as [-> | Hin].
  - destruct (render_measure_raise e st idx measure Hbad) as (x & ->).
    exists x. reflexivity.
  - destruct (render_measure e st idx m) as [[d st'] | x]; cbn [bind].
    + destruct (IH Hin st' (S idx)) as (x & ->). exists x. reflexivity.
    + exists x. reflexivity.
Qed.

(** A measure that is not a rest is at or after the first content
    measure. *)
Lemma first_content_keeps (measures : list json) (i s : nat) (measure : json) :
  first_content i measures = Ok s -> In measure measures -> not_rest measure ->
  (i <= s)%nat /\ In measure (skipn (s - i) measures).
Proof.
  revert i. induction measures as [| m r IH]; intros i H Hin Hnr;
    [destruct Hin |].
  simpl in H. bind_inv H as rest Er.
  destruct (truthy rest) eqn:T; simpl in H.
  - destruct Hin as [-> | Hin].
    + destruct Hnr as (r' & Hr' & Hf). rewrite Er in Hr'.
      injection Hr' as <-. rewrite T in Hf. discriminate.
    + destruct (IH (S i) H Hin Hnr) as [Hle Hin'].
      split; [lia |].
      replace (s - i)%nat with (S (s - S i)) by lia. exact Hin'.
  - injection H as <-. split; [lia |].
    replace (i - i)%nat with 0%nat by lia. exact Hin.
Qed.

Lemma prepare_start (data track_info measures : json) (e : env)
  (head : list op) :
  prepare data track_info measures = Ok (e, head) ->
  _find_first_content_measure measures = Ok (start_measure e).
Proof.
  unfold prepare. intros H.
  bind_inv H as a1 E1. bind_inv H as a2 E2. bind_inv H as a3 E3.
  bind_inv H as a4 E4. bind_inv H as a5 E5. bind_inv H as a6 E6.
  bind_inv H as a7 E7. bind_inv H as a8 E8. bind_inv H as a9 E9.
  destruct (as_number a6); [| discriminate].
  injection H as <- _. reflexivity.
Qed.

(** C2, as the code has it: nothing in [convert] catches an exception.  A
    malformed string index on a note that is not a rest and has a fret
    value, or any other failure while the content of a measure is drawn,
    in a measure that is not marked as a rest, makes [convert] raise: the
    canvas is not saved and no measure of the document is rendered. *)
Theorem failure_aborts_render (data track_info : json) (measures : list json)
  (measure : json) :
  get data "measures" (JList []) = Ok (JList measures) ->
  In measure measures ->
  not_rest measure ->
  has_malformed_note measure \/ content_raises measure ->
  exists x, convert data track_info = Raise x.
Proof.
  intros Hget Hin Hnr Hbad.
  assert (Hraise : content_raises measure).
  { destruct Hbad as [Hbad | Hbad];
      [apply malformed_note_raises, Hbad | exact Hbad]. }
  unfold convert. rewrite Hget. cbn [bind].
  destruct measures as [| m0 r]; [destruct Hin |].
  cbn [truthy negb]. unfold render.
  destruct (prepare data track_info (JList (m0 :: r))) as [[e head] | x] eqn:Ep;
    cbn [bind]; [| exists x; reflexivity].
  apply prepare_start in Ep. unfold _find_first_content_measure in Ep.
  cbn [py_iter bind] in *.
  destruct (first_content_keeps _ _ _ _ Ep Hin Hnr) as [_ Hin'].
  rewrite Nat.sub_0_r in Hin'.
  destruct (render_from_raise e _ measure Hin' Hraise initial_state
              (start_measure e)) as (x & ->).
  exists x. reflexivity.
Qed.

Lemma failure_aborts_render_witness :
  exists x, convert bad_string_document JNull = Raise x.
Proof.
  apply (failure_aborts_render bad_string_document JNull
           [JObj [("voices", JList [JObj [("beats", JList
              [JObj [("duration", JList [JInt 1; JInt 4]); ("type", JInt 4);
                     ("notes", JList [JObj [("string", JStr "abc");
                                            ("fret", JInt 3)]])]])]])];
            JObj [("voices", JList [JObj [("beats", JList
              [JObj [("duration", JList [JInt 1; JInt 4]); ("type", JInt 4);
                     ("notes", JList [JObj [("string", JInt 0);
                                            ("fret", JInt 3)]])]])]])]]%Z
           (JObj [("voices", JList [JObj [("beats", JList
              [JObj [("duration", JList [JInt 1; JInt 4]); ("type", JInt 4);
                     ("notes", JList [JObj [("string", JStr "abc");
                                            ("fret", JInt 3)]])]])]])])%Z).
  - reflexivity.
  - left. reflexivity.
  - exists (JBool false). split; reflexivity.
  - left. eexists. eexists. eexists. eexists.
    split; [reflexivity |]. split; [left; reflexivity |].
    split; [reflexivity |]. split; [left; reflexivity |].
    split; [reflexivity |]. eexists. eexists.
    split; [reflexivity |]. vm_compute. reflexivity.
Defined.

(** C2 as stated fails: a string index "abc" on the only note of the first
    measure makes [convert] raise [ValueError]; the second measure, which is
    well formed, is not rendered and nothing is saved. *)
Lemma malformed_string_aborts_convert :
  convert bad_string_document JNull = Raise ValueError.
Proof. vm_compute. reflexivity. Qed.

(** ** One turn of the loop *)

Lemma next_line_keeps (lh : Q) (st : state) :
  current_signature (fst (next_line lh st)) = current_signature st
  /\ last_shown_tempo (fst (next_line lh st)) = last_shown_tempo st.
Proof.
  unfold next_line. destruct (measure_count st >=? measures_per_line)%Z;
    [destruct (Qltb _ _) |]; split; reflexivity.
Qed.

(** What a successful turn computed, block by block. *)
Lemma render_measure_inv (e : env) (st : state) (idx : nat) (measure : json)
  (r : rendered) (st' : state) :
  render_measure e st idx measure = Ok (r, st') ->
  let st1 := fst (next_line (line_height e) st) in
  exists sig strings time mark shown n beats,
    carry_signature measure (current_signature st) = Ok sig
    /\ at_state r = mkState (current_x st1) (current_y st1) (measure_count st1)
                            sig (last_shown_tempo st) (is_first_line st1)
    /\ line_start e (at_state r) idx = Ok (strings, time, mark, shown)
    /\ as_int (num_strings e) = Ok n
    /\ draw_content n (at_state r) measure = Ok beats
    /\ drawn r = mkDrawing (snd (next_line (line_height e) st)) strings time
                           mark (draw_frame n (at_state r) idx) beats
    /\ st' = mkState (current_x st1 + measure_width) (current_y st1)
                     (measure_count st1 + 1) sig shown (is_first_line st1).
Proof.
  unfold render_measure. intros H.
  destruct (next_line_keeps (line_height e) st) as [Hs Ht].
  destruct (next_line (line_height e) st) as [st1 brk]. simpl in *.
  rewrite Hs, Ht in H.
  bind_inv H as sig Es.
  bind_inv H as p Ep. destruct p as [[[strings time] mark] shown].
  bind_inv H as n En. bind_inv H as beats Eb.
  injection H as <- <-.
  exists sig, strings, time, mark, shown, n, beats. simpl.
  repeat split; assumption.
Qed.

Lemma line_start_inv (e : env) (st : state) (idx : nat)
  (strings time mark : list op) (shown : json) :
  line_start e st idx = Ok (strings, time, mark, shown) ->
  (measure_count st = 0%Z
   /\ draw_signature e st idx = Ok time
   /\ draw_tempo e st idx = Ok (mark, shown))
  \/ (measure_count st <> 0%Z
      /\ strings = [] /\ time = [] /\ mark = []
      /\ shown = last_shown_tempo st).
Proof.
  unfold line_start. intros H.
  destruct (measure_count st =? 0)%Z eqn:E0.
  - left. apply Z.eqb_eq in E0. bind_inv H as l El. bind_inv H as s Esg.
    bind_inv H as p Et. destruct p as [m sh]. injection H as _ <- <- <-.
    repeat split; assumption || reflexivity.
  - right. apply Z.eqb_neq in E0. injection H as <- <- <- <-.
    repeat split; assumption || reflexivity.
Qed.

(** ** Tempo markings *)

Lemma last_cons_default {A : Type} (a d : A) (l : list A) :
  last (a :: l) d = last l a.
Proof.
  revert a d. induction l as [| x l IH]; intros a d; [reflexivity |].
  change (last (a :: x :: l) d) with (last (x :: l) d).
  rewrite (IH x d), (IH x a). reflexivity.
Qed.

Lemma tempo_loop_sorted (bps : list (Z * json)) (idx : Z) (current : json) :
  StronglySorted Z.le (map fst bps) ->
  tempo_loop current (map tempo_change bps) idx
  = Ok (last (map snd (filter (fun bp => (fst bp <=? idx)%Z) bps)) current).
Proof.
  revert current. induction bps as [| [m b] r IH]; intros current Hs;
    [reflexivity |].
  simpl in Hs. apply StronglySorted_inv in Hs as [Hr Hall].
  simpl. unfold py_le_int. simpl. rewrite Qle_bool_num.
  destruct (m <=? idx)%Z eqn:Hle.
  - rewrite (IH b Hr). cbn [map snd]. rewrite last_cons_default. reflexivity.
  - apply Z.leb_gt in Hle.
    replace (filter (fun bp => (fst bp <=? idx)%Z) r) with (@nil (Z * json));
      [reflexivity |].
    symmetry. clear IH Hr. induction r as [| [m' b'] r IH]; [reflexivity |].
    simpl in *. apply Forall_cons_iff in Hall as [Hm Hall].
    assert (Hgt : (m' <=? idx)%Z = false) by (apply Z.leb_gt; lia).
    rewrite Hgt. apply IH, Hall.
Qed.

(** C3, as the code has it: with the breakpoints ordered by measure index,
    the tempo in effect at a measure is the bpm of the last breakpoint at or
    before it; the marking is drawn exactly when the measure is the first of
    its line and that tempo differs from the one shown last, at the left end
    of the measure, 4 mm above its top line.  A change that falls inside a
    line is not drawn at that measure. *)
Theorem tempo_marking_at_line_start (e : env) (bps : list (Z * json))
  (st : state) (idx : nat) (measure : json) (r : rendered) (st' : state) :
  get (automations e) "tempo" (JList []) = Ok (JList (map tempo_change bps)) ->
  StronglySorted Z.le (map fst bps) ->
  render_measure e st idx measure = Ok (r, st') ->
  let t := active_tempo bps (Z.of_nat idx) in
  _get_tempo_at_measure (automations e) (Z.of_nat idx) = Ok t
  /\ (tempo (drawn r) <> []
      <-> measure_count (at_state r) = 0%Z
          /\ py_eq t (last_shown_tempo st) = false)
  /\ (tempo (drawn r) <> [] ->
      tempo (drawn r)
      = _draw_tempo_marking (current_x (at_state r)) (current_y (at_state r)) t
      /\ last_shown_tempo st' = t)
  /\ (tempo (drawn r) = [] -> last_shown_tempo st' = last_shown_tempo st).
Proof.
  intros Hget Hsorted Hrun t.
  assert (Ht : _get_tempo_at_measure (automations e) (Z.of_nat idx) = Ok t).
  { unfold _get_tempo_at_measure. rewrite Hget. cbn [bind py_iter].
    apply tempo_loop_sorted, Hsorted. }
  split; [exact Ht |].
  destruct (render_measure_inv _ _ _ _ _ _ Hrun)
    as (sig & strings & time & mark & shown & n & beats
        & _ & Hat & Hstart & _ & _ & Hdrawn & Hst').
  rewrite Hdrawn, Hst'. cbn [tempo last_shown_tempo].
  assert (Hlast : last_shown_tempo (at_state r) = last_shown_tempo st)
    by (rewrite Hat; reflexivity).
  apply line_start_inv in Hstart
    as [(H0 & _ & Htempo) | (Hn0 & _ & _ & -> & ->)].
  - unfold draw_tempo in Htempo. rewrite Ht in Htempo. cbn [bind] in Htempo.
    rewrite Hlast in Htempo.
    destruct (py_eq t (last_shown_tempo st)); cbn [negb] in Htempo;
      injection Htempo as <- <-.
    + split; [split; [intros H; contradiction | intros [_ H]; discriminate] |].
      split; [intros H; contradiction | intros _; reflexivity].
    + split; [split; [intros _; split; [exact H0 | reflexivity]
                     | intros _; discriminate] |].
      split; [intros _; split; reflexivity | intros H; discriminate].
  - rewrite Hlast.
    split; [split; [intros H; contradiction | intros [H _]; contradiction] |].
    split; [intros H; contradiction | intros _; reflexivity].
Qed.

Lemma tempo_marking_at_line_start_witness :
  let e := mkEnv mid_line_tempo JNull false (JInt 6) 6 0 in
  let t := active_tempo [(0, JInt 120); (2, JInt 140)]%Z (Z.of_nat 0) in
  exists r st',
    render_measure e initial_state 0 quarter_measure = Ok (r, st')
    /\ _get_tempo_at_measure (automations e) (Z.of_nat 0) = Ok t
    /\ (tempo (drawn r) <> []
        <-> measure_count (at_state r) = 0%Z
            /\ py_eq t (last_shown_tempo initial_state) = false)
    /\ (tempo (drawn r) <> [] ->
        tempo (drawn r)
        = _draw_tempo_marking (current_x (at_state r)) (current_y (at_state r)) t
        /\ last_shown_tempo st' = t)
    /\ (tempo (drawn r) = [] ->
        last_shown_tempo st' = last_shown_tempo initial_state).
Proof.
  intros e t. eexists. eexists.
  split; [vm_compute; reflexivity |].
  apply (tempo_marking_at_line_start e [(0, JInt 120); (2, JInt 140)]%Z
           initial_state 0%nat quarter_measure).
  - reflexivity.
  - simpl. repeat constructor. lia.
  - vm_compute. reflexivity.
Defined.

(** C3 as stated fails: the tempo changes to 140 at the third measure, which
    is inside the first line; 120 was shown last, and no marking is drawn at
    that measure. *)
Lemma tempo_change_mid_line_not_drawn :
  exists head r0 r1 r2,
    render mid_line_document JNull mid_line_measures = Ok (head, [r0; r1; r2])
    /\ _get_tempo_at_measure mid_line_tempo 2 = Ok (JInt 140)
    /\ last_shown_tempo (at_state r2) = JInt 120
    /\ tempo (drawn r2) = [].
Proof.
  eexists. eexists. eexists. eexists.
  split; [vm_compute; reflexivity |].
  split; [reflexivity |]. split; reflexivity.
Qed.

(** ** Time signatures *)

Lemma draw_time_signature_inv (x y : Q) (sig : json) (ns : Q)
  (ops : list op) :
  _draw_time_signature x y sig ns = Ok ops ->
  (truthy sig = false /\ ops = [])
  \/ (truthy sig = true
      /\ exists top bottom,
           py_iter sig = Ok [top; bottom]
           /\ ops = [SetFont "Helvetica-Bold" 10;
                     DrawCentredString x
                       (y - (ns - 1) * string_spacing / 2 + 2 * mm) [Str top];
                     DrawCentredString x
                       (y - (ns - 1) * string_spacing / 2 - 4 * mm)
                       [Str bottom]]).
Proof.
  unfold _draw_time_signature. intros H.
  destruct (truthy sig); cbn [negb] in H.
  - right. split; [reflexivity |]. bind_inv H as items Ei.
    destruct items as [| top [| bottom [| ? ?]]]; try discriminate.
    injection H as <-. exists top, bottom. split; reflexivity.
  - left. injection H as <-. split; reflexivity.
Qed.

(** C4, as the code has it: the time signature is drawn exactly at a
    measure that is the first of its line, where a signature is in effect,
    on a line that is the first of its page (or at the first measure
    rendered); it is drawn once, left of the line.  A line is the first of
    its page when the turn that starts it starts a page, and is not when the
    turn starts a line without starting a page. *)
Theorem time_signature_on_first_line (e : env) (st : state) (idx : nat)
  (measure : json) (r : rendered) (st' : state) :
  render_measure e st idx measure = Ok (r, st') ->
  (signature (drawn r) <> []
   <-> measure_count (at_state r) = 0%Z
       /\ truthy (current_signature (at_state r)) = true
       /\ (is_first_line (at_state r) = true \/ idx = start_measure e))
  /\ (signature (drawn r) <> [] ->
      exists top bottom y1 y2,
        py_iter (current_signature (at_state r)) = Ok [top; bottom]
        /\ signature (drawn r)
           = [SetFont "Helvetica-Bold" 10;
              DrawCentredString (tab_x_start - 10 * mm) y1 [Str top];
              DrawCentredString (tab_x_start - 10 * mm) y2 [Str bottom]])
  /\ (page_break (drawn r) <> [] -> is_first_line (at_state r) = true)
  /\ ((measures_per_line <= measure_count st)%Z ->
      page_break (drawn r) = [] -> is_first_line (at_state r) = false)
  /\ ((measure_count st < measures_per_line)%Z ->
      is_first_line (at_state r) = is_first_line st).
Proof.
  intros Hrun.
  destruct (render_measure_inv _ _ _ _ _ _ Hrun)
    as (sig & strings & time & mark & shown & n & beats
        & _ & Hat & Hstart & _ & _ & Hdrawn & _).
  rewrite Hdrawn. cbn [signature page_break].
  assert (Hsig : (time <> []
                  <-> measure_count (at_state r) = 0%Z
                      /\ truthy (current_signature (at_state r)) = true
                      /\ (is_first_line (at_state r) = true
                          \/ idx = start_measure e))
                 /\ (time <> [] ->
                     exists top bottom y1 y2,
                       py_iter (current_signature (at_state r))
                       = Ok [top; bottom]
                       /\ time
                          = [SetFont "Helvetica-Bold" 10;
                             DrawCentredString (tab_x_start - 10 * mm) y1
                               [Str top];
                             DrawCentredString (tab_x_start - 10 * mm) y2
                               [Str bottom]])).
  { apply line_start_inv in Hstart
      as [(H0 & Hs & _) | (Hn0 & _ & -> & _)].
    - unfold draw_signature in Hs.
      destruct (truthy (current_signature (at_state r))) eqn:T;
        cbn [andb] in Hs.
      + destruct (is_first_line (at_state r)) eqn:F; cbn [orb] in Hs.
        * apply draw_time_signature_inv in Hs
            as [[Hf _] | (_ & top & bottom & Hi & ->)];
            [rewrite T in Hf; discriminate |].
          split.
          -- split; [intros _; repeat split; [exact H0 | left; reflexivity]
                    | intros _; discriminate].
          -- intros _. exists top, bottom. eexists. eexists.
             split; [exact Hi | reflexivity].
        * destruct (idx =? start_measure e)%nat eqn:Ei.
          -- apply Nat.eqb_eq in Ei.
             apply draw_time_signature_inv in Hs
               as [[Hf _] | (_ & top & bottom & Hi & ->)];
               [rewrite T in Hf; discriminate |].
             split.
             ++ split; [intros _; repeat split; [exact H0 | right; exact Ei]
                       | intros _; discriminate].
             ++ intros _. exists top, bottom. eexists. eexists.
                split; [exact Hi | reflexivity].
          -- apply Nat.eqb_neq in Ei. injection Hs as <-. split.
             ++ split; [intros H; contradiction |].
                intros (_ & _ & [H | H]); [discriminate | contradiction].
             ++ intros H; contradiction.
      + injection Hs as <-. split.
        * split; [intros H; contradiction | intros (_ & H & _); discriminate].
        * intros H; contradiction.
    - split.
      + split; [intros H; contradiction | intros (H & _); contradiction].
      + intros H; contradiction. }
  destruct Hsig as [Hiff Hshape].
  split; [exact Hiff |]. split; [exact Hshape |].
  rewrite Hat. cbn [is_first_line]. unfold next_line.
  destruct (measure_count st >=? measures_per_line)%Z eqn:E4.
  - apply Z.geb_le in E4.
    destruct (Qltb (current_y st - line_height e) (margin + line_height e));
      cbn [fst snd is_first_line].
    + split; [reflexivity |]. split; [intros _ H; discriminate | intros; lia].
    + split; [intros H; contradiction |].
      split; [reflexivity | intros; lia].
  - cbn [fst snd]. split; [intros H; contradiction |].
    split; [| reflexivity].
    intros Hle. rewrite Z.geb_leb in E4. apply Z.leb_gt in E4. lia.
Qed.

Lemma time_signature_on_first_line_witness :
  let e := mkEnv (JObj []) JNull false (JInt 6) 6 0 in
  exists r st',
    render_measure e initial_state 0 signed_measure = Ok (r, st')
    /\ (signature (drawn r) <> []
        <-> measure_count (at_state r) = 0%Z
            /\ truthy (current_signature (at_state r)) = true
            /\ (is_first_line (at_state r) = true \/ 0%nat = start_measure e))
    /\ (signature (drawn r) <> [] ->
        exists top bottom y1 y2,
          py_iter (current_signature (at_state r)) = Ok [top; bottom]
          /\ signature (drawn r)
             = [SetFont "Helvetica-Bold" 10;
                DrawCentredString (tab_x_start - 10 * mm) y1 [Str top];
                DrawCentredString (tab_x_start - 10 * mm) y2 [Str bottom]])
    /\ (page_break (drawn r) <> [] -> is_first_line (at_state r) = true)
    /\ ((measures_per_line <= measure_count initial_state)%Z ->
        page_break (drawn r) = [] -> is_first_line (at_state r) = false)
    /\ ((measure_count initial_state < measures_per_line)%Z ->
        is_first_line (at_state r) = is_first_line initial_state).
Proof.
  intros e. eexists. eexists.
  split; [vm_compute; reflexivity |].
  eapply (time_signature_on_first_line e initial_state 0%nat signed_measure).
  vm_compute. reflexivity.
Defined.

(** C4 as stated fails: the fifth measure starts the second line of the
    first page with the signature 4/4 in effect, and no time signature is
    drawn on that line. *)
Lemma second_line_has_no_time_signature :
  exists head r0 r1 r2 r3 r4,
    render two_line_document JNull two_line_measures
    = Ok (head, [r0; r1; r2; r3; r4])
    /\ signature (drawn r0) <> []
    /\ measure_count (at_state r4) = 0%Z
    /\ current_signature (at_state r4) = JList [JInt 4; JInt 4]
    /\ page_break (drawn r4) = []
    /\ signature (drawn r4) = [].
Proof.
  do 6 eexists.
  split; [vm_compute; reflexivity |].
  split; [discriminate |]. repeat split.
Qed.

(** ** The signature in effect *)

Lemma carry_signature_supplied (measure current : json) :
  signature_is_pair measure ->
  carry_signature measure current
  = Ok match supplied_signature measure with
       | Some v => v
       | None => current
       end.
Proof.
  intros [[items ->] Hpair]. unfold carry_signature, supplied_signature in *.
  simpl in *. destruct (lookup "signature" items) as [v |]; cbn [bind].
  - destruct v;
      try (destruct (Hpair _ eq_refl) as (x1 & x2 & H); discriminate).
    + reflexivity.
    + destruct (Hpair _ eq_refl) as (x1 & x2 & H). injection H as ->.
      reflexivity.
  - destruct (truthy current); reflexivity.
Qed.

(** Over the measures the loop walks, the signature in effect at each is
    the most recent one supplied by it or by a walked measure before it, and
    the one the loop started with when there is none. *)
Lemma signature_carried_forward (e : env) (measures : list json) :
  Forall signature_is_pair measures ->
  forall st idx walked,
    render_from e st idx measures = Ok walked ->
    map (fun r => current_signature (at_state r)) walked
    = effective_signatures (current_signature st) measures.
Proof.
  induction 1 as [| m r Hm _ IH]; intros st idx walked H; simpl in H.
  - injection H as <-. reflexivity.
  - bind_inv H as p Ep. destruct p as [d st'']. bind_inv H as rest Er.
    injection H as <-.
    destruct (render_measure_inv _ _ _ _ _ _ Ep)
      as (sig & strings & time & mark & shown & n & beats
          & Hsig & Hat & _ & _ & _ & _ & Hst').
    rewrite (carry_signature_supplied _ _ Hm) in Hsig. injection Hsig as Hsig.
    subst sig. simpl. rewrite Hat. cbn [current_signature].
    f_equal. rewrite (IH _ _ _ Er). rewrite Hst'. reflexivity.
Qed.

Example carry_forward_example :
  effective_signatures JNull carry_measures
  = [JList [JInt 4; JInt 4]; JList [JInt 4; JInt 4];
     JList [JInt 3; JInt 4]; JList [JInt 3; JInt 4]]%Z.
Proof. reflexivity. Qed.

(** C8, at the input where the code departs from it: the first measure is a
    rest and supplies the signature 4/4; the loop starts at the second
    measure (line 199), where no signature is in effect and no time
    signature is drawn, although an earlier measure supplied one. *)
Theorem leading_rest_signature_lost :
  _find_first_content_measure leading_rest_measures = Ok 1%nat
  /\ exists head r,
       render leading_rest_document JNull leading_rest_measures
       = Ok (head, [r])
       /\ current_signature (at_state r) = JNull
       /\ signature (drawn r) = []
       /\ effective_signatures JNull
            [JObj [("rest", JBool true);
                   ("signature", JList [JInt 4; JInt 4])]%Z;
             quarter_measure]
          = [JList [JInt 4; JInt 4]; JList [JInt 4; JInt 4]]%Z.
Proof.
  split; [reflexivity |]. eexists. eexists.
  split; [vm_compute; reflexivity |]. repeat split.
Qed.

(** ** Lines and pages *)

Lemma no_show_app (a b : list op) : no_show a -> no_show b -> no_show (a ++ b).
Proof. intros Ha Hb. apply Forall_app. split; assumption. Qed.

Lemma no_show_map {A : Type} (f : A -> op) (l : list A) :
  (forall a, f a <> ShowPage) -> no_show (map f l).
Proof.
  intros Hf. induction l as [| a l IH]; constructor; [apply Hf | exact IH].
Qed.

Lemma draw_labels_no_show (e : env) (y : Q) (ops : list op) :
  draw_labels e y = Ok ops -> no_show ops.
Proof.
  unfold draw_labels. intros H. destruct (is_drums e).
  - bind_inv H as n En. injection H as <-.
    apply no_show_map. intros; discriminate.
  - destruct (truthy (tuning e)).
    + bind_inv H as items Ei. bind_inv H as names En. injection H as <-.
      apply no_show_map. intros; discriminate.
    + bind_inv H as n En. injection H as <-.
      apply no_show_map. intros; discriminate.
Qed.

Lemma rhythm_stem_no_show (x y : Q) (t : json) (s : list op) :
  _draw_rhythm_stem x y t = Ok s -> no_show s.
Proof.
  unfold _draw_rhythm_stem. intros H. bind_inv H as ge8 E8.
  destruct ge8; [| injection H as <-; no_show_list].
  destruct (py_eq t (JInt 8)); [injection H as <-; no_show_list |].
  destruct (py_eq t (JInt 16)); [injection H as <-; no_show_list |].
  bind_inv H as ge32 E32.
  destruct ge32; injection H as <-; no_show_list.
Qed.

Lemma draw_note_no_show (n : Z) (y note_x : Q) (note : json) (h : bool)
  (ops : list op) :
  draw_note n y note_x note = Ok (h, ops) -> no_show ops.
Proof.
  unfold draw_note. intros H. bind_inv H as rest Er.
  destruct (truthy rest); [injection H as _ <-; constructor |].
  bind_inv H as fret Ef. bind_inv H as s Es.
  destruct fret; try (bind_inv H as i Ei;
    destruct (i <? n)%Z; injection H as _ <-; no_show_list).
  injection H as _ <-. constructor.
Qed.

Lemma draw_notes_no_show (n : Z) (y note_x : Q) (notes : list json)
  (h : bool) (ops : list op) :
  draw_notes n y note_x notes = Ok (h, ops) -> no_show ops.
Proof.
  revert h ops. induction notes as [| note r IH]; intros h ops H; simpl in H.
  - injection H as _ <-. constructor.
  - bind_inv H as p1 E1. destruct p1 as [h1 o1]. bind_inv H as p2 E2.
    destruct p2 as [h2 o2]. injection H as _ <-.
    apply no_show_app; [apply (draw_note_no_show _ _ _ _ _ _ E1) |].
    apply (IH _ _ eq_refl).
Qed.

Lemma draw_beat_no_show (n : Z) (y total beat_x w : Q) (beat : json)
  (ops stem : list op) :
  draw_beat n y total beat_x beat = Ok (ops, stem, w) ->
  no_show (ops ++ stem).
Proof.
  unfold draw_beat. intros H. bind_inv H as w' Ew. bind_inv H as notes En.
  bind_inv H as l El. bind_inv H as p Ep. destruct p as [has o].
  apply draw_notes_no_show in Ep.
  destruct has.
  - destruct (get beat "type" (JInt 4)) as [t |]; cbn [bind] in H;
      [| discriminate H].
    bind_inv H as s Es. injection H as <- <- _.
    apply no_show_app; [exact Ep | apply (rhythm_stem_no_show _ _ _ _ Es)].
  - cbn [bind] in H. injection H as <- <- _.
    apply no_show_app; [exact Ep | constructor].
Qed.

Lemma draw_beats_no_show (n : Z) (y total : Q) (beats : list json) :
  forall beat_x drawn,
    draw_beats n y total beat_x beats = Ok drawn ->
    no_show (List.concat (map (fun b => fst b ++ snd b) drawn)).
Proof.
  induction beats as [| beat r IH]; intros beat_x drawn H; simpl in H.
  - injection H as <-. constructor.
  - bind_inv H as p Ep. destruct p as [[ops stem] w]. bind_inv H as rest Er.
    injection H as <-. simpl.
    apply no_show_app; [apply (draw_beat_no_show _ _ _ _ _ _ _ _ Ep) |].
    apply (IH _ _ Er).
Qed.

Lemma draw_content_no_show (n : Z) (st : state) (measure : json)
  (drawn : list (list op * list op)) :
  draw_content n st measure = Ok drawn ->
  no_show (List.concat (map (fun b => fst b ++ snd b) drawn)).
Proof.
  unfold draw_content. intros H. bind_inv H as voices Ev.
  destruct (truthy voices); [| injection H as <-; constructor].
  bind_inv H as voice Ei. bind_inv H as beats Eb.
  destruct (truthy beats); [| injection H as <-; constructor].
  bind_inv H as l El. bind_inv H as total Et.
  apply (draw_beats_no_show _ _ _ _ _ _ H).
Qed.

Lemma draw_frame_no_show (n : Z) (st : state) (idx : nat) :
  no_show (draw_frame n st idx) /\ draw_frame n st idx <> [].
Proof.
  unfold draw_frame. split; [| discriminate].
  apply no_show_app; [no_show_list |].
  apply no_show_app; [apply no_show_map; intros; discriminate | no_show_list].
Qed.

Lemma line_start_no_show (e : env) (st : state) (idx : nat)
  (strings time mark : list op) (shown : json) :
  line_start e st idx = Ok (strings, time, mark, shown) ->
  no_show strings /\ no_show time /\ no_show mark.
Proof.
  unfold line_start. intros H. destruct (measure_count st =? 0)%Z.
  - bind_inv H as l El. bind_inv H as s Esg. bind_inv H as p Et.
    destruct p as [m sh]. injection H as <- <- <- _.
    split; [| split].
    + constructor; [discriminate |]. constructor; [discriminate |].
      apply (draw_labels_no_show _ _ _ El).
    + unfold draw_signature in Esg.
      destruct (truthy (current_signature st)
                && (is_first_line st || (idx =? start_measure e)%nat));
        [| injection Esg as <-; constructor].
      apply draw_time_signature_inv in Esg
        as [[_ ->] | (_ & top & bottom & _ & ->)]; no_show_list.
    + unfold draw_tempo in Et. bind_inv Et as t Ett.
      destruct (negb (py_eq t (last_shown_tempo st))); injection Et as <- _;
        no_show_list.
  - injection H as <- <- <- _. repeat split; constructor.
Qed.

(** After the page break, a turn draws something and calls no [showPage]. *)
Lemma render_measure_body (e : env) (st : state) (idx : nat) (measure : json)
  (r : rendered) (st' : state) :
  render_measure e st idx measure = Ok (r, st') ->
  flatten (drawn r) = page_break (drawn r) ++ body (drawn r)
  /\ no_show (body (drawn r))
  /\ body (drawn r) <> [].
Proof.
  intros Hrun. split; [reflexivity |].
  destruct (render_measure_inv _ _ _ _ _ _ Hrun)
    as (sig & strings & time & mark & shown & n & beats
        & _ & _ & Hstart & _ & Hcontent & Hdrawn & _).
  rewrite Hdrawn. unfold body. cbn [labels signature tempo frame content].
  destruct (line_start_no_show _ _ _ _ _ _ _ Hstart) as (Hl & Hs & Ht).
  destruct (draw_frame_no_show n (at_state r) idx) as [Hf Hne].
  split.
  - apply no_show_app; [exact Hl |]. apply no_show_app; [exact Hs |].
    apply no_show_app; [exact Ht |]. apply no_show_app; [exact Hf |].
    apply (draw_content_no_show _ _ _ _ Hcontent).
  - intros H. apply app_eq_nil in H as [_ H]. apply app_eq_nil in H as [_ H].
    apply app_eq_nil in H as [_ H]. apply app_eq_nil in H as [H _].
    contradiction.
Qed.

Lemma Qltb_lt (a b : Q) : Qltb a b = true <-> a < b.
Proof.
  unfold Qltb. rewrite negb_true_iff. split.
  - intros H. apply Qnot_le_lt. intros Hle. apply Qle_bool_iff in Hle.
    rewrite Hle in H. discriminate.
  - intros H. destruct (Qle_bool b a) eqn:E; [| reflexivity].
    apply Qle_bool_iff in E. exfalso. apply (Qlt_not_le _ _ H E).
Qed.

Lemma pages_from_no_show (a rest cur : list op) :
  no_show a -> pages_from cur (a ++ rest) = pages_from (rev a ++ cur) rest.
Proof.
  intros Ha. revert cur. induction Ha as [| o a Ho _ IH]; intros cur;
    [reflexivity |].
  simpl. rewrite <- app_assoc. simpl.
  destruct o; try (apply IH). contradiction.
Qed.

Lemma pages_from_last (b cur : list op) :
  no_show b -> b <> [] -> List.length (pages_from cur b) = 1%nat.
Proof.
  intros Hb Hne. rewrite <- (app_nil_r b), (pages_from_no_show b [] cur Hb).
  simpl. destruct (rev b ++ cur) eqn:E; [| reflexivity].
  apply app_eq_nil in E as [E _]. apply (f_equal (@rev op)) in E.
  rewrite rev_involutive in E. contradiction.
Qed.

Lemma header_no_show (data track_info tuning : json) (is_drums : bool)
  (head : list op) :
  header data track_info tuning is_drums = Ok head -> no_show head.
Proof.
  unfold header. intros H. bind_inv H as artist Ea. bind_inv H as title Et.
  bind_inv H as di Ed. bind_inv H as instrument Ei. bind_inv H as label El.
  bind_inv H as ops3 E3. injection H as <-.
  constructor; [discriminate |].
  apply no_show_app; [destruct (truthy artist && truthy title); no_show_list |].
  constructor; [discriminate |]. constructor; [discriminate |].
  destruct (truthy tuning && negb is_drums).
  - bind_inv E3 as items Eit. bind_inv E3 as names En. injection E3 as <-.
    no_show_list.
  - injection E3 as <-. constructor.
Qed.

Lemma prepare_head_no_show (data track_info measures : json) (e : env)
  (head : list op) :
  prepare data track_info measures = Ok (e, head) -> no_show head.
Proof.
  unfold prepare. intros H.
  bind_inv H as a1 E1. bind_inv H as a2 E2. bind_inv H as a3 E3.
  bind_inv H as a4 E4. bind_inv H as a5 E5. bind_inv H as a6 E6.
  bind_inv H as a7 E7. bind_inv H as a8 E8. bind_inv H as a9 E9.
  destruct (as_number a6); [| discriminate].
  injection H as _ <-. apply (header_no_show _ _ _ _ _ E8).
Qed.

Lemma walked_bodies (e : env) (measures : list json) :
  forall st idx walked,
    render_from e st idx measures = Ok walked ->
    Forall (fun r => no_show (body (drawn r)) /\ body (drawn r) <> []) walked.
Proof.
  induction measures as [| m ms IH]; intros st idx walked H; simpl in H.
  - injection H as <-. constructor.
  - bind_inv H as p Ep. destruct p as [r st']. bind_inv H as rest Er.
    injection H as <-. constructor; [| apply (IH _ _ _ Er)].
    destruct (render_measure_body _ _ _ _ _ _ Ep) as (_ & Hn & Hne).
    split; assumption.
Qed.

(** The first measure drawn stands at the start of the first line, below
    the header. *)
Lemma walk_first (e : env) (measures : list json) (idx : nat)
  (walked : list rendered) (r : rendered) :
  render_from e initial_state idx measures = Ok walked ->
  nth_error walked 0 = Some r ->
  measure_count (at_state r) = 0%Z
  /\ current_x (at_state r) = tab_x_start
  /\ current_y (at_state r) = header_bottom
  /\ page_break (drawn r) = [].
Proof.
  intros H Hr. destruct measures as [| m ms]; simpl in H.
  - injection H as <-. discriminate.
  - bind_inv H as p Ep. destruct p as [r0 st']. bind_inv H as rest Er.
    injection H as <-. injection Hr as <-.
    destruct (render_measure_inv _ _ _ _ _ _ Ep)
      as (sig & strings & time & mark & shown & n & beats
          & _ & Hat & _ & _ & _ & Hdrawn & _).
    rewrite Hat, Hdrawn. repeat split.
Qed.

(** Each measure drawn follows the one before it. *)
Lemma walk_follows (e : env) (measures : list json) :
  forall st idx walked,
    render_from e st idx measures = Ok walked ->
    forall k r r',
      nth_error walked k = Some r -> nth_error walked (S k) = Some r' ->
      follows (line_height e) r r'.
Proof.
  induction measures as [| m ms IH]; intros st idx walked H k r r' Hr Hr';
    simpl in H.
  - injection H as <-. destruct k; discriminate.
  - bind_inv H as p Ep. destruct p as [r0 st']. bind_inv H as rest Er.
    injection H as <-. destruct k as [| k].
    2:{ apply (IH _ _ _ Er k r r' Hr Hr'). }
    injection Hr as <-. simpl in Hr'.
    destruct ms as [| m1 ms]; simpl in Er.
    { injection Er as <-. discriminate. }
    bind_inv Er as p1 Ep1. destruct p1 as [r1 st2]. bind_inv Er as rest1 Er1.
    injection Er as <-. injection Hr' as <-.
    destruct (render_measure_inv _ _ _ _ _ _ Ep)
      as (sig & strings & time & mark & shown & n & beats
          & _ & Hat & _ & _ & _ & _ & Hst').
    destruct (render_measure_inv _ _ _ _ _ _ Ep1)
      as (sig1 & strings1 & time1 & mark1 & shown1 & n1 & beats1
          & _ & Hat1 & _ & _ & _ & Hdrawn1 & _).
    remember (fst (next_line (line_height e) st)) as s0 eqn:Hs0.
    clear Hs0. subst st'. unfold follows. rewrite Hat1, Hdrawn1, Hat.
    unfold next_line. cbn [measure_count current_x current_y page_break].
    destruct (measure_count s0 + 1 >=? measures_per_line)%Z.
    + destruct (Qltb (current_y s0 - line_height e) (margin + line_height e));
        cbn [fst snd measure_count current_x current_y page_break];
        repeat split.
    + cbn [fst snd measure_count current_x current_y page_break].
      repeat split.
Qed.

(** Counting from the first measure drawn, measure [k] is number
    [k mod 4] of its line, and a page starts only where a line starts. *)
Lemma walk_count (e : env) (measures : list json) (idx : nat)
  (walked : list rendered) :
  render_from e initial_state idx measures = Ok walked ->
  forall k r,
    nth_error walked k = Some r ->
    measure_count (at_state r) = Z.of_nat (k mod 4)
    /\ (page_break (drawn r) <> [] -> (k mod 4 = 0 /\ k <> 0)%nat).
Proof.
  intros H k. induction k as [| k IH]; intros r Hr.
  - destruct (walk_first _ _ _ _ _ H Hr) as (C & _ & _ & B).
    split; [exact C | intros Hb; contradiction].
  - destruct (nth_error walked k) as [rk |] eqn:Ek.
    2:{ apply nth_error_None in Ek.
        assert (Hn : nth_error walked (S k) = None)
          by (apply nth_error_None; lia).
        rewrite Hn in Hr. discriminate. }
    destruct (IH rk eq_refl) as [C _].
    pose proof (walk_follows _ _ _ _ _ H k rk r Ek Hr) as F.
    unfold follows in F. rewrite C in F.
    assert (Hlt : (k mod 4 < 4)%nat) by (apply Nat.mod_upper_bound; lia).
    assert (Hs : (S k mod 4 = (k mod 4 + 1) mod 4)%nat).
    { replace (S k) with (k + 1)%nat by lia.
      rewrite <- Nat.Div0.add_mod_idemp_l. reflexivity. }
    unfold measures_per_line in F.
    destruct (Z.of_nat (k mod 4) + 1 >=? 4)%Z eqn:E4.
    + apply Z.geb_le in E4. destruct F as (C' & _ & _).
      assert (H3 : (k mod 4 = 3)%nat) by lia.
      rewrite Hs, H3. simpl. split; [exact C' | intros _; split; lia].
    + rewrite Z.geb_leb in E4. apply Z.leb_gt in E4.
      destruct F as (C' & _ & _ & B).
      rewrite Hs, Nat.mod_small by lia.
      split; [rewrite C'; lia | intros Hb; contradiction].
Qed.

Lemma Qltb_false (a b : Q) : b <= a -> Qltb a b = false.
Proof.
  intros H. unfold Qltb. apply Qle_bool_iff in H. rewrite H. reflexivity.
Qed.

Lemma render_inv (data track_info measures : json) (e : env)
  (head : list op) (walked : list rendered) :
  prepare data track_info measures = Ok (e, head) ->
  render data track_info measures = Ok (head, walked) ->
  exists ms,
    render_from e initial_state (start_measure e) ms = Ok walked.
Proof.
  unfold render. intros Hp H. rewrite Hp in H. cbn [bind] in H.
  bind_inv H as ms Ei. bind_inv H as w Ew. injection H as <-.
  exists (skipn (start_measure e) ms). exact Ew.
Qed.

(** C5: a line holds 4 measures: counting from the first measure drawn,
    measure [k] is number [k mod 4] of its line, and a page starts only
    where a line starts.  A measure that is not the first of its line stands
    one measure width right of the one before it; the first of a line stands
    at the left end, one line height lower, unless that would leave less
    than a line height above the bottom margin: then a page is started and
    the cursor is reset to 10 mm below the top margin.  In particular, when
    the second line fits on the first page and the third does not, 9 measures
    come out as 4 on the first line, 4 on the second and the ninth on the
    second of 2 pages. *)
Theorem pagination (data track_info measures : json) (e : env)
  (head : list op) (walked : list rendered) :
  get data "measures" (JList []) = Ok measures ->
  truthy measures = true ->
  prepare data track_info measures = Ok (e, head) ->
  render data track_info measures = Ok (head, walked) ->
  let lh := line_height e in
  (forall k r,
      nth_error walked k = Some r ->
      measure_count (at_state r) = Z.of_nat (k mod 4)
      /\ (page_break (drawn r) <> [] -> (k mod 4 = 0 /\ k <> 0)%nat))
  /\ (forall k r r',
         nth_error walked k = Some r ->
         nth_error walked (S k) = Some r' ->
         ((S k mod 4 <> 0)%nat ->
          current_x (at_state r') = current_x (at_state r) + measure_width
          /\ current_y (at_state r') = current_y (at_state r)
          /\ page_break (drawn r') = [])
         /\ ((S k mod 4 = 0)%nat ->
             current_x (at_state r') = tab_x_start
             /\ (current_y (at_state r) - lh < margin + lh ->
                 page_break (drawn r') = [ShowPage]
                 /\ current_y (at_state r') = page_height - margin - 10 * mm)
             /\ (margin + lh <= current_y (at_state r) - lh ->
                 page_break (drawn r') = []
                 /\ current_y (at_state r') = current_y (at_state r) - lh)))
  /\ (List.length walked = 9%nat ->
      margin + lh <= header_bottom - lh ->
      header_bottom - lh - lh < margin + lh ->
      map (fun r => (page_break (drawn r), current_y (at_state r))) walked
      = [([], header_bottom); ([], header_bottom);
         ([], header_bottom); ([], header_bottom);
         ([], header_bottom - lh); ([], header_bottom - lh);
         ([], header_bottom - lh); ([], header_bottom - lh);
         ([ShowPage], page_height - margin - 10 * mm)]
      /\ exists canvas,
           convert data track_info = Ok (Saved canvas)
           /\ List.length (pages canvas) = 2%nat).
Proof.
  intros Hget Htruthy Hprep Hrender lh.
  destruct (render_inv _ _ _ _ _ _ Hprep Hrender) as (ms & Hwalk).
  split; [apply (walk_count _ _ _ _ Hwalk) |]. split.
  - intros k r r' Hr Hr'.
    pose proof (walk_follows _ _ _ _ _ Hwalk k r r' Hr Hr') as F.
    destruct (walk_count _ _ _ _ Hwalk k r Hr) as [C _].
    assert (Hlt : (k mod 4 < 4)%nat) by (apply Nat.mod_upper_bound; lia).
    assert (Hs : (S k mod 4 = (k mod 4 + 1) mod 4)%nat).
    { replace (S k) with (k + 1)%nat by lia.
      rewrite <- Nat.Div0.add_mod_idemp_l. reflexivity. }
    unfold follows in F. rewrite C in F. unfold measures_per_line in F.
    destruct (Z.of_nat (k mod 4) + 1 >=? 4)%Z eqn:E4.
    + apply Z.geb_le in E4.
      assert (H3 : (k mod 4 = 3)%nat) by lia.
      destruct F as (_ & X & F). split.
      * intros Hne. rewrite Hs, H3 in Hne. simpl in Hne. contradiction.
      * intros _. split; [exact X |]. fold lh in F. split.
        -- intros Hlow. apply Qltb_lt in Hlow. rewrite Hlow in F. exact F.
        -- intros Hfit. rewrite (Qltb_false _ _ Hfit) in F. exact F.
    + rewrite Z.geb_leb in E4. apply Z.leb_gt in E4.
      destruct F as (_ & X & Y & B). split.
      * intros _. repeat split; assumption.
      * intros H0. rewrite Hs, Nat.mod_small in H0 by lia. lia.
  - intros Hlen Hfit Hlow.
    do 9 (destruct walked as [| ? walked]; [discriminate Hlen |]).
    destruct walked; [| discriminate Hlen]. clear Hlen.
    pose proof (walk_first _ _ _ _ _ Hwalk eq_refl) as (C0 & _ & Y0 & B0).
    pose proof (walk_follows _ _ _ _ _ Hwalk 0 _ _ eq_refl eq_refl) as F0.
    pose proof (walk_follows _ _ _ _ _ Hwalk 1 _ _ eq_refl eq_refl) as F1.
    pose proof (walk_follows _ _ _ _ _ Hwalk 2 _ _ eq_refl eq_refl) as F2.
    pose proof (walk_follows _ _ _ _ _ Hwalk 3 _ _ eq_refl eq_refl) as F3.
    pose proof (walk_follows _ _ _ _ _ Hwalk 4 _ _ eq_refl eq_refl) as F4.
    pose proof (walk_follows _ _ _ _ _ Hwalk 5 _ _ eq_refl eq_refl) as F5.
    pose proof (walk_follows _ _ _ _ _ Hwalk 6 _ _ eq_refl eq_refl) as F6.
    pose proof (walk_follows _ _ _ _ _ Hwalk 7 _ _ eq_refl eq_refl) as F7.
    unfold follows in *. fold lh in F0, F1, F2, F3, F4, F5, F6, F7.
    rewrite C0, Y0 in F0. line_test F0. destruct F0 as (C1 & _ & Y1 & B1).
    rewrite C1, Y1 in F1. line_test F1. destruct F1 as (C2 & _ & Y2 & B2).
    rewrite C2, Y2 in F2. line_test F2. destruct F2 as (C3 & _ & Y3 & B3).
    rewrite C3, Y3 in F3. line_test F3.
    rewrite (Qltb_false _ _ Hfit) in F3. destruct F3 as (C4 & _ & B4 & Y4).
    rewrite C4, Y4 in F4. line_test F4. destruct F4 as (C5 & _ & Y5 & B5).
    rewrite C5, Y5 in F5. line_test F5. destruct F5 as (C6 & _ & Y6 & B6).
    rewrite C6, Y6 in F6. line_test F6. destruct F6 as (C7 & _ & Y7 & B7).
    rewrite C7, Y7 in F7. line_test F7.
    apply Qltb_lt in Hlow. rewrite Hlow in F7.
    destruct F7 as (C8 & _ & B8 & Y8).
    split.
    { cbn [map]. rewrite B0, B1, B2, B3, B4, B5, B6, B7, B8.
      rewrite Y0, Y1, Y2, Y3, Y4, Y5, Y6, Y7, Y8. reflexivity. }
    eexists. split.
    { unfold convert. rewrite Hget. cbn [bind]. rewrite Htruthy.
      cbn [negb]. rewrite Hrender. cbn [bind]. reflexivity. }
    pose proof (walked_bodies _ _ _ _ _ Hwalk) as Hb.
    repeat match goal with
           | H : Forall _ (_ :: _) |- _ =>
               apply Forall_cons_iff in H as [[? ?] H]
           end.
    pose proof (prepare_head_no_show _ _ _ _ _ Hprep) as Hhead.
    unfold pages. cbn [map List.concat].
    change (fun m : rendered => flatten (drawn m)) with
      (fun m : rendered => page_break (drawn m) ++ body (drawn m)).
    unfold flatten.
    repeat match goal with
           | |- context [page_break ?d ++ labels ?d ++ ?x] =>
               change (page_break d ++ labels d ++ x)
                 with (page_break d ++ body d)
           end.
    rewrite B0, B1, B2, B3, B4, B5, B6, B7, B8. cbn [app].
    rewrite app_nil_r.
    repeat (rewrite pages_from_no_show by assumption).
    cbn [pages_from List.length]. f_equal.
    apply pages_from_last; assumption.
Qed.

Lemma pagination_witness :
  exists e head walked,
    prepare nine_measure_document JNull nine_measures = Ok (e, head)
    /\ render nine_measure_document JNull nine_measures = Ok (head, walked)
    /\ List.length walked = 9%nat
    /\ margin + line_height e <= header_bottom - line_height e
    /\ header_bottom - line_height e - line_height e < margin + line_height e
    /\ let lh := line_height e in
       (forall k r,
           nth_error walked k = Some r ->
           measure_count (at_state r) = Z.of_nat (k mod 4)
           /\ (page_break (drawn r) <> [] -> (k mod 4 = 0 /\ k <> 0)%nat))
       /\ (forall k r r',
              nth_error walked k = Some r ->
              nth_error walked (S k) = Some r' ->
              ((S k mod 4 <> 0)%nat ->
               current_x (at_state r') = current_x (at_state r) + measure_width
               /\ current_y (at_state r') = current_y (at_state r)
               /\ page_break (drawn r') = [])
              /\ ((S k mod 4 = 0)%nat ->
                  current_x (at_state r') = tab_x_start
                  /\ (current_y (at_state r) - lh < margin + lh ->
                      page_break (drawn r') = [ShowPage]
                      /\ current_y (at_state r')
                         = page_height - margin - 10 * mm)
                  /\ (margin + lh <= current_y (at_state r) - lh ->
                      page_break (drawn r') = []
                      /\ current_y (at_state r')
                         = current_y (at_state r) - lh)))
       /\ (List.length walked = 9%nat ->
           margin + lh <= header_bottom - lh ->
           header_bottom - lh - lh < margin + lh ->
           map (fun r => (page_break (drawn r), current_y (at_state r))) walked
           = [([], header_bottom); ([], header_bottom);
              ([], header_bottom); ([], header_bottom);
              ([], header_bottom - lh); ([], header_bottom - lh);
              ([], header_bottom - lh); ([], header_bottom - lh);
              ([ShowPage], page_height - margin - 10 * mm)]
           /\ exists canvas,
                convert nine_measure_document JNull = Ok (Saved canvas)
                /\ List.length (pages canvas) = 2%nat).
Proof.
  eexists. eexists. eexists.
  split; [vm_compute; reflexivity |].
  split; [vm_compute; reflexivity |].
  split; [reflexivity |].
  split; [vm_compute; discriminate |].
  split; [vm_compute; reflexivity |].
  eapply (pagination nine_measure_document JNull nine_measures).
  - reflexivity.
  - reflexivity.
  - vm_compute. reflexivity.
  - vm_compute. reflexivity.
Defined.

(** * Further properties of the renderer *)

(** ** The first content measure *)

Lemma first_content_spec (measures : list json) :
  forall i s,
    first_content i measures = Ok s ->
    ((i <= s)%nat
     /\ (forall k m, (k < s - i)%nat -> nth_error measures k = Some m ->
                     is_rest m)
     /\ exists m, nth_error measures (s - i) = Some m /\ not_rest m)
    \/ (s = 0%nat /\ forall m, In m measures -> is_rest m).
Proof.
  induction measures as [| m0 r IH]; intros i s H; simpl in H.
  - injection H as <-. right. split; [reflexivity | intros m []].
  - bind_inv H as rest Er. destruct (truthy rest) eqn:T; simpl in H.
    + destruct (IH _ _ H) as [(Hle & Hbefore & m & Hm & Hnr) | (-> & Hall)].
      * left. split; [lia |]. split.
        -- intros k m' Hk Hk'. destruct k as [| k].
           ++ injection Hk' as <-. exists rest. split; assumption.
           ++ apply (Hbefore k m'); [lia | exact Hk'].
        -- exists m. split; [| exact Hnr].
           replace (s - i)%nat with (S (s - S i)) by lia. exact Hm.
      * right. split; [reflexivity |].
        intros m [<- | Hin]; [exists rest; split; assumption | apply Hall, Hin].
    + injection H as <-. left. split; [lia |].
      replace (i - i)%nat with 0%nat by lia. split.
      * intros k m' Hk. lia.
      * exists m0. split; [reflexivity |]. exists rest. split; assumption.
Qed.

(** X1: [_find_first_content_measure] returns the index of the first
    measure that is not marked as a rest: every measure before it is a rest
    and the one at it is not; when every measure is a rest it returns 0. *)
Theorem first_content_measure_index (measures : list json) (s : nat) :
  _find_first_content_measure (JList measures) = Ok s ->
  ((forall k m, (k < s)%nat -> nth_error measures k = Some m -> is_rest m)
   /\ exists m, nth_error measures s = Some m /\ not_rest m)
  \/ (s = 0%nat /\ forall m, In m measures -> is_rest m).
Proof.
  unfold _find_first_content_measure. cbn [py_iter bind]. intros H.
  destruct (first_content_spec _ _ _ H) as [(_ & Hb & Hm) | Hall].
  - left. rewrite Nat.sub_0_r in Hb, Hm. split; assumption.
  - right. exact Hall.
Qed.

Lemma first_content_measure_index_witness :
  let measures := [JObj [("rest", JBool true)]; JObj [("rest", JBool true)];
                   quarter_measure; JObj [("rest", JBool true)]] in
  _find_first_content_measure (JList measures) = Ok 2%nat
  /\ (((forall k m, (k < 2)%nat -> nth_error measures k = Some m -> is_rest m)
       /\ exists m, nth_error measures 2 = Some m /\ not_rest m)
      \/ (2%nat = 0%nat /\ forall m, In m measures -> is_rest m)).
Proof.
  intros measures. split; [reflexivity |].
  apply (first_content_measure_index measures 2). reflexivity.
Defined.

(** ** The tempo with breakpoints in any order *)

Lemma tempo_loop_prefix (pre post : list (Z * json)) (tc : Z * json)
  (idx : Z) (current : json) :
  Forall (fun bp => (fst bp <= idx)%Z) pre ->
  (idx < fst tc)%Z ->
  tempo_loop current (map tempo_change (pre ++ tc :: post)) idx
  = Ok (last (map snd pre) current).
Proof.
  intros Hpre Hlt. revert current.
  induction Hpre as [| [m b] r Hm _ IH]; intros current.
  - simpl. unfold py_le_int. simpl. rewrite Qle_bool_num.
    assert (H : (fst tc <=? idx)%Z = false) by (apply Z.leb_gt; exact Hlt).
    rewrite H. reflexivity.
  - simpl in Hm. cbn [app map tempo_loop]. unfold tempo_change at 1.
    cbn [get lookup String.eqb fst snd bind]. simpl.
    unfold py_le_int. simpl. rewrite Qle_bool_num.
    assert (H : (m <=? idx)%Z = true) by (apply Z.leb_le; exact Hm).
    rewrite H. cbn [bind]. rewrite IH. f_equal. symmetry.
    apply (last_cons_default b current (map snd r)).
Qed.

(** X2: the tempo loop stops at the first breakpoint beyond the measure:
    the tempo is the bpm of the last breakpoint before that one (120 when
    there is none), and the breakpoints after it are not read, also those
    at or before the measure. *)
Theorem tempo_stops_at_first_later_breakpoint (auto : json)
  (pre post : list (Z * json)) (tc : Z * json) (idx : Z) :
  get auto "tempo" (JList []) = Ok (JList (map tempo_change (pre ++ tc :: post))) ->
  Forall (fun bp => (fst bp <= idx)%Z) pre ->
  (idx < fst tc)%Z ->
  _get_tempo_at_measure auto idx = Ok (last (map snd pre) (JInt 120)).
Proof.
  intros Hget Hpre Hlt. unfold _get_tempo_at_measure. rewrite Hget.
  cbn [bind py_iter]. apply tempo_loop_prefix; assumption.
Qed.

Lemma tempo_stops_at_first_later_breakpoint_witness :
  _get_tempo_at_measure
    (JObj [("tempo", JList (map tempo_change
                              [(0, JInt 100); (8, JInt 140); (2, JInt 90)]%Z))])
    4
  = Ok (last (map snd [(0%Z, JInt 100)]) (JInt 120)).
Proof.
  apply (tempo_stops_at_first_later_breakpoint _ [(0%Z, JInt 100)]
           [(2%Z, JInt 90)] (8%Z, JInt 140) 4%Z).
  - reflexivity.
  - repeat constructor. simpl. lia.
  - simpl. lia.
Defined.

(** ** Stems and flags for any duration class *)

Lemma py_eq_number (t : json) (q : Q) (z : Z) :
  as_number t = Some q -> py_eq t (JInt z) = Qeq_bool q (num z).
Proof.
  destruct t; simpl; try discriminate; intros H; injection H as <-;
    reflexivity.
Qed.

(** X3: for every numeric duration class (an integer, a float or a bool)
    the stem is drawn with one flag at 8, two at 16, three from 32 on and
    none anywhere else: also none for a class strictly between 8 and 16 or
    between 16 and 32. *)
Theorem rhythm_stem_by_class (x y : Q) (t : json) (q : Q) :
  as_number t = Some q ->
  exists flags,
    _draw_rhythm_stem x y t
    = Ok ([SetLineWidth 0.8; Line x (y - 3 * mm) x (y - 3 * mm - 4 * mm)]
            ++ flags)
    /\ List.length flags = flag_count q.
Proof.
  intros Hq. unfold _draw_rhythm_stem, py_ge_int, flag_count.
  rewrite Hq. cbn [bind].
  rewrite (py_eq_number t q 8 Hq), (py_eq_number t q 16 Hq).
  change (num 8) with 8. change (num 16) with 16. change (num 32) with 32.
  destruct (Qle_bool 8 q) eqn:H8.
  - destruct (Qeq_bool q 8); [eexists; split; reflexivity |].
    destruct (Qeq_bool q 16); [eexists; split; reflexivity |].
    cbn [bind]. destruct (Qle_bool 32 q); eexists; split; reflexivity.
  - exists []. split; [reflexivity |].
    assert (Hlt : q < 8).
    { apply Qnot_le_lt. intros Hle. apply Qle_bool_iff in Hle.
      rewrite Hle in H8. discriminate. }
    destruct (Qeq_bool q 8) eqn:E8.
    { apply Qeq_bool_iff in E8. rewrite E8 in Hlt.
      exfalso. apply (Qlt_irrefl _ Hlt). }
    destruct (Qeq_bool q 16) eqn:E16.
    { apply Qeq_bool_iff in E16. rewrite E16 in Hlt. discriminate Hlt. }
    destruct (Qle_bool 32 q) eqn:E32; [| reflexivity].
    apply Qle_bool_iff in E32. exfalso.
    apply (Qlt_irrefl 32). apply (Qle_lt_trans _ _ _ E32).
    apply (Qlt_trans _ _ _ Hlt). reflexivity.
Qed.

Lemma rhythm_stem_by_class_witness :
  exists flags,
    _draw_rhythm_stem 0 0 (JInt 12)
    = Ok ([SetLineWidth 0.8; Line 0 (0 - 3 * mm) 0 (0 - 3 * mm - 4 * mm)]
            ++ flags)
    /\ List.length flags = flag_count (num 12).
Proof.
  apply (rhythm_stem_by_class 0 0 (JInt 12) (num 12)). reflexivity.
Defined.

(** ** String labels *)

Lemma mapM_length {A B : Type} (f : A -> result B) (l : list A) (r : list B) :
  mapM f l = Ok r -> List.length r = List.length l.
Proof.
  revert r. induction l as [| a l IH]; intros r H; simpl in H.
  - injection H as <-. reflexivity.
  - bind_inv H as b Eb. bind_inv H as bs Ebs. injection H as <-.
    simpl. rewrite (IH bs eq_refl). reflexivity.
Qed.

Lemma enumerate_length {A : Type} (l : list A) :
  List.length (enumerate l) = List.length l.
Proof.
  unfold enumerate. rewrite length_combine, length_map, length_seq.
  apply Nat.min_id.
Qed.

(** X5: the labels drawn at the start of a line: in percussion mode one
    per string; with a tuning one per tuning entry, whatever the string
    count; otherwise one per string but never more than the six standard
    names. *)
Theorem label_count (e : env) (y : Q) (ops : list op) (n : Z) :
  draw_labels e y = Ok ops ->
  as_int (num_strings e) = Ok n ->
  (is_drums e = true -> List.length ops = Z.to_nat n)
  /\ (is_drums e = false -> truthy (tuning e) = true ->
      forall items, py_iter (tuning e) = Ok items ->
                    List.length ops = List.length items)
  /\ (is_drums e = false -> truthy (tuning e) = false -> (0 <= n)%Z ->
      List.length ops = Nat.min (Z.to_nat n) 6).
Proof.
  unfold draw_labels. intros H Hn. rewrite Hn in H. cbn [bind] in H.
  destruct (is_drums e).
  - injection H as <-. split; [| split]; try discriminate.
    intros _. unfold range. rewrite !length_map, length_seq. reflexivity.
  - destruct (truthy (tuning e)).
    + bind_inv H as items Ei. bind_inv H as names En. injection H as <-.
      split; [| split]; try discriminate.
      intros _ _ items' Hi. injection Hi as <-.
      rewrite length_map, enumerate_length. apply (mapM_length _ _ _ En).
    + injection H as <-. split; [| split]; try discriminate.
      intros _ _ Hpos. rewrite length_map, enumerate_length.
      unfold slice_to. assert (Hlt : (n <? 0)%Z = false)
        by (apply Z.ltb_ge; exact Hpos).
      rewrite Hlt, length_firstn. reflexivity.
Qed.

Lemma label_count_witness :
  let e := mkEnv (JObj []) JNull false (JInt 8) 8 0 in
  exists ops,
    draw_labels e 0 = Ok ops
    /\ (is_drums e = true -> List.length ops = Z.to_nat 8)
    /\ (is_drums e = false -> truthy (tuning e) = true ->
        forall items, py_iter (tuning e) = Ok items ->
                      List.length ops = List.length items)
    /\ (is_drums e = false -> truthy (tuning e) = false -> (0 <= 8)%Z ->
        List.length ops = Nat.min (Z.to_nat 8) 6).
Proof.
  intros e. eexists. split; [vm_compute; reflexivity |].
  apply (label_count e 0 _ 8%Z); [vm_compute; reflexivity | reflexivity].
Defined.

(** ** Notes *)

(** X6: a note is drawn exactly when it is not a rest, has a fret value
    and its integer string index is below the string count; the fret is
    then written at the beat's note position, on the line of that index.
    A negative index is below the count too: that note lands above the top
    line. *)
Theorem note_drawn_iff (n : Z) (y note_x : Q) (note : json) (h : bool)
  (ops : list op) :
  draw_note n y note_x note = Ok (h, ops) ->
  (ops <> []
   <-> sounding note = true
       /\ exists i, note_string note = Ok i /\ (i < n)%Z)
  /\ (ops <> [] ->
      exists fret i,
        get note "fret" JNull = Ok fret
        /\ note_string note = Ok i
        /\ In (DrawCentredString note_x
                 (y - num i * string_spacing - 2.5) [Str fret]) ops).
Proof.
  intros H. pose proof (draw_note_sounding _ _ _ _ _ _ H) as Hs.
  unfold draw_note in H. unfold note_string.
  bind_inv H as rest Er. destruct (truthy rest) eqn:T.
  - injection H as <- <-. split.
    + split; [intros Hne; contradiction | intros [Hf _]].
      rewrite Hf in Hs. discriminate.
    + intros Hne; contradiction.
  - bind_inv H as fret Ef. bind_inv H as s Es.
    destruct fret;
      try (bind_inv H as i Ei; destruct (i <? n)%Z eqn:Hlt;
           injection H as <- <-;
           [ apply Z.ltb_lt in Hlt; split;
             [ split; [intros _; split; [symmetry; exact Hs |];
                       exists i; split; [reflexivity | exact Hlt]
                      | intros _; discriminate]
             | intros _; eexists; exists i;
               split; [reflexivity |]; split; [reflexivity |];
               simpl; tauto ]
           | apply Z.ltb_ge in Hlt; split;
             [ split; [intros Hne; contradiction |];
               intros [_ (i' & Hi' & Hlt')];
               injection Hi' as <-; lia
             | intros Hne; contradiction ] ]).
    injection H as <- <-. split.
    + split; [intros Hne; contradiction | intros [Hf _]].
      rewrite Hf in Hs. discriminate.
    + intros Hne; contradiction.
Qed.

Lemma note_drawn_iff_witness :
  let note := JObj [("string", JInt (-1)); ("fret", JInt 0)] in
  exists h ops,
    draw_note 6 0 0 note = Ok (h, ops)
    /\ (ops <> []
        <-> sounding note = true
            /\ exists i, note_string note = Ok i /\ (i < 6)%Z)
    /\ (ops <> [] ->
        exists fret i,
          get note "fret" JNull = Ok fret
          /\ note_string note = Ok i
          /\ In (DrawCentredString 0
                   (0 - num i * string_spacing - 2.5) [Str fret]) ops).
Proof.
  intros note. eexists. eexists. split; [vm_compute; reflexivity |].
  eapply (note_drawn_iff 6 0 0 note). vm_compute. reflexivity.
Defined.

(** ** Where the measures stand *)

Lemma render_inv_measures (data track_info measures : json) (e : env)
  (head : list op) (walked : list rendered) :
  prepare data track_info measures = Ok (e, head) ->
  render data track_info measures = Ok (head, walked) ->
  exists ms,
    py_iter measures = Ok ms
    /\ render_from e initial_state (start_measure e)
         (skipn (start_measure e) ms) = Ok walked.
Proof.
  unfold render. intros Hp H. rewrite Hp in H. cbn [bind] in H.
  bind_inv H as ms Ei. bind_inv H as w Ew. injection H as <-.
  exists ms. split; [reflexivity | exact Ew].
Qed.




Lemma next_line_in_place (lh : Q) (st : state) :
  line_in_place lh st -> line_in_place lh (fst (next_line lh st)).
Proof.
  intros Hin. unfold next_line.
  destruct (measure_count st >=? measures_per_line)%Z; [| exact Hin].
  destruct (Qltb (current_y st - lh) (margin + lh)) eqn:E; cbn [fst];
    split; cbn [is_first_line current_y]; intros H; try discriminate.
  - right. reflexivity.
  - apply Qnot_lt_le. intros Hlt. apply Qltb_lt in Hlt.
    rewrite Hlt in E. discriminate.
Qed.

Lemma walk_in_place (e : env) (measures : list json) :
  forall st idx walked,
    render_from e st idx measures = Ok walked ->
    line_in_place (line_height e) st ->
    Forall (fun r => line_in_place (line_height e) (at_state r)) walked.
Proof.
  induction measures as [| m ms IH]; intros st idx walked H Hin; simpl in H.
  - injection H as <-. constructor.
  - bind_inv H as p Ep. destruct p as [r st']. bind_inv H as rest Er.
    injection H as <-.
    destruct (render_measure_inv _ _ _ _ _ _ Ep)
      as (sig & strings & time & mark & shown & n & beats
          & _ & Hat & _ & _ & _ & _ & Hst').
    pose proof (next_line_in_place (line_height e) st Hin) as Hnext.
    assert (Hr : line_in_place (line_height e) (at_state r)).
    { rewrite Hat. exact Hnext. }
    constructor; [exact Hr |].
    apply (IH _ _ _ Er). rewrite Hst'. exact Hnext.
Qed.

(** X8: the vertical cursor of every measure drawn: on the first line of a
    page it is the position below the header or 10 mm below the top margin;
    on every other line it leaves at least a line height above the bottom
    margin. *)
Theorem lines_above_bottom_margin (data track_info measures : json)
  (e : env) (head : list op) (walked : list rendered) :
  prepare data track_info measures = Ok (e, head) ->
  render data track_info measures = Ok (head, walked) ->
  forall r,
    In r walked ->
    (is_first_line (at_state r) = true ->
     current_y (at_state r) = header_bottom
     \/ current_y (at_state r) = page_height - margin - 10 * mm)
    /\ (is_first_line (at_state r) = false ->
        margin + line_height e <= current_y (at_state r)).
Proof.
  intros Hp Hr r Hin.
  destruct (render_inv _ _ _ _ _ _ Hp Hr) as (ms & Hwalk).
  assert (H0 : line_in_place (line_height e) initial_state).
  { split; cbn [is_first_line initial_state current_y]; intros H;
      [left; reflexivity | discriminate]. }
  pose proof (walk_in_place _ _ _ _ _ Hwalk H0) as Hall.
  rewrite Forall_forall in Hall. apply (Hall r Hin).
Qed.

Lemma lines_above_bottom_margin_witness :
  exists e head walked,
    prepare two_line_document JNull two_line_measures = Ok (e, head)
    /\ render two_line_document JNull two_line_measures = Ok (head, walked)
    /\ forall r,
         In r walked ->
         (is_first_line (at_state r) = true ->
          current_y (at_state r) = header_bottom
          \/ current_y (at_state r) = page_height - margin - 10 * mm)
         /\ (is_first_line (at_state r) = false ->
             margin + line_height e <= current_y (at_state r)).
Proof.
  eexists. eexists. eexists.
  split; [vm_compute; reflexivity |].
  split; [vm_compute; reflexivity |].
  eapply (lines_above_bottom_margin two_line_document JNull two_line_measures).
  - vm_compute. reflexivity.
  - vm_compute. reflexivity.
Defined.

(** ** The pages of the artifact *)

Lemma prepare_head_nonempty (data track_info measures : json) (e : env)
  (head : list op) :
  prepare data track_info measures = Ok (e, head) -> head <> [].
Proof.
  unfold prepare. intros H.
  bind_inv H as a1 E1. bind_inv H as a2 E2. bind_inv H as a3 E3.
  bind_inv H as a4 E4. bind_inv H as a5 E5. bind_inv H as a6 E6.
  bind_inv H as a7 E7. bind_inv H as a8 E8. bind_inv H as a9 E9.
  destruct (as_number a6); [| discriminate].
  injection H as _ <-. unfold header in E8.
  bind_inv E8 as artist Ea. bind_inv E8 as title Et.
  bind_inv E8 as di Ed. bind_inv E8 as instrument Ei. bind_inv E8 as label El.
  bind_inv E8 as ops3 E3'. injection E8 as <-. discriminate.
Qed.

Lemma walked_breaks (e : env) (measures : list json) :
  forall st idx walked,
    render_from e st idx measures = Ok walked ->
    Forall (fun r => page_break (drawn r) = []
                     \/ page_break (drawn r) = [ShowPage]) walked.
Proof.
  induction measures as [| m ms IH]; intros st idx walked H; simpl in H.
  - injection H as <-. constructor.
  - bind_inv H as p Ep. destruct p as [r st']. bind_inv H as rest Er.
    injection H as <-. constructor; [| apply (IH _ _ _ Er)].
    destruct (render_measure_inv _ _ _ _ _ _ Ep)
      as (sig & strings & time & mark & shown & n & beats
          & _ & _ & _ & _ & _ & Hdrawn & _).
    rewrite Hdrawn. cbn [page_break]. unfold next_line.
    destruct (measure_count st >=? measures_per_line)%Z;
      [destruct (Qltb _ _) |]; cbn [snd]; auto.
Qed.

Lemma rev_nonempty {A : Type} (l : list A) : l <> [] -> rev l <> [].
Proof.
  intros Hne E. apply (f_equal (@rev A)) in E. rewrite rev_involutive in E.
  contradiction.
Qed.

Lemma pages_of_walk (walked : list rendered) :
  Forall (fun r => page_break (drawn r) = []
                   \/ page_break (drawn r) = [ShowPage]) walked ->
  Forall (fun r => no_show (body (drawn r)) /\ body (drawn r) <> []) walked ->
  forall cur,
    cur <> [] ->
    let ps :=
      pages_from cur (List.concat (map (fun m => flatten (drawn m)) walked)) in
    List.length ps = S (List.length (filter starts_page walked))
    /\ Forall (fun page => page <> []) ps.
Proof.
  induction walked as [| r rest IH]; intros Hbreaks Hbodies cur Hcur.
  - simpl. destruct cur as [| o cur]; [contradiction |].
    split; [reflexivity |]. constructor; [| constructor].
    apply (rev_nonempty (o :: cur)). discriminate.
  - apply Forall_cons_iff in Hbreaks as [Hb Hbreaks].
    apply Forall_cons_iff in Hbodies as [[Hn Hne] Hbodies].
    cbn [map List.concat filter].
    change (flatten (drawn r)) with (page_break (drawn r) ++ body (drawn r)).
    unfold starts_page at 1.
    assert (Hrev : forall l, rev (body (drawn r)) ++ l <> []).
    { intros l E. apply app_eq_nil in E as [E _].
      apply (rev_nonempty _ Hne E). }
    destruct Hb as [-> | ->]; cbn [app].
    + rewrite pages_from_no_show by exact Hn.
      apply (IH Hbreaks Hbodies). apply Hrev.
    + cbn [pages_from List.length].
      rewrite pages_from_no_show by exact Hn.
      destruct (IH Hbreaks Hbodies (rev (body (drawn r)) ++ []) (Hrev []))
        as [Hlen Hall].
      split; [f_equal; exact Hlen |].
      constructor; [apply (rev_nonempty _ Hcur) | exact Hall].
Qed.

(** X9: the artifact [convert] saves for a document with measures has one
    page more than the number of measures whose turn of the loop started a
    page, and none of its pages is empty: nothing but the break of line 209
    ends a page, and every break is followed by a measure. *)
Theorem page_count (data track_info measures : json) (e : env)
  (head : list op) (walked : list rendered) :
  get data "measures" (JList []) = Ok measures ->
  truthy measures = true ->
  prepare data track_info measures = Ok (e, head) ->
  render data track_info measures = Ok (head, walked) ->
  exists canvas,
    convert data track_info = Ok (Saved canvas)
    /\ List.length (pages canvas) = S (List.length (filter starts_page walked))
    /\ Forall (fun page => page <> []) (pages canvas).
Proof.
  intros Hget Htruthy Hprep Hrender.
  destruct (render_inv _ _ _ _ _ _ Hprep Hrender) as (ms & Hwalk).
  eexists. split.
  { unfold convert. rewrite Hget. cbn [bind]. rewrite Htruthy.
    cbn [negb]. rewrite Hrender. cbn [bind]. reflexivity. }
  unfold pages.
  rewrite (pages_from_no_show head _ [] (prepare_head_no_show _ _ _ _ _ Hprep)).
  apply pages_of_walk.
  - apply (walked_breaks _ _ _ _ _ Hwalk).
  - apply (walked_bodies _ _ _ _ _ Hwalk).
  - rewrite app_nil_r. apply rev_nonempty.
    apply (prepare_head_nonempty _ _ _ _ _ Hprep).
Qed.

Lemma page_count_witness :
  exists e head walked,
    prepare nine_measure_document JNull nine_measures = Ok (e, head)
    /\ render nine_measure_document JNull nine_measures = Ok (head, walked)
    /\ exists canvas,
         convert nine_measure_document JNull = Ok (Saved canvas)
         /\ List.length (pages canvas)
            = S (List.length (filter starts_page walked))
         /\ Forall (fun page => page <> []) (pages canvas).
Proof.
  eexists. eexists. eexists.
  split; [vm_compute; reflexivity |].
  split; [vm_compute; reflexivity |].
  eapply (page_count nine_measure_document JNull nine_measures).
  - reflexivity.
  - reflexivity.
  - vm_compute. reflexivity.
  - vm_compute. reflexivity.
Defined.

(** ** Which measures are drawn, and their numbers *)

Lemma first_content_bound (measures : list json) (i s : nat) :
  first_content i measures = Ok s ->
  measures <> [] ->
  (s < i + List.length measures)%nat.
Proof.
  intros H Hne.
  destruct (first_content_spec _ _ _ H) as [(Hle & _ & m & Hm & _) | [-> _]].
  - assert (Hlt : (s - i < List.length measures)%nat).
    { apply nth_error_Some. rewrite Hm. discriminate. }
    lia.
  - destruct measures; [contradiction | simpl; lia].
Qed.

Lemma walk_numbers (e : env) (measures : list json) :
  forall st idx walked,
    render_from e st idx measures = Ok walked ->
    List.length walked = List.length measures
    /\ forall k r,
         nth_error walked k = Some r ->
         exists m n,
           nth_error measures k = Some m
           /\ as_int (num_strings e) = Ok n
           /\ draw_content n (at_state r) m = Ok (content (drawn r))
           /\ frame (drawn r) = draw_frame n (at_state r) (idx + k).
Proof.
  induction measures as [| m ms IH]; intros st idx walked H; simpl in H.
  - injection H as <-. split; [reflexivity |]. intros [| k] r Hr; discriminate.
  - bind_inv H as p Ep. destruct p as [r0 st']. bind_inv H as rest Er.
    injection H as <-. destruct (IH _ _ _ Er) as [Hlen Hnum].
    split; [simpl; rewrite Hlen; reflexivity |].
    intros [| k] r Hr.
    + injection Hr as <-.
      destruct (render_measure_inv _ _ _ _ _ _ Ep)
        as (sig & strings & time & mark & shown & n & beats
            & _ & _ & _ & Hn & Hc & Hdrawn & _).
      exists m, n. split; [reflexivity |]. split; [exact Hn |].
      rewrite Hdrawn, Nat.add_0_r. split; [exact Hc | reflexivity].
    + destruct (Hnum k r Hr) as (m' & n & Hm & Hn & Hc & Hf). exists m', n.
      split; [exact Hm |]. split; [exact Hn |]. split; [exact Hc |].
      rewrite Hf. f_equal. lia.
Qed.

(** X10: of a document with measures, at least one measure is drawn, and
    the measures drawn are those from the first content measure on, in
    order: measure [k] of the walk is measure [start_measure + k] of the
    document: its content is what [draw_content] draws for that measure,
    and its frame carries that position, counted from 1, above its left
    bar.  Every measure from the first content measure on is drawn. *)
Theorem every_measure_numbered (data track_info measures : json)
  (ms : list json) (e : env) (head : list op) (walked : list rendered) :
  py_iter measures = Ok ms ->
  ms <> [] ->
  prepare data track_info measures = Ok (e, head) ->
  render data track_info measures = Ok (head, walked) ->
  (start_measure e < List.length ms)%nat
  /\ List.length walked = (List.length ms - start_measure e)%nat
  /\ (forall k r,
         nth_error walked k = Some r ->
         exists m n,
           nth_error ms (start_measure e + k) = Some m
           /\ as_int (num_strings e) = Ok n
           /\ draw_content n (at_state r) m = Ok (content (drawn r))
           /\ In (DrawString (current_x (at_state r) + 1 * mm)
                             (current_y (at_state r) + 3 * mm)
                             [Str (JInt (Z.of_nat (start_measure e + k) + 1))])
                 (frame (drawn r)))
  /\ (forall j m,
         (start_measure e <= j)%nat ->
         nth_error ms j = Some m ->
         exists r, nth_error walked (j - start_measure e) = Some r).
Proof.
  intros Hms Hne Hp Hr.
  destruct (render_inv_measures _ _ _ _ _ _ Hp Hr) as (ms' & Hms' & Hwalk).
  rewrite Hms in Hms'. injection Hms' as <-.
  pose proof (prepare_start _ _ _ _ _ Hp) as Hs.
  unfold _find_first_content_measure in Hs. rewrite Hms in Hs.
  cbn [bind] in Hs.
  pose proof (first_content_bound _ _ _ Hs Hne) as Hb.
  destruct (walk_numbers _ _ _ _ _ Hwalk) as [Hlen Hnum].
  rewrite length_skipn in Hlen.
  split; [lia |]. split; [exact Hlen |]. split.
  - intros k r Hk. destruct (Hnum k r Hk) as (m & n & Hm & Hn & Hc & Hf).
    exists m, n. rewrite nth_error_skipn in Hm.
    split; [exact Hm |]. split; [exact Hn |]. split; [exact Hc |].
    rewrite Hf. unfold draw_frame. apply in_or_app. right.
    apply in_or_app. right. simpl. tauto.
  - intros j m Hj Hm.
    assert (Hlt : (j < List.length ms)%nat).
    { apply nth_error_Some. rewrite Hm. discriminate. }
    destruct (nth_error walked (j - start_measure e)) as [r |] eqn:E;
      [exists r; reflexivity |].
    apply nth_error_None in E. lia.
Qed.

Lemma every_measure_numbered_witness :
  exists ms e head walked,
    py_iter leading_rest_measures = Ok ms
    /\ prepare leading_rest_document JNull leading_rest_measures = Ok (e, head)
    /\ render leading_rest_document JNull leading_rest_measures
       = Ok (head, walked)
    /\ start_measure e = 1%nat
    /\ nth_error ms 1 = Some quarter_measure
    /\ (start_measure e < List.length ms)%nat
    /\ List.length walked = (List.length ms - start_measure e)%nat
    /\ (forall k r,
           nth_error walked k = Some r ->
           exists m n,
             nth_error ms (start_measure e + k) = Some m
             /\ as_int (num_strings e) = Ok n
             /\ draw_content n (at_state r) m = Ok (content (drawn r))
             /\ In (DrawString (current_x (at_state r) + 1 * mm)
                               (current_y (at_state r) + 3 * mm)
                               [Str (JInt (Z.of_nat (start_measure e + k) + 1))])
                   (frame (drawn r)))
    /\ (forall j m,
           (start_measure e <= j)%nat ->
           nth_error ms j = Some m ->
           exists r, nth_error walked (j - start_measure e) = Some r).
Proof.
  eexists. eexists. eexists. eexists.
  split; [reflexivity |].
  split; [vm_compute; reflexivity |].
  split; [vm_compute; reflexivity |].
  split; [reflexivity |].
  split; [reflexivity |].
  eapply (every_measure_numbered leading_rest_document JNull
            leading_rest_measures).
  - reflexivity.
  - discriminate.
  - vm_compute. reflexivity.
  - vm_compute. reflexivity.
Defined.

(** ** The string count in percussion mode, by the spec's words *)

(** *** [int(float(v))] of the values a string index may be *)

Section CoercedIndex.

Local Open Scope Z_scope.

Lemma quot_of_integer (q : Q) (z : Z) :
  (q == num z)%Q -> Z.quot (Qnum q) (Zpos (Qden q)) = z.
Proof.
  unfold Qeq, num, inject_Z. simpl. intros H. rewrite Z.mul_1_r in H.
  rewrite H. apply Z.quot_mul. discriminate.
Qed.

Lemma pow2_nonneg (e : Z) : 0 <= e -> pow2 e = num (2 ^ e).
Proof.
  intros H. unfold pow2. destruct (e <? 0) eqn:E; [| reflexivity].
  apply Z.ltb_lt in E. lia.
Qed.

Lemma pow2_neg (k : Z) : 0 <= k -> (pow2 (- k) * num (2 ^ k) == 1)%Q.
Proof.
  intros H. unfold pow2. destruct (- k <? 0) eqn:E.
  - rewrite Z.opp_involutive.
    assert (Hp : 0 < 2 ^ k) by (apply Z.pow_pos_nonneg; lia).
    unfold Qeq, Qmult, num, inject_Z. cbn [Qnum Qden].
    destruct (2 ^ k) as [| p | p]; lia.
  - apply Z.ltb_ge in E. assert (k = 0) by lia. subst k. reflexivity.
Qed.

Lemma pow2_inv (k : Z) : 0 <= k -> (pow2 (- k) == / num (2 ^ k))%Q.
Proof.
  intros H. assert (Hp : 0 < 2 ^ k) by (apply Z.pow_pos_nonneg; lia).
  assert (Hn : ~ (num (2 ^ k) == 0)%Q).
  { unfold num, Qeq. simpl. lia. }
  rewrite <- (Qmult_1_l (/ num (2 ^ k))), <- (pow2_neg k H). field. exact Hn.
Qed.

Lemma round_half_even_int (s : Q) (n : Z) :
  (s == num n)%Q -> round_half_even s = n.
Proof.
  intros H. unfold round_half_even.
  assert (Hf : Qfloor s = n) by (rewrite H; apply Qfloor_Z).
  rewrite Hf.
  assert (Hc : Qcompare (s - num n) (1 # 2) = Lt).
  { apply Qlt_alt.
    assert (Hz : (s - num n == 0)%Q) by (rewrite H; ring).
    rewrite Hz. reflexivity. }
  rewrite Hc. reflexivity.
Qed.

Lemma round_double_exact (z : Z) :
  z <> 0 -> Z.abs z < 2 ^ 53 ->
  exists v, round_double (num z) = Finite v /\ (v == num z)%Q.
Proof.
  intros Hz Hlt. unfold round_double.
  assert (Hq0 : Qeq_bool (num z) 0 = false).
  { change 0%Q with (num 0). rewrite Qeq_bool_num. apply Z.eqb_neq, Hz. }
  rewrite Hq0.
  assert (Ha : Qabs (num z) = num (Z.abs z)) by reflexivity.
  rewrite Ha.
  set (L := Z.log2 (Z.abs z)).
  assert (Hpos : 0 < Z.abs z) by lia.
  assert (HL : 0 <= L) by apply Z.log2_nonneg.
  destruct (Z.log2_spec (Z.abs z) Hpos) as [Hlo Hhi]. fold L in Hlo, Hhi.
  assert (HL52 : L <= 52).
  { assert (L < 53); [| lia]. apply Z.log2_lt_pow2; assumption. }
  assert (He : binary_exponent (num (Z.abs z)) = L).
  { unfold binary_exponent. cbn [num inject_Z Qnum Qden].
    change (Z.log2 1) with 0. rewrite Z.sub_0_r. fold L.
    rewrite (pow2_nonneg L HL).
    change (Z.abs z # 1)%Q with (num (Z.abs z)).
    rewrite Qle_bool_num.
    assert (Hle : (2 ^ L <=? Z.abs z) = true) by (apply Z.leb_le; exact Hlo).
    rewrite Hle. reflexivity. }
  rewrite He. rewrite Z.max_l by lia.
  set (k := 52 - L).
  replace (L - 52) with (- k) by (unfold k; lia).
  assert (Hk : 0 <= k) by (unfold k; lia).
  pose proof (pow2_inv k Hk) as HP.
  assert (H2k : 0 < 2 ^ k) by (apply Z.pow_pos_nonneg; lia).
  assert (Hn : ~ (num (2 ^ k) == 0)%Q).
  { unfold num, Qeq. simpl. lia. }
  assert (Hs : (num (Z.abs z) / pow2 (- k) == num (Z.abs z * 2 ^ k))%Q).
  { rewrite HP. unfold num. rewrite inject_Z_mult. field. exact Hn. }
  rewrite (round_half_even_int _ _ Hs).
  set (v := (num (Z.abs z * 2 ^ k) * pow2 (- k))%Q).
  assert (Hv : (v == num (Z.abs z))%Q).
  { unfold v. rewrite HP. unfold num. rewrite inject_Z_mult. field. exact Hn. }
  assert (Hfin : Qle_bool (pow2 1024) v = false).
  { destruct (Qle_bool (pow2 1024) v) eqn:E; [| reflexivity].
    apply Qle_bool_iff in E. rewrite Hv, (pow2_nonneg 1024) in E by lia.
    unfold num in E. rewrite <- Zle_Qle in E.
    assert (2 ^ 53 < 2 ^ 1024) by (apply Z.pow_lt_mono_r; lia). lia. }
  rewrite Hfin. eexists. split; [reflexivity |].
  change 0%Q with (num 0). rewrite Qle_bool_num.
  destruct (0 <=? z) eqn:Es.
  - apply Z.leb_le in Es. rewrite Hv, Z.abs_eq by exact Es. reflexivity.
  - apply Z.leb_gt in Es. rewrite Hv, Z.abs_neq by lia.
    unfold num. rewrite inject_Z_opp. ring.
Qed.

Lemma int_float_small (z : Z) : Z.abs z < 2 ^ 53 -> int_float (JInt z) = Ok z.
Proof.
  intros H. destruct (Z.eq_dec z 0) as [-> | Hz]; [reflexivity |].
  destruct (round_double_exact z Hz H) as (v & Hr & Hv).
  unfold int_float, py_float. rewrite Hr. cbn [bind py_int]. f_equal.
  apply quot_of_integer, Hv.
Qed.

Lemma int_float_truncation (q : Q) :
  int_float (JFloat q) = Ok (if Qle_bool 0 q then Qfloor q else Qceiling q).
Proof.
  unfold int_float, py_float. cbn [bind py_int]. f_equal.
  destruct q as [n d]. unfold Qceiling, Qfloor, Qopp, Qle_bool.
  cbn [Qnum Qden]. rewrite Z.mul_1_r.
  change (0 * Z.pos d) with 0.
  destruct (0 <=? n) eqn:E.
  - apply Z.leb_le in E. apply Z.quot_div_nonneg; lia.
  - apply Z.leb_gt in E.
    rewrite <- (Z.opp_involutive n) at 1.
    rewrite Z.quot_opp_l by discriminate.
    f_equal. apply Z.quot_div_nonneg; lia.
Qed.

Lemma digit_char (c : ascii) (d : Z) :
  digit_of c = Some d ->
  0 <= d
  /\ is_space c = false
  /\ Ascii.eqb c "-" = false
  /\ Ascii.eqb c "+" = false
  /\ Ascii.eqb (lower_ascii c) "i" = false
  /\ Ascii.eqb (lower_ascii c) "n" = false.
Proof.
  destruct c as [[] [] [] [] [] [] [] []]; vm_compute; intros H;
    try discriminate H; injection H as <-; repeat split; discriminate.
Qed.

Lemma digits_value_tail (l : list ascii) :
  forall acc cnt z,
    digits_value acc l = Some z ->
    0 <= acc ->
    0 <= z /\ exists cnt', digits_tail acc cnt l = (z, cnt', []).
Proof.
  induction l as [| c r IH]; intros acc cnt z H Hacc; cbn [digits_value] in H.
  - injection H as <-. split; [exact Hacc |]. exists cnt. reflexivity.
  - destruct (digit_of c) as [d |] eqn:Ed; [| discriminate H].
    destruct (digit_char c d Ed) as (Hd & _).
    cbn [digits_tail]. rewrite Ed. apply (IH _ (S cnt) _ H). lia.
Qed.

Lemma strip_digits (l : list ascii) :
  Forall (fun c => is_space c = false) l -> strip l = l.
Proof.
  intros H. unfold strip.
  assert (Hl : forall s, Forall (fun c => is_space c = false) s ->
                         lstrip s = s).
  { intros s Hs. destruct Hs as [| c s Hc _]; [reflexivity |].
    simpl. rewrite Hc. reflexivity. }
  rewrite (Hl l H), (Hl (rev l)) by (apply Forall_rev, H).
  apply rev_involutive.
Qed.

Lemma digits_value_chars (l : list ascii) :
  forall acc z,
    digits_value acc l = Some z ->
    Forall (fun c => exists d, digit_of c = Some d) l.
Proof.
  induction l as [| c r IH]; intros acc z H; cbn [digits_value] in H;
    [constructor |].
  destruct (digit_of c) as [d |] eqn:Ed; [| discriminate H].
  constructor; [exists d; exact Ed | apply (IH _ _ H)].
Qed.

Lemma int_float_digits (s : string) (z : Z) :
  list_ascii_of_string s <> [] ->
  digits_value 0 (list_ascii_of_string s) = Some z ->
  z < 2 ^ 53 ->
  int_float (JStr s) = Ok z.
Proof.
  intros Hne Hv Hlt. unfold int_float, py_float, float_of_string.
  pose proof (digits_value_chars _ _ _ Hv) as Hchars.
  rewrite strip_digits.
  2:{ eapply Forall_impl; [| exact Hchars].
      intros c (d & Hd). apply (digit_char c d Hd). }
  destruct (list_ascii_of_string s) as [| c r]; [contradiction |].
  apply Forall_cons_iff in Hchars as [(d & Hd) _].
  destruct (digit_char c d Hd) as (Hd0 & _ & Hminus & Hplus & Hi & Hn).
  unfold sign_of. rewrite Hminus, Hplus.
  cbn [string_of_list_ascii lower String.eqb]. rewrite Hi, Hn.
  cbn [orb andb].
  unfold unsigned_float, digitpart. rewrite Hd.
  simpl in Hv. rewrite Hd in Hv.
  destruct (digits_value_tail r d 1%nat z Hv Hd0) as (Hz & cnt & Ht).
  rewrite Ht. cbn [bind].
  destruct (Z.eq_dec z 0) as [-> | Hz0]; [reflexivity |].
  destruct (round_double_exact z Hz0) as (v & Hr & Hq); [lia |].
  rewrite Hr. cbn [py_int]. f_equal. apply quot_of_integer, Hq.
Qed.

Lemma coerced_int_float (v : json) (i : Z) :
  coerced_index v = Some i -> int_float v = Ok i.
Proof.
  destruct v; cbn [coerced_index]; try discriminate; intros H.
  - injection H as <-. destruct b; reflexivity.
  - destruct (Z.abs z <? 2 ^ 53) eqn:E; [| discriminate H].
    injection H as <-. apply int_float_small, Z.ltb_lt, E.
  - injection H as <-. apply int_float_truncation.
  - destruct (list_ascii_of_string s) as [| c r] eqn:El; [discriminate H |].
    destruct (digits_value 0 (c :: r)) as [z |] eqn:Ev; [| discriminate H].
    destruct (z <? 2 ^ 53) eqn:E; [| discriminate H].
    injection H as <-. apply int_float_digits.
    + rewrite El. discriminate.
    + rewrite El. exact Ev.
    + apply Z.ltb_lt, E.
Qed.

Lemma all_some_forall2 {A B : Type} (f : A -> option B) (l : list A) :
  forall l', all_some (map f l) = Some l' ->
             Forall2 (fun a b => f a = Some b) l l'.
Proof.
  induction l as [| a l IH]; intros l' H; simpl in H.
  - injection H as <-. constructor.
  - destruct (f a) as [b |] eqn:E; [| discriminate H].
    destruct (all_some (map f l)) as [r |]; [| discriminate H].
    injection H as <-. constructor; [exact E | apply IH; reflexivity].
Qed.

Lemma get_field (v : json) (k : string) (default : json) :
  is_dict v = true ->
  get v k default
  = Ok (match field v k with Some x => x | None => default end).
Proof.
  destruct v; try discriminate. intros _. simpl.
  destruct (lookup k items); reflexivity.
Qed.

Lemma note_string_coerced (note : json) (i : Z) :
  is_dict note = true ->
  coerced_index (string_index note) = Some i ->
  note_string note = Ok i.
Proof.
  intros Hd Hc. unfold note_string. rewrite (get_field _ _ _ Hd).
  cbn [bind]. apply coerced_int_float. exact Hc.
Qed.

Lemma notes_coerced (l : list json) :
  forall idxs,
    forallb is_dict l = true ->
    Forall2 (fun v i => coerced_index v = Some i) (map string_index l) idxs ->
    mapM note_string l = Ok idxs.
Proof.
  induction l as [| note r IH]; intros idxs Hd H; simpl in *.
  - inversion H. reflexivity.
  - apply andb_true_iff in Hd as [Hn Hr].
    inversion H as [| v i vs rest Hi His]; subst.
    rewrite (note_string_coerced _ _ Hn Hi). cbn [bind].
    rewrite (IH _ Hr His). reflexivity.
Qed.

Lemma children_iter (v : json) (k : string) :
  is_dict v = true -> list_or_absent v k = true ->
  (x <- get v k (JList []) ;; py_iter x) = Ok (children v k).
Proof.
  intros Hd Hl. rewrite (get_field _ _ _ Hd). unfold children.
  unfold list_or_absent in Hl.
  destruct (field v k) as [[] |]; try discriminate Hl; reflexivity.
Qed.

(** Collecting over a list of parts, each regular. *)
Lemma collect_parts (g : json -> result (list Z)) (f : json -> list json)
  (regular : json -> bool) :
  (forall x idxs,
      regular x = true ->
      Forall2 (fun v i => coerced_index v = Some i) (map string_index (f x))
              idxs ->
      g x = Ok idxs) ->
  forall l idxs,
    forallb regular l = true ->
    Forall2 (fun v i => coerced_index v = Some i)
            (map string_index (flat_map f l)) idxs ->
    exists ls, mapM g l = Ok ls /\ List.concat ls = idxs.
Proof.
  intros Hg l. induction l as [| x r IH]; intros idxs Hr H; simpl in *.
  - inversion H. exists []. split; reflexivity.
  - apply andb_true_iff in Hr as [Hx Hr].
    rewrite map_app in H.
    apply Forall2_app_inv_l in H as (i1 & i2 & H1 & H2 & ->).
    destruct (IH _ Hr H2) as (ls & Hls & Hc).
    exists (i1 :: ls). rewrite (Hg _ _ Hx H1). cbn [bind]. rewrite Hls.
    cbn [bind]. split; [reflexivity |]. simpl. rewrite Hc. reflexivity.
Qed.

Lemma beat_coerced (beat : json) (idxs : list Z) :
  regular_beat beat = true ->
  Forall2 (fun v i => coerced_index v = Some i)
          (map string_index (children beat "notes")) idxs ->
  beat_strings beat = Ok idxs.
Proof.
  unfold regular_beat. intros Hr H.
  apply andb_true_iff in Hr as [Hr Hn]. apply andb_true_iff in Hr as [Hd Hl].
  unfold beat_strings.
  pose proof (children_iter beat "notes" Hd Hl) as Hi.
  destruct (get beat "notes" (JList [])) as [x |]; cbn [bind] in *;
    [| discriminate Hi].
  rewrite Hi. cbn [bind]. apply notes_coerced; assumption.
Qed.

Lemma voice_coerced (voice : json) (idxs : list Z) :
  regular_voice voice = true ->
  Forall2 (fun v i => coerced_index v = Some i)
          (map string_index
               (flat_map (fun beat => children beat "notes")
                         (children voice "beats"))) idxs ->
  voice_strings voice = Ok idxs.
Proof.
  unfold regular_voice. intros Hr H.
  apply andb_true_iff in Hr as [Hr Hb]. apply andb_true_iff in Hr as [Hd Hl].
  unfold voice_strings.
  pose proof (children_iter voice "beats" Hd Hl) as Hi.
  destruct (get voice "beats" (JList [])) as [x |]; cbn [bind] in *;
    [| discriminate Hi].
  rewrite Hi. cbn [bind].
  destruct (collect_parts beat_strings (fun beat => children beat "notes")
              regular_beat beat_coerced _ _ Hb H) as (ls & -> & <-).
  reflexivity.
Qed.

Lemma measure_coerced (measure : json) (idxs : list Z) :
  regular_measure measure = true ->
  Forall2 (fun v i => coerced_index v = Some i)
          (map string_index (notes_in measure)) idxs ->
  measure_strings measure = Ok idxs.
Proof.
  unfold regular_measure, notes_in. intros Hr H.
  apply andb_true_iff in Hr as [Hr Hv]. apply andb_true_iff in Hr as [Hd Hl].
  unfold measure_strings.
  pose proof (children_iter measure "voices" Hd Hl) as Hi.
  destruct (get measure "voices" (JList [])) as [x |]; cbn [bind] in *;
    [| discriminate Hi].
  rewrite Hi. cbn [bind].
  destruct (collect_parts voice_strings
              (fun voice => flat_map (fun beat => children beat "notes")
                                     (children voice "beats"))
              regular_voice voice_coerced _ _ Hv H) as (ls & -> & <-).
  reflexivity.
Qed.

(** The scan of lines 150-156 reads what the spec's words name: the
    coerced string indices of the notes of the first 30 measures. *)
Lemma scan_reads_referenced (ms : list json) (idxs : list Z) :
  forallb regular_measure (firstn 30 ms) = true ->
  all_some (map coerced_index (referenced ms)) = Some idxs ->
  scanned_strings (JList ms) = Ok idxs.
Proof.
  intros Hr H. apply all_some_forall2 in H. unfold referenced in H.
  unfold scanned_strings. cbn [py_slice30 bind].
  destruct (collect_parts measure_strings notes_in regular_measure
              measure_coerced _ _ Hr H) as (ls & -> & <-).
  reflexivity.
Qed.

End CoercedIndex.

(** C6: in percussion mode the string count is [max(m + 1, 5)], where [m]
    is the largest integer-coerced string index of the notes of the first
    30 measures, whatever string count was declared and whatever the
    measures after the thirtieth hold.  The first 30 measures are dicts of
    lists of dicts down to the notes, and every string index is an integer
    or a string of digits below [2^53], a boolean, or a number with a
    fraction, which is cut toward zero. *)
Theorem percussion_string_count (data track_info : json) (ms : list json)
  (idxs : list Z) (m : Z) :
  percussion_mode data track_info = true ->
  forallb regular_measure (firstn 30 ms) = true ->
  all_some (map coerced_index (referenced ms)) = Some idxs ->
  In m idxs ->
  (forall i, In i idxs -> (i <= m)%Z) ->
  (forall declared,
      resolve_strings (JList ms) true declared
      = Ok (JInt (Z.max (m + 1) 5)))
  /\ (forall e head,
         prepare data track_info (JList ms) = Ok (e, head) ->
         is_drums e = true
         /\ num_strings e = JInt (Z.max (m + 1) 5)
         /\ strings_q e = num (Z.max (m + 1) 5)).
Proof.
  intros Hmode Hregular Hidxs Hm Hle.
  pose proof (scan_reads_referenced ms idxs Hregular Hidxs) as Hscan.
  assert (Hres : forall declared,
             resolve_strings (JList ms) true declared
             = Ok (JInt (Z.max (m + 1) 5))).
  { intros declared. unfold resolve_strings.
    rewrite (scan_strings_collect (JList ms) idxs Hscan). cbn [bind].
    rewrite (fold_bump_max idxs m Hm Hle). reflexivity. }
  split; [exact Hres |].
  intros e head H. unfold prepare in H.
  bind_ok H. bind_ok H. bind_ok H. bind_ok H. bind_ok H.
  apply detect_drums_percussion in E3. rewrite Hmode in E3. subst a3.
  rewrite Hres in H. cbn [bind] in H.
  bind_ok H. bind_ok H. bind_ok H. injection H as <- _.
  simpl. repeat split.
Qed.

Lemma percussion_string_count_witness :
  exists idxs e head,
    List.length long_drum_measures = 31%nat
    /\ percussion_mode long_drum_document JNull = true
    /\ forallb regular_measure (firstn 30 long_drum_measures) = true
    /\ all_some (map coerced_index (referenced long_drum_measures))
       = Some idxs
    /\ In 6%Z idxs
    /\ (forall i, In i idxs -> (i <= 6)%Z)
    /\ prepare long_drum_document JNull (JList long_drum_measures)
       = Ok (e, head)
    /\ (forall declared,
           resolve_strings (JList long_drum_measures) true declared
           = Ok (JInt (Z.max (6 + 1) 5)))
    /\ is_drums e = true
    /\ num_strings e = JInt (Z.max (6 + 1) 5)
    /\ strings_q e = num (Z.max (6 + 1) 5).
Proof.
  eexists. eexists. eexists.
  split; [reflexivity |].
  split; [reflexivity |].
  split; [reflexivity |].
  split; [vm_compute; reflexivity |].
  assert (Hin : In 6%Z ([2; 6; 4] ++ repeat 0 29)%Z)
    by (simpl; tauto).
  assert (Hle : forall i, In i ([2; 6; 4] ++ repeat 0 29)%Z -> (i <= 6)%Z).
  { apply Forall_forall. repeat (constructor; [lia |]). constructor. }
  split; [exact Hin |]. split; [exact Hle |].
  split; [vm_compute; reflexivity |].
  destruct (percussion_string_count long_drum_document JNull
              long_drum_measures ([2; 6; 4] ++ repeat 0 29)%Z 6%Z
              eq_refl eq_refl eq_refl Hin Hle) as [Hres Hprep].
  split; [exact Hres |].
  eapply Hprep. vm_compute. reflexivity.
Defined.

(** ** The default tempo *)

Lemma py_iter_nonempty (v : json) (l : list json) :
  py_iter v = Ok l -> truthy v = true -> l <> [].
Proof.
  destruct v; simpl; try discriminate; intros H T; injection H as <-.
  - destruct s; [discriminate T | discriminate].
  - destruct l0; [discriminate T | discriminate].
  - destruct items; [discriminate T | discriminate].
Qed.

Lemma prepare_automations (data track_info measures : json) (e : env)
  (head : list op) :
  prepare data track_info measures = Ok (e, head) ->
  get data "automations" (JObj []) = Ok (automations e).
Proof.
  unfold prepare. intros H.
  bind_inv H as a1 E1. bind_inv H as a2 E2. bind_inv H as a3 E3.
  bind_inv H as a4 E4. bind_inv H as a5 E5. bind_inv H as a6 E6.
  bind_inv H as a7 E7. bind_inv H as a8 E8. bind_inv H as a9 E9.
  destruct (as_number a6); [| discriminate].
  injection H as <- _. reflexivity.
Qed.

(** C10: when no tempo breakpoint has a measure index at or below a measure
    (the tempo list may be empty, or absent from the automations), the tempo
    resolved for that measure is 120.  When that holds at the first measure
    drawn, the canvas [convert] saves carries the marking for 120 as its
    first tempo marking: after the header and the labels and time signature
    of the first line, the font is set and the text for 120 is written 4 mm
    above the start of the first line. *)
Theorem default_tempo_is_120 (data track_info measures auto : json)
  (tcs : list json) (e : env) (head : list op) (walked : list rendered) :
  get data "automations" (JObj []) = Ok auto ->
  get auto "tempo" (JList []) = Ok (JList tcs) ->
  (forall idx,
      Forall (breakpoint_after idx) tcs ->
      _get_tempo_at_measure auto idx = Ok (JInt 120))
  /\ (get data "measures" (JList []) = Ok measures ->
      truthy measures = true ->
      prepare data track_info measures = Ok (e, head) ->
      render data track_info measures = Ok (head, walked) ->
      Forall (breakpoint_after (Z.of_nat (start_measure e))) tcs ->
      let marking :=
        [SetFont "Helvetica" 8;
         DrawString tab_x_start (header_bottom + 4 * mm)
           [Lit "♩= "; Str (JInt 120)]] in
      exists r rest canvas after,
        walked = r :: rest
        /\ page_break (drawn r) = []
        /\ tempo (drawn r) = marking
        /\ convert data track_info = Ok (Saved canvas)
        /\ canvas
           = head ++ labels (drawn r) ++ signature (drawn r) ++ marking
               ++ after).
Proof.
  intros Hauto Htempo.
  assert (H120 : forall idx,
             Forall (breakpoint_after idx) tcs ->
             _get_tempo_at_measure auto idx = Ok (JInt 120)).
  { intros idx Hall. unfold _get_tempo_at_measure. rewrite Htempo.
    cbn [bind py_iter]. apply tempo_loop_after, Hall. }
  split; [exact H120 |].
  intros Hget Htruthy Hprep Hrender Hall marking.
  destruct (render_inv_measures _ _ _ _ _ _ Hprep Hrender)
    as (ms & Hms & Hwalk).
  pose proof (py_iter_nonempty _ _ Hms Htruthy) as Hne.
  pose proof (prepare_start _ _ _ _ _ Hprep) as Hs.
  unfold _find_first_content_measure in Hs. rewrite Hms in Hs.
  cbn [bind] in Hs.
  pose proof (first_content_bound _ _ _ Hs Hne) as Hb.
  pose proof (prepare_automations _ _ _ _ _ Hprep) as Ha.
  rewrite Hauto in Ha. injection Ha as Ha.
  destruct (skipn (start_measure e) ms) as [| m left] eqn:Eskip.
  { apply (f_equal (@List.length json)) in Eskip.
    rewrite length_skipn in Eskip. simpl in Eskip. lia. }
  simpl in Hwalk. bind_inv Hwalk as p Ep. destruct p as [r st'].
  bind_inv Hwalk as rest Er. injection Hwalk as <-.
  destruct (render_measure_inv _ _ _ _ _ _ Ep)
    as (sig & strings & time & mark & shown & n & beats
        & _ & Hat & Hstart & _ & _ & Hdrawn & _).
  change (fst (next_line (line_height e) initial_state)) with initial_state
    in Hat.
  change (snd (next_line (line_height e) initial_state)) with (@nil op)
    in Hdrawn.
  cbn [initial_state current_x current_y measure_count last_shown_tempo
       is_first_line] in Hat.
  assert (Hmark : mark = marking).
  { destruct (line_start_inv _ _ _ _ _ _ _ Hstart)
      as [(_ & _ & Ht) | (Hc & _)].
    - unfold draw_tempo in Ht. rewrite <- Ha, (H120 _ Hall) in Ht.
      cbn [bind] in Ht. rewrite Hat in Ht.
      cbn [last_shown_tempo current_x current_y py_eq as_number negb] in Ht.
      injection Ht as <- _. reflexivity.
    - rewrite Hat in Hc. contradiction Hc. reflexivity. }
  exists r, rest. eexists. eexists.
  split; [reflexivity |].
  split; [rewrite Hdrawn; reflexivity |].
  split; [rewrite Hdrawn; exact Hmark |].
  split.
  { unfold convert. rewrite Hget. cbn [bind]. rewrite Htruthy.
    cbn [negb]. rewrite Hrender. cbn [bind]. reflexivity. }
  cbn [map List.concat]. unfold flatten at 1. rewrite Hdrawn.
  cbn [page_break labels signature tempo frame content app].
  rewrite Hmark. rewrite <- !app_assoc. reflexivity.
Qed.

Lemma default_tempo_is_120_witness :
  exists auto tcs e head walked,
    get late_tempo_document "automations" (JObj []) = Ok auto
    /\ get auto "tempo" (JList []) = Ok (JList tcs)
    /\ get late_tempo_document "measures" (JList []) = Ok mid_line_measures
    /\ truthy mid_line_measures = true
    /\ prepare late_tempo_document JNull mid_line_measures = Ok (e, head)
    /\ render late_tempo_document JNull mid_line_measures = Ok (head, walked)
    /\ Forall (breakpoint_after (Z.of_nat (start_measure e))) tcs
    /\ _get_tempo_at_measure auto (Z.of_nat (start_measure e)) = Ok (JInt 120)
    /\ let marking :=
         [SetFont "Helvetica" 8;
          DrawString tab_x_start (header_bottom + 4 * mm)
            [Lit "♩= "; Str (JInt 120)]] in
       exists r rest canvas after,
         walked = r :: rest
         /\ page_break (drawn r) = []
         /\ tempo (drawn r) = marking
         /\ convert late_tempo_document JNull = Ok (Saved canvas)
         /\ canvas
            = head ++ labels (drawn r) ++ signature (drawn r) ++ marking
                ++ after.
Proof.
  eexists. eexists. eexists. eexists. eexists.
  split; [reflexivity |].
  split; [reflexivity |].
  split; [reflexivity |].
  split; [reflexivity |].
  split; [vm_compute; reflexivity |].
  split; [vm_compute; reflexivity |].
  assert (Hall : Forall (breakpoint_after (Z.of_nat 0))
                        [tempo_change (4%Z, JInt 140)]).
  { constructor; [| constructor].
    exists (JInt 4), (num 4). split; [reflexivity |].
    split; reflexivity. }
  split; [exact Hall |].
  edestruct (default_tempo_is_120 late_tempo_document JNull mid_line_measures)
    as [Hresolved Hdrawn]; [reflexivity | reflexivity |].
  split; [apply Hresolved; exact Hall |].
  apply Hdrawn.
  - reflexivity.
  - reflexivity.
  - vm_compute. reflexivity.
  - vm_compute. reflexivity.
  - exact Hall.
Defined.

(** ** Where the notes of a measure stand *)

Lemma Qsum_nonneg (fs : list Q) : Forall (fun f => 0 <= f) fs -> 0 <= Qsum fs.
Proof.
  induction 1 as [| f fs Hf _ IH].
  - unfold Qsum. simpl. lra.
  - rewrite Qsum_cons. lra.
Qed.

Lemma Qdiv_nonneg (a b : Q) : 0 <= a -> 0 < b -> 0 <= a / b.
Proof.
  intros Ha Hb. apply Qle_shift_div_l; [exact Hb | lra].
Qed.

Lemma draw_note_x (n : Z) (y note_x : Q) (note : json) (h : bool)
  (ops : list op) :
  draw_note n y note_x note = Ok (h, ops) ->
  forall nx ny t, In (DrawCentredString nx ny t) ops -> nx = note_x.
Proof.
  unfold draw_note. intros H nx ny t Hin.
  bind_inv H as rest Er.
  destruct (truthy rest); [injection H as _ <-; destruct Hin |].
  bind_inv H as fret Ef. bind_inv H as string Es.
  assert (Hcase :
    (string_idx <- int_float string ;;
     if (string_idx <? n)%Z then
       Ok (true,
           [SetFillColor white;
            PatchRect [Str fret] note_x (y - num string_idx * string_spacing);
            SetFillColor black;
            SetFont "Courier-Bold" 9;
            DrawCentredString note_x
              (y - num string_idx * string_spacing - 2.5) [Str fret]])
     else Ok (true, [])) = Ok (h, ops) -> nx = note_x).
  { intros H'. bind_inv H' as i Ei. destruct (i <? n)%Z.
    - injection H' as _ <-. simpl in Hin.
      destruct Hin as [Hin | [Hin | [Hin | [Hin | [Hin | []]]]]];
        try discriminate Hin.
      injection Hin as <- _ _. reflexivity.
    - injection H' as _ <-. destruct Hin. }
  destruct fret; try (apply Hcase; exact H).
  injection H as _ <-. destruct Hin.
Qed.

Lemma draw_notes_x (n : Z) (y note_x : Q) (notes : list json) :
  forall h ops,
    draw_notes n y note_x notes = Ok (h, ops) ->
    forall nx ny t, In (DrawCentredString nx ny t) ops -> nx = note_x.
Proof.
  induction notes as [| note r IH]; intros h ops H nx ny t Hin; simpl in H.
  - injection H as _ <-. destruct Hin.
  - bind_inv H as p Ep. destruct p as [h1 o1].
    bind_inv H as p' Ep'. destruct p' as [h2 o2]. injection H as _ <-.
    apply in_app_or in Hin as [Hin | Hin].
    + apply (draw_note_x _ _ _ _ _ _ Ep nx ny t Hin).
    + apply (IH _ _ eq_refl nx ny t Hin).
Qed.

Lemma draw_beat_x (n : Z) (y total beat_x w : Q) (beat : json)
  (ops stem : list op) :
  draw_beat n y total beat_x beat = Ok (ops, stem, w) ->
  forall nx ny t,
    In (DrawCentredString nx ny t) ops -> nx = beat_x + w * 0.3.
Proof.
  unfold draw_beat. intros H nx ny t Hin.
  bind_inv H as w' Ew. bind_inv H as notes En. bind_inv H as l El.
  bind_inv H as p Ep. destruct p as [h o].
  destruct h.
  - destruct (get beat "type" (JInt 4)) as [ty |]; cbn [bind] in H;
      [| discriminate].
    bind_inv H as s Es. injection H as <- _ <-.
    apply (draw_notes_x _ _ _ _ _ _ Ep nx ny t Hin).
  - cbn [bind] in H. injection H as <- _ <-.
    apply (draw_notes_x _ _ _ _ _ _ Ep nx ny t Hin).
Qed.

Lemma draw_beats_x (n : Z) (y total : Q) (beats : list json) :
  0 < total ->
  forall fs beat_x drawn_beats,
    mapM beat_fraction beats = Ok fs ->
    Forall (fun f => 0 <= f) fs ->
    draw_beats n y total beat_x beats = Ok drawn_beats ->
    forall ops stem nx ny t,
      In (ops, stem) drawn_beats ->
      In (DrawCentredString nx ny t) ops ->
      beat_x <= nx
      /\ nx <= beat_x + usable_measure_width * (Qsum fs / total).
Proof.
  intros Htotal.
  assert (Hu : 0 <= usable_measure_width) by (vm_compute; discriminate).
  induction beats as [| beat r IH];
    intros fs beat_x drawn_beats Hfs Hpos H ops stem nx ny t Hb Hin;
    simpl in H, Hfs.
  - injection H as <-. destruct Hb.
  - bind_inv Hfs as f Ef. bind_inv Hfs as fr Efr. injection Hfs as <-.
    apply Forall_cons_iff in Hpos as [Hf Hpos].
    bind_inv H as p Ep. destruct p as [[o s] w]. bind_inv H as rest Er.
    injection H as <-.
    pose proof (draw_beat_takes_width _ _ _ _ _ _ _ _ Ep) as Hw.
    unfold beat_width in Hw. rewrite Ef in Hw. cbn [bind] in Hw.
    injection Hw as Hw.
    pose proof (Qdiv_nonneg _ _ Hf Htotal) as Hr.
    pose proof (Qdiv_nonneg _ _ (Qsum_nonneg _ Hpos) Htotal) as Hrest.
    assert (Hw0 : 0 <= w).
    { rewrite <- Hw. apply Qmult_le_0_compat; assumption. }
    assert (Hrest0 : 0 <= usable_measure_width * (Qsum fr / total)).
    { apply Qmult_le_0_compat; assumption. }
    assert (Hall : usable_measure_width * (Qsum (f :: fr) / total)
                   == w + usable_measure_width * (Qsum fr / total)).
    { rewrite <- Hw, Qsum_cons. field. lra. }
    destruct Hb as [Hb | Hb].
    + injection Hb as <- <-.
      rewrite (draw_beat_x _ _ _ _ _ _ _ _ Ep nx ny t Hin). lra.
    + destruct (IH _ _ _ eq_refl Hpos Er ops stem nx ny t Hb Hin)
        as [Hlo Hhi].
      lra.
Qed.

(** X11: when no beat of the first voice has a negative duration, every
    fret number of the measure is drawn between 3 mm right of the left bar
    line and 3 mm left of the right one. *)
Theorem notes_within_measure (n : Z) (st : state) (measure : json)
  (beats : list json) (fs : list Q) (drawn_beats : list (list op * list op)) :
  first_voice_beats measure = Ok beats ->
  mapM beat_fraction beats = Ok fs ->
  Forall (fun f => 0 <= f) fs ->
  draw_content n st measure = Ok drawn_beats ->
  forall ops stem nx ny t,
    In (ops, stem) drawn_beats ->
    In (DrawCentredString nx ny t) ops ->
    current_x st + 3 * mm <= nx
    /\ nx <= current_x st + measure_width - 3 * mm.
Proof.
  intros Hbeats Hfs Hpos H ops stem nx ny t Hb Hin.
  unfold first_voice_beats in Hbeats. unfold draw_content in H.
  bind_inv Hbeats as voices Ev. cbn [bind] in H.
  destruct (truthy voices); [| injection H as <-; destruct Hb].
  bind_inv Hbeats as voice Evo. cbn [bind] in H.
  bind_inv Hbeats as bs Eb. cbn [bind] in H.
  destruct (truthy bs); [| injection H as <-; destruct Hb].
  rewrite Hbeats in H. cbn [bind] in H.
  unfold total_duration in H. rewrite Hfs in H. cbn [bind] in H.
  pose proof (Qsum_nonneg _ Hpos) as Hsum.
  set (total := if Qeq_bool (Qsum fs) 0 then 1 else Qsum fs) in H.
  assert (Htotal : 0 < total /\ Qsum fs / total <= 1).
  { unfold total. destruct (Qeq_bool (Qsum fs) 0) eqn:E.
    - apply Qeq_bool_iff in E. split; [lra |]. rewrite E.
      unfold Qdiv. lra.
    - apply Qeq_bool_neq in E. assert (Hlt : 0 < Qsum fs) by lra.
      split; [exact Hlt |].
      apply Qle_shift_div_r; [exact Hlt | lra]. }
  destruct Htotal as [Htotal Hratio].
  destruct (draw_beats_x n (current_y st) total beats Htotal fs _ _ Hfs Hpos H
              ops stem nx ny t Hb Hin) as [Hlo Hhi].
  assert (Hu : 0 <= usable_measure_width) by (vm_compute; discriminate).
  assert (Hle : usable_measure_width * (Qsum fs / total)
                <= usable_measure_width).
  { pose proof (Qmult_le_compat_r _ _ _ Hratio Hu) as Hm. lra. }
  unfold usable_measure_width in *. lra.
Qed.

Lemma notes_within_measure_witness :
  exists beats fs drawn_beats,
    first_voice_beats quarter_measure = Ok beats
    /\ mapM beat_fraction beats = Ok fs
    /\ Forall (fun f => 0 <= f) fs
    /\ draw_content 6 initial_state quarter_measure = Ok drawn_beats
    /\ forall ops stem nx ny t,
         In (ops, stem) drawn_beats ->
         In (DrawCentredString nx ny t) ops ->
         current_x initial_state + 3 * mm <= nx
         /\ nx <= current_x initial_state + measure_width - 3 * mm.
Proof.
  eexists. eexists. eexists.
  split; [vm_compute; reflexivity |].
  split; [vm_compute; reflexivity |].
  split; [repeat constructor; vm_compute; discriminate |].
  split; [vm_compute; reflexivity |].
  eapply (notes_within_measure 6 initial_state quarter_measure).
  - vm_compute. reflexivity.
  - vm_compute. reflexivity.
  - repeat constructor; vm_compute; discriminate.
  - vm_compute. reflexivity.
Defined.

(** * Properties of the file names *)

(** Case analysis on the 256 characters. *)
Ltac each_char c := destruct c as [[] [] [] [] [] [] [] []].

Lemma word_lower_fixed (c : ascii) :
  is_word c = true ->
  is_word (lower_char c) = true
  /\ is_separator (lower_char c) = false
  /\ lower_char (lower_char c) = lower_char c.
Proof.
  each_char c; vm_compute; intros H; try discriminate H; repeat split.
Qed.

Lemma ascii_word_lower_safe (c : ascii) :
  (nat_of_ascii c <? 128)%nat = true -> is_word c = true ->
  is_safe (lower_char c) = true.
Proof.
  each_char c; vm_compute; intros H1 H2; try discriminate; reflexivity.
Qed.

Lemma lower_underscore (c : ascii) :
  lower_char c = "_"%char -> c = "_"%char.
Proof.
  each_char c; vm_compute; intros H; try discriminate H; reflexivity.
Qed.

Lemma separator_not_alnum (c : ascii) :
  is_separator c = true -> is_alnum c = false.
Proof.
  each_char c; vm_compute; intros H; try discriminate H; reflexivity.
Qed.

Lemma alnum_lower (c : ascii) : is_alnum (lower_char c) = is_alnum c.
Proof.
  each_char c; vm_compute; reflexivity.
Qed.

Lemma join_runs_words (s : list ascii) :
  forall b,
    Forall (fun c => is_word c = true) (join_runs b (remove_unsafe s)).
Proof.
  unfold remove_unsafe.
  induction s as [| c s IH]; intros b; simpl; [constructor |].
  destruct (is_word c) eqn:W; destruct (is_separator c) eqn:S; simpl;
    rewrite ?S; try apply IH.
  - destruct b; [apply IH | constructor; [reflexivity | apply IH]].
  - constructor; [exact W | apply IH].
  - destruct b; [apply IH | constructor; [reflexivity | apply IH]].
Qed.

Lemma lstrip_char_split (x : ascii) (s : list ascii) :
  exists p, s = p ++ lstrip_char x s /\ Forall (eq x) p.
Proof.
  induction s as [| c s IH]; simpl.
  - exists []. split; [reflexivity | constructor].
  - destruct (Ascii.eqb c x) eqn:E.
    + apply Ascii.eqb_eq in E. subst c. destruct IH as (p & Hp & Hall).
      exists (x :: p). split; [simpl; f_equal; exact Hp |].
      constructor; [reflexivity | exact Hall].
    + exists []. split; [reflexivity | constructor].
Qed.

Lemma lstrip_char_head (x : ascii) (s r : list ascii) :
  lstrip_char x s <> x :: r.
Proof.
  induction s as [| c s IH]; simpl; [discriminate |].
  destruct (Ascii.eqb c x) eqn:E; [exact IH |].
  intros H. injection H as -> _. rewrite Ascii.eqb_refl in E. discriminate.
Qed.

Lemma lstrip_char_last (x : ascii) (s : list ascii) :
  (forall r, s <> r ++ [x]) -> forall r, lstrip_char x s <> r ++ [x].
Proof.
  intros Hs r H. destruct (lstrip_char_split x s) as (p & Hp & _).
  apply (Hs (p ++ r)). rewrite Hp at 1. rewrite H. apply app_assoc.
Qed.

Lemma rev_head_last {A : Type} (x : A) (s r : list A) :
  rev s = x :: r -> s = rev r ++ [x].
Proof.
  intros H. apply (f_equal (@rev A)) in H. rewrite rev_involutive in H.
  exact H.
Qed.

Lemma rev_last_head {A : Type} (x : A) (s r : list A) :
  rev s = r ++ [x] -> s = x :: rev r.
Proof.
  intros H. apply (f_equal (@rev A)) in H.
  rewrite rev_involutive, rev_app_distr in H. exact H.
Qed.

(** What [strip] leaves neither starts nor ends with the character. *)
Lemma strip_char_edges (x : ascii) (s : list ascii) :
  (forall r, strip_char x s <> x :: r)
  /\ (forall r, strip_char x s <> r ++ [x]).
Proof.
  unfold strip_char. split; intros r H.
  - apply rev_head_last in H. revert H. apply lstrip_char_last.
    intros r' H'. apply rev_last_head in H'.
    apply (lstrip_char_head _ _ _ H').
  - apply rev_last_head in H. apply (lstrip_char_head _ _ _ H).
Qed.

Lemma lstrip_char_forall (P : ascii -> Prop) (x : ascii) (s : list ascii) :
  Forall P s -> Forall P (lstrip_char x s).
Proof.
  induction 1 as [| c s Hc Hs IH]; simpl; [constructor |].
  destruct (Ascii.eqb c x); [exact IH | constructor; assumption].
Qed.

Lemma strip_char_forall (P : ascii -> Prop) (x : ascii) (s : list ascii) :
  Forall P s -> Forall P (strip_char x s).
Proof.
  intros H. unfold strip_char.
  apply Forall_rev, lstrip_char_forall, Forall_rev, lstrip_char_forall, H.
Qed.

Lemma map_lower_edges (s : list ascii) :
  (forall r, s <> "_"%char :: r) ->
  (forall r, s <> r ++ ["_"%char]) ->
  (forall r, map lower_char s <> "_"%char :: r)
  /\ (forall r, map lower_char s <> r ++ ["_"%char]).
Proof.
  intros Hhead Hlast. split; intros r H.
  - destruct s as [| c s]; [discriminate H |].
    simpl in H. injection H as Hc _. apply lower_underscore in Hc.
    subst c. apply (Hhead s eq_refl).
  - apply (f_equal (@rev ascii)) in H.
    rewrite <- map_rev, rev_app_distr in H. simpl in H.
    destruct (rev s) as [| c q] eqn:E; [discriminate H |].
    simpl in H. injection H as Hc _. apply lower_underscore in Hc. subst c.
    apply rev_head_last in E. apply (Hlast _ E).
Qed.

(** The characters and the ends of a sanitized name. *)
Lemma sanitize_chars_shape (s : list ascii) :
  Forall (fun c => is_word c = true /\ is_separator c = false
                   /\ lower_char c = c) (sanitize_chars s)
  /\ (forall r, sanitize_chars s <> "_"%char :: r)
  /\ (forall r, sanitize_chars s <> r ++ ["_"%char]).
Proof.
  unfold sanitize_chars.
  destruct (strip_char_edges "_"%char (join_runs false (remove_unsafe s)))
    as [Hhead Hlast].
  split; [| apply map_lower_edges; assumption].
  apply Forall_map.
  apply (Forall_impl _ word_lower_fixed).
  apply strip_char_forall, join_runs_words.
Qed.

Lemma filter_all {A : Type} (f : A -> bool) (l : list A) :
  Forall (fun a => f a = true) l -> filter f l = l.
Proof.
  induction 1 as [| a l Ha _ IH]; simpl; [reflexivity |].
  rewrite Ha, IH. reflexivity.
Qed.

Lemma join_runs_none (s : list ascii) (b : bool) :
  Forall (fun c => is_separator c = false) s -> join_runs b s = s.
Proof.
  intros H. revert b. induction H as [| c s Hc _ IH]; intros b; simpl;
    [reflexivity |].
  rewrite Hc, IH. reflexivity.
Qed.

Lemma lstrip_char_none (x : ascii) (s : list ascii) :
  (forall r, s <> x :: r) -> lstrip_char x s = s.
Proof.
  intros H. destruct s as [| c s]; simpl; [reflexivity |].
  destruct (Ascii.eqb c x) eqn:E; [| reflexivity].
  apply Ascii.eqb_eq in E. subst c. destruct (H s eq_refl).
Qed.

Lemma strip_char_none (x : ascii) (s : list ascii) :
  (forall r, s <> x :: r) -> (forall r, s <> r ++ [x]) -> strip_char x s = s.
Proof.
  intros Hhead Hlast. unfold strip_char.
  rewrite (lstrip_char_none x s Hhead).
  rewrite lstrip_char_none; [apply rev_involutive |].
  intros r H. apply rev_head_last in H. apply (Hlast _ H).
Qed.

Lemma map_fixed {A : Type} (f : A -> A) (l : list A) :
  Forall (fun a => f a = a) l -> map f l = l.
Proof.
  induction 1 as [| a l Ha _ IH]; simpl; [reflexivity |].
  rewrite Ha, IH. reflexivity.
Qed.

Lemma sanitize_chars_fixed (s : list ascii) :
  Forall (fun c => is_word c = true /\ is_separator c = false
                   /\ lower_char c = c) s ->
  (forall r, s <> "_"%char :: r) ->
  (forall r, s <> r ++ ["_"%char]) ->
  sanitize_chars s = s.
Proof.
  intros Hall Hhead Hlast. unfold sanitize_chars, remove_unsafe.
  rewrite filter_all.
  2:{ eapply Forall_impl; [| exact Hall].
      intros c (W & _ & _). rewrite W. reflexivity. }
  rewrite join_runs_none.
  2:{ eapply Forall_impl; [| exact Hall].
      intros c (_ & S & _). exact S. }
  rewrite (strip_char_none _ _ Hhead Hlast).
  apply map_fixed.
  eapply Forall_impl; [| exact Hall].
  intros c (_ & _ & L). exact L.
Qed.

Lemma join_runs_forall (P : ascii -> Prop) (s : list ascii) :
  P "_"%char -> Forall P s -> forall b, Forall P (join_runs b s).
Proof.
  intros Hu H. induction H as [| c s Hc _ IH]; intros b; simpl;
    [constructor |].
  destruct (is_separator c).
  - destruct b; [apply IH | constructor; [exact Hu | apply IH]].
  - constructor; [exact Hc | apply IH].
Qed.

Lemma filter_forall {A : Type} (P : A -> Prop) (f : A -> bool) (l : list A) :
  Forall P l -> Forall P (filter f l).
Proof.
  induction 1 as [| a l Ha _ IH]; simpl; [constructor |].
  destruct (f a); [constructor; assumption | exact IH].
Qed.

(** X12: the sanitized form of a name of ASCII characters is made of
    lower-case letters, digits and underscores only, so it holds no path
    separator and no dot, and it neither starts nor ends with an
    underscore. *)
Theorem sanitized_name_is_safe (name : string) :
  ascii_name name ->
  let out := list_ascii_of_string (_sanitize_filename name) in
  Forall (fun c => is_safe c = true) out
  /\ (forall r, out <> "_"%char :: r)
  /\ (forall r, out <> r ++ ["_"%char]).
Proof.
  intros Hascii out. unfold out, _sanitize_filename.
  rewrite list_ascii_of_string_of_list_ascii.
  destruct (sanitize_chars_shape (list_ascii_of_string name))
    as (_ & Hhead & Hlast).
  split; [| split; assumption].
  unfold sanitize_chars. apply Forall_map.
  apply (Forall_impl (P := fun c => (nat_of_ascii c <? 128)%nat = true
                                    /\ is_word c = true)).
  { intros c [Ha Hw]. apply ascii_word_lower_safe; assumption. }
  apply strip_char_forall. apply Forall_and.
  - apply join_runs_forall; [reflexivity |].
    apply filter_forall. exact Hascii.
  - apply join_runs_words.
Qed.

Lemma sanitized_name_is_safe_witness :
  _sanitize_filename "AC/DC - Back In  Black!" = "acdc_back_in_black"
  /\ let out := list_ascii_of_string
                  (_sanitize_filename "AC/DC - Back In  Black!") in
     Forall (fun c => is_safe c = true) out
     /\ (forall r, out <> "_"%char :: r)
     /\ (forall r, out <> r ++ ["_"%char]).
Proof.
  split; [reflexivity |].
  apply (sanitized_name_is_safe "AC/DC - Back In  Black!").
  unfold ascii_name. simpl. repeat constructor.
Defined.

(** X13: sanitizing is idempotent: a name that [_sanitize_filename]
    returned is returned unchanged when it is sanitized again. *)
Theorem sanitize_idempotent (name : string) :
  _sanitize_filename (_sanitize_filename name) = _sanitize_filename name.
Proof.
  unfold _sanitize_filename. rewrite list_ascii_of_string_of_list_ascii.
  f_equal.
  destruct (sanitize_chars_shape (list_ascii_of_string name))
    as (Hall & Hhead & Hlast).
  apply sanitize_chars_fixed; assumption.
Qed.

Lemma filter_alnum_unsafe (s : list ascii) :
  filter is_alnum (remove_unsafe s) = filter is_alnum s.
Proof.
  unfold remove_unsafe. induction s as [| c s IH]; simpl; [reflexivity |].
  destruct (is_word c) eqn:W; simpl.
  - rewrite IH. reflexivity.
  - unfold is_alnum at 2. rewrite W. simpl.
    destruct (is_separator c) eqn:S; [| exact IH].
    simpl. rewrite (separator_not_alnum c S). exact IH.
Qed.

Lemma filter_alnum_runs (s : list ascii) :
  forall b, filter is_alnum (join_runs b s) = filter is_alnum s.
Proof.
  induction s as [| c s IH]; intros b; simpl; [reflexivity |].
  destruct (is_separator c) eqn:S.
  - rewrite (separator_not_alnum c S).
    destruct b; [apply IH | simpl; apply IH].
  - simpl. rewrite IH. reflexivity.
Qed.

Lemma filter_alnum_lstrip (s : list ascii) :
  filter is_alnum (lstrip_char "_"%char s) = filter is_alnum s.
Proof.
  induction s as [| c s IH]; simpl; [reflexivity |].
  destruct (Ascii.eqb c "_"%char) eqn:E; [| reflexivity].
  apply Ascii.eqb_eq in E. subst c. exact IH.
Qed.

Lemma filter_alnum_lower (s : list ascii) :
  filter is_alnum (map lower_char s) = map lower_char (filter is_alnum s).
Proof.
  induction s as [| c s IH]; simpl; [reflexivity |].
  rewrite alnum_lower. destruct (is_alnum c); simpl; rewrite IH; reflexivity.
Qed.

Lemma sanitize_chars_alnum (s : list ascii) :
  filter is_alnum (sanitize_chars s) = map lower_char (filter is_alnum s).
Proof.
  unfold sanitize_chars, strip_char.
  rewrite filter_alnum_lower, filter_rev, filter_alnum_lstrip, filter_rev,
    rev_involutive, filter_alnum_lstrip, filter_alnum_runs,
    filter_alnum_unsafe.
  reflexivity.
Qed.

Lemma filter_none {A : Type} (f : A -> bool) (l : list A) :
  filter f l = [] <-> Forall (fun a => f a = false) l.
Proof.
  induction l as [| a l IH]; simpl.
  - split; [constructor | reflexivity].
  - destruct (f a) eqn:E; split; intros H.
    + discriminate H.
    + apply Forall_cons_iff in H as [H _]. rewrite E in H. discriminate H.
    + constructor; [exact E | apply IH, H].
    + apply Forall_cons_iff in H as [_ H]. apply IH, H.
Qed.

(** X14: sanitizing keeps the letters and digits of the name, in their
    order and in lower case, and nothing else but underscores; the result is
    the empty string exactly when the name holds no letter and no digit. *)
Theorem sanitize_keeps_letters_and_digits (name : string) :
  let out := list_ascii_of_string (_sanitize_filename name) in
  filter is_alnum out
  = map lower_char (filter is_alnum (list_ascii_of_string name))
  /\ Forall (fun c => is_alnum c = true \/ c = "_"%char) out
  /\ (_sanitize_filename name = ""
      <-> Forall (fun c => is_alnum c = false) (list_ascii_of_string name)).
Proof.
  intros out. unfold out, _sanitize_filename.
  rewrite list_ascii_of_string_of_list_ascii.
  set (s := list_ascii_of_string name).
  destruct (sanitize_chars_shape s) as (Hall & Hhead & _).
  assert (Hcases : Forall (fun c => is_alnum c = true \/ c = "_"%char)
                          (sanitize_chars s)).
  { eapply Forall_impl; [| exact Hall].
    intros c (W & _ & _). unfold is_alnum. rewrite W. simpl.
    destruct (Ascii.eqb c "_"%char) eqn:E; [right | left; reflexivity].
    apply Ascii.eqb_eq, E. }
  split; [apply sanitize_chars_alnum |]. split; [exact Hcases |].
  rewrite <- filter_none. split; intros H.
  - apply (f_equal list_ascii_of_string) in H.
    rewrite list_ascii_of_string_of_list_ascii in H. simpl in H.
    pose proof (sanitize_chars_alnum s) as Hk. rewrite H in Hk. simpl in Hk.
    destruct (filter is_alnum s); [reflexivity | discriminate Hk].
  - pose proof (sanitize_chars_alnum s) as Hk. rewrite H in Hk. simpl in Hk.
    destruct (sanitize_chars s) as [| c r]; [reflexivity |].
    apply Forall_cons_iff in Hcases as [[Hc | Hc] _].
    + simpl in Hk. rewrite Hc in Hk. discriminate Hk.
    + subst c. destruct (Hhead r eq_refl).
Qed.

(** * Properties of the PDF stage *)

Lemma convert_returns_none (data track_info : json) :
  convert data track_info = Ok ReturnedNone
  <-> exists m, get data "measures" (JList []) = Ok m /\ truthy m = false.
Proof.
  unfold convert. split.
  - intros H. bind_inv H as m Em. exists m. split; [reflexivity |].
    destruct (truthy m); [| reflexivity]. simpl in H.
    bind_inv H as p Ep. destruct p as [head walked]. discriminate H.
  - intros (m & -> & Ht). cbn [bind]. rewrite Ht. reflexivity.
Qed.

Lemma counted_unwritten_iff (load : string -> option json)
  (song_info tracks : json) (f : file_info) :
  counted_unwritten load song_info tracks f = true
  <-> exists track_info data m,
        track_info_for song_info tracks (track_index f) = Ok track_info
        /\ load (file_path f) = Some data
        /\ get data "measures" (JList []) = Ok m
        /\ truthy m = false.
Proof.
  unfold counted_unwritten, try_pdf. split.
  - intros H.
    destruct (track_info_for song_info tracks (track_index f)) as [ti |];
      [| discriminate H].
    destruct (load (file_path f)) as [data |]; [| discriminate H].
    destruct (convert data ti) as [[| canvas] |] eqn:E; try discriminate H.
    apply convert_returns_none in E as (m & Hm & Ht).
    exists ti, data, m. repeat split; assumption.
  - intros (ti & data & m & -> & -> & Hm & Ht).
    assert (E : convert data ti = Ok ReturnedNone).
    { apply convert_returns_none. exists m. split; assumption. }
    rewrite E. reflexivity.
Qed.

(** The loop of lines 545-565 from any state. *)
Lemma pdf_fold (load : string -> option json) (song_info tracks : json)
  (l : list file_info) :
  forall b0,
    let b := fold_left (pdf_step load song_info tracks) l b0 in
    (pdf_count b + List.length (logged b)
     = pdf_count b0 + List.length (logged b0) + List.length l)%nat
    /\ (pdf_count b + List.length (written b0)
        = pdf_count b0 + List.length (written b)
          + List.length (filter (counted_unwritten load song_info tracks) l))%nat
    /\ exists pdfs,
         written b = written b0 ++ pdfs
         /\ Forall (fun pdf =>
                      exists f, In f l
                                /\ try_pdf load song_info tracks f
                                   = Counted (Some pdf)) pdfs.
Proof.
  induction l as [| f l IH]; intros b0; cbn [fold_left].
  - cbn [List.length filter]. split; [lia |]. split; [lia |].
    exists []. split; [symmetry; apply app_nil_r | constructor].
  - destruct (IH (pdf_step load song_info tracks b0 f))
      as (H1 & H2 & pdfs & H3 & H4).
    clear IH. cbn zeta in *.
    set (b := fold_left (pdf_step load song_info tracks) l
                (pdf_step load song_info tracks b0 f)) in *.
    assert (Hweak : Forall (fun pdf =>
                      exists f', In f' (f :: l)
                                 /\ try_pdf load song_info tracks f'
                                    = Counted (Some pdf)) pdfs).
    { eapply Forall_impl; [| exact H4].
      intros pdf (f' & Hin & Ht). exists f'. split; [right |]; assumption. }
    cbn [filter List.length]. unfold counted_unwritten at 1.
    unfold pdf_step in H1, H2, H3.
    destruct (try_pdf load song_info tracks f) as [| [pdf |]] eqn:E;
      cbn [pdf_count written logged List.length] in H1, H2, H3.
    + rewrite length_app in H1. cbn [List.length] in H1.
      split; [lia |]. split; [lia |]. exists pdfs. split; assumption.
    + rewrite length_app in H2. cbn [List.length] in H2.
      split; [lia |]. split; [lia |]. exists (pdf :: pdfs).
      split; [rewrite H3, <- app_assoc; reflexivity |].
      constructor; [| exact Hweak].
      exists f. split; [left; reflexivity | exact E].
    + cbn [List.length]. split; [lia |]. split; [lia |].
      exists pdfs. split; assumption.
Qed.

(** X15: the PDF stage tries every track file once: a file is either
    counted or its failure is logged.  The count it prints is the number of
    PDF files written plus the number of track files whose document has no
    measures: for those [convert] returns [None] without writing, and they
    are counted all the same. *)
Theorem pdf_count_accounts (load : string -> option json) (song_info : json)
  (files : list file_info) (b : batch) :
  pdf_stage load song_info files = Ok b ->
  exists tracks,
    get song_info "tracks" (JList []) = Ok tracks
    /\ (pdf_count b + List.length (logged b)
        = List.length (json_files files))%nat
    /\ (pdf_count b
        = List.length (written b)
          + List.length (filter (counted_unwritten load song_info tracks)
                                (json_files files)))%nat
    /\ forall f,
         counted_unwritten load song_info tracks f = true
         <-> exists track_info data m,
               track_info_for song_info tracks (track_index f) = Ok track_info
               /\ load (file_path f) = Some data
               /\ get data "measures" (JList []) = Ok m
               /\ truthy m = false.
Proof.
  unfold pdf_stage. intros H. bind_inv H as tracks Et. injection H as <-.
  exists tracks. split; [reflexivity |].
  destruct (pdf_fold load song_info tracks (json_files files)
              (mkBatch 0 [] [])) as (H1 & H2 & _).
  cbn [pdf_count written logged List.length] in H1, H2.
  split; [lia |]. split; [lia |].
  apply counted_unwritten_iff.
Qed.

Lemma pdf_count_accounts_witness :
  exists b tracks,
    pdf_stage two_track_load two_track_song two_track_files = Ok b
    /\ pdf_count b = 2%nat
    /\ List.length (written b) = 1%nat
    /\ logged b = ["unknown_2.json"]
    /\ get two_track_song "tracks" (JList []) = Ok tracks
    /\ (pdf_count b + List.length (logged b)
        = List.length (json_files two_track_files))%nat
    /\ (pdf_count b
        = List.length (written b)
          + List.length
              (filter (counted_unwritten two_track_load two_track_song tracks)
                      (json_files two_track_files)))%nat
    /\ forall f,
         counted_unwritten two_track_load two_track_song tracks f = true
         <-> exists track_info data m,
               track_info_for two_track_song tracks (track_index f)
               = Ok track_info
               /\ two_track_load (file_path f) = Some data
               /\ get data "measures" (JList []) = Ok m
               /\ truthy m = false.
Proof.
  destruct (pdf_count_accounts two_track_load two_track_song two_track_files
              _ eq_refl) as (tracks & Ht & H).
  eexists. exists tracks.
  split; [reflexivity |].
  split; [vm_compute; reflexivity |].
  split; [vm_compute; reflexivity |].
  split; [vm_compute; reflexivity |].
  split; [exact Ht | exact H].
Defined.

Lemma before_last_dot_json (base : string) :
  before_last_dot (base ++ ".json") = Some base.
Proof.
  induction base as [| c base IH]; [reflexivity |].
  cbn [String.append before_last_dot]. rewrite IH. reflexivity.
Qed.

(** X16: every PDF the stage writes is the saved rendering of the document
    of one of the track files, never of the metadata file, and it stands
    beside that file: its path is the path of the JSON file with the
    extension replaced, whatever dots the directory names hold. *)
Theorem pdf_beside_json (load : string -> option json) (song_info : json)
  (files : list file_info) (b : batch) :
  pdf_stage load song_info files = Ok b ->
  forall pdf_path canvas,
    In (pdf_path, canvas) (written b) ->
    exists f data track_info,
      In f files
      /\ endswith (file_name f) ".json" = true
      /\ file_name f <> "metadata.json"
      /\ load (file_path f) = Some data
      /\ convert data track_info = Ok (Saved canvas)
      /\ pdf_path = pdf_path_of (file_path f)
      /\ forall base,
           file_path f = (base ++ ".json")%string ->
           pdf_path = (base ++ ".pdf")%string.
Proof.
  unfold pdf_stage. intros H pdf_path canvas Hin.
  bind_inv H as tracks Et. injection H as <-.
  destruct (pdf_fold load song_info tracks (json_files files)
              (mkBatch 0 [] [])) as (_ & _ & pdfs & Hw & Hall).
  cbn [written app] in Hw. rewrite Hw in Hin.
  rewrite Forall_forall in Hall.
  destruct (Hall _ Hin) as (f & Hf & Htry).
  unfold json_files in Hf. apply filter_In in Hf as [Hf Hname].
  apply andb_true_iff in Hname as [Hjson Hmeta].
  apply negb_true_iff, String.eqb_neq in Hmeta.
  unfold try_pdf in Htry.
  destruct (track_info_for song_info tracks (track_index f)) as [ti |];
    [| discriminate Htry].
  destruct (load (file_path f)) as [data |] eqn:El; [| discriminate Htry].
  destruct (convert data ti) as [[| canvas'] |] eqn:Ec; try discriminate Htry.
  injection Htry as <- <-.
  exists f, data, ti.
  repeat (split; [assumption || reflexivity |]).
  intros base Hb. unfold pdf_path_of.
  rewrite Hb, before_last_dot_json. reflexivity.
Qed.

Lemma pdf_beside_json_witness :
  exists b pdf_path canvas,
    pdf_stage two_track_load two_track_song two_track_files = Ok b
    /\ written b = [(pdf_path, canvas)]
    /\ pdf_path = "out.d/00_lead.pdf"
    /\ exists f data track_info,
         In f two_track_files
         /\ endswith (file_name f) ".json" = true
         /\ file_name f <> "metadata.json"
         /\ two_track_load (file_path f) = Some data
         /\ convert data track_info = Ok (Saved canvas)
         /\ pdf_path = pdf_path_of (file_path f)
         /\ forall base,
              file_path f = (base ++ ".json")%string ->
              pdf_path = (base ++ ".pdf")%string.
Proof.
  eexists. eexists. eexists.
  split; [reflexivity |].
  split; [vm_compute; reflexivity |].
  split; [reflexivity |].
  eapply (pdf_beside_json two_track_load two_track_song two_track_files).
  - reflexivity.
  - vm_compute. left. reflexivity.
Defined.
